(** * Real-Estate-Agent: the matching and recommendation engine

    A shallow embedding of [src/real_estate_agents/matching_agent/agent.py]
    (class [MatchingAgent]), of the search of the property agent and of the
    orchestration around them, and the properties of the scoring, ranking,
    search and summary code.

    Conventions of the embedding.
    - A Python [float] that is a number is the rational it stands for ([Q]):
      sums, products and quotients of numbers are exact, without the rounding
      of the doubles.  What the range of the doubles does to a value is kept
      where a text or an [int] enters the arithmetic: [float] reads the
      infinities and NaN, a literal beyond the range is an infinity and one
      below it is zero ([PyFloat]), and an [int] beyond the range raises
      [OverflowError].  Module [Binary64] repeats the constructor's weight
      normalisation over IEEE binary64 numbers, for the properties that
      depend on rounding.
    - A Python [int] is a [Z].
    - A Python [str] is a [string] of UTF-8 bytes.  Substring search,
      [replace] and [split] on code points coincide with the same operations
      on the UTF-8 bytes, since UTF-8 is self-synchronising; white space and
      decimal digits are those of Unicode, read character by character.
    - A raised exception is the [Raise] case of [result]; [try/except] is a
      [match] on it.
    - A listing ([Dict[str, Any]]) is a record of optional fields: [None] is
      an absent key, and a present key holds a value of the type the
      [PropertyInfo] model of the property agent declares for it.
    - [round(x, 2)] is a parameter of the summary, [round2]. *)

From Stdlib Require Import QArith Qround Qpower Lqa ZArith Lia List String Ascii Bool.
From Stdlib Require Import Permutation Sorted Floats Uint63.
From stdpp Require Import base option gmap strings.

Import ListNotations.
Set Warnings "-inexact-float".
Local Open Scope string_scope.
Local Open Scope Q_scope.

(** ** Exceptions *)

Inductive exn : Set :=
| KeyError
| ValueError
| ZeroDivisionError
| OverflowError.

Inductive result (A : Type) : Type :=
| Ok (a : A)
| Raise (e : exn).

Arguments Ok {A} a.
Arguments Raise {A} e.

Definition bind {A B : Type} (r : result A) (k : A -> result B) : result B :=
  match r with
  | Ok a => k a
  | Raise e => Raise e
  end.

Notation "'let!' x ':=' r 'in' k" := (bind r (fun x => k))
  (at level 10, x name, r at level 100, k at level 200).

(** [d[key]] on a dict whose key may be absent. *)
Definition getitem {A : Type} (field : option A) : result A :=
  match field with
  | Some a => Ok a
  | None => Raise KeyError
  end.

(** [d.get(key, "")]. *)
Definition get_str (field : option string) : string :=
  match field with
  | Some s => s
  | None => ""
  end.

Fixpoint mapM {A B : Type} (f : A -> result B) (l : list A) : result (list B) :=
  match l with
  | [] => Ok []
  | x :: l' => let! y := f x in let! ys := mapM f l' in Ok (y :: ys)
  end.

(** ** Python numbers *)

Module PyNum.

(** [a < b] on numbers. *)
Definition Qlt_bool (a b : Q) : bool := negb (Qle_bool b a).

(** [a / b] on floats: true division raises on a zero divisor. *)
Definition div (a b : Q) : result Q :=
  if Qeq_bool b 0 then Raise ZeroDivisionError else Ok (a / b).

(** [max(a, b)]: the first of the largest arguments. *)
Definition max (a b : Q) : Q := if Qlt_bool a b then b else a.

(** [abs(a)]. *)
Definition abs (a : Q) : Q := if Qlt_bool a 0 then - a else a.

(** The least magnitude that is beyond the doubles: [2^1024 - 2^970], half
    way between the largest double and [2^1024]. *)
Definition overflow_bound : Z := (2 ^ 1024 - 2 ^ 970)%Z.

Definition overflows (x : Q) : bool :=
  Qle_bool (inject_Z overflow_bound) x || Qle_bool x (inject_Z (- overflow_bound)).

(** The conversion of an [int] to a [float], as in [n / 60.0]. *)
Definition int_to_float (n : Z) : result Q :=
  if overflows (inject_Z n) then Raise OverflowError else Ok (inject_Z n).

(** [a / b] on two [int]s: the quotient as a float. *)
Definition int_div (a b : Z) : result Q :=
  if (b =? 0)%Z then Raise ZeroDivisionError
  else if overflows (inject_Z a / inject_Z b) then Raise OverflowError
  else Ok (inject_Z a / inject_Z b).

End PyNum.

(** ** Floats that need not be numbers

    The bounds of a budget come from [float(text)], which also reads the
    infinities and NaN. *)

Module PyFloat.

Inductive t : Type :=
| Finite (q : Q)
| PosInf
| NegInf
| NaN.

(** The greatest magnitude that is read as zero: [2^-1075], half of the
    least positive double. *)
Definition underflow_bound : Q := 1 / inject_Z (2 ^ 1075).

(** The float that a decimal literal of value [q] is read as, as far as the
    range of the doubles goes. *)
Definition of_Q (q : Q) : t :=
  if Qle_bool (inject_Z PyNum.overflow_bound) q then PosInf
  else if Qle_bool q (inject_Z (- PyNum.overflow_bound)) then NegInf
  else if Qle_bool (- underflow_bound) q && Qle_bool q underflow_bound
  then Finite 0
  else Finite q.

(** [x * k] for a number [k]. *)
Definition mul (x : t) (k : Q) : t :=
  match x with
  | Finite q => of_Q (q * k)
  | PosInf =>
      if PyNum.Qlt_bool 0 k then PosInf
      else if PyNum.Qlt_bool k 0 then NegInf else NaN
  | NegInf =>
      if PyNum.Qlt_bool 0 k then NegInf
      else if PyNum.Qlt_bool k 0 then PosInf else NaN
  | NaN => NaN
  end.

(** [not x]: every float but zero is a true value, NaN too. *)
Definition is_zero (x : t) : bool :=
  match x with
  | Finite q => Qeq_bool q 0
  | _ => false
  end.

(** [a <= b] and [a < b]: false as soon as one side is NaN. *)
Definition le (a b : t) : bool :=
  match a, b with
  | NaN, _ | _, NaN => false
  | Finite x, Finite y => Qle_bool x y
  | NegInf, _ | _, PosInf => true
  | _, _ => false
  end.

Definition lt (a b : t) : bool :=
  match a, b with
  | NaN, _ | _, NaN => false
  | Finite x, Finite y => PyNum.Qlt_bool x y
  | PosInf, _ | _, NegInf => false
  | _, _ => true
  end.

(** [price / bound] for a price that is a number; [None] is NaN.  A number
    over an infinity is zero. *)
Definition ratio (price : Q) (bound : t) : result (option Q) :=
  match bound with
  | Finite b => let! r := PyNum.div price b in Ok (Some r)
  | PosInf | NegInf => Ok (Some 0)
  | NaN => Ok None
  end.

(** [(price - bound) / bound]: an infinity over an infinity is NaN. *)
Definition excess_ratio (price : Q) (bound : t) : result (option Q) :=
  match bound with
  | Finite b => let! r := PyNum.div (price - b) b in Ok (Some r)
  | PosInf | NegInf | NaN => Ok None
  end.

(** [1.0 - x]. *)
Definition one_minus (x : option Q) : option Q :=
  match x with
  | Some r => Some (1 - r)
  | None => None
  end.

(** [max(0.0, x)]: 0.0 when [x] is NaN, which is not larger than 0.0. *)
Definition max_zero (x : option Q) : Q :=
  match x with
  | Some r => PyNum.max 0 r
  | None => 0
  end.

End PyFloat.

(** ** Python strings

    A text is the [string] of its UTF-8 bytes.  The operations that look at
    single characters (white space, decimal digits) go through [chars], the
    list of the characters of a text, each one the string of its bytes.  The
    character classes are those of Unicode 14.0, which Python 3.11 uses. *)

Module PyStr.

Definition is_empty (s : string) : bool :=
  match s with
  | EmptyString => true
  | String _ _ => false
  end.

(** [sub in s]. *)
Fixpoint contains (sub s : string) : bool :=
  if String.prefix sub s then true
  else match s with
       | EmptyString => false
       | String _ s' => contains sub s'
       end.

(** [s.replace(old, new)] for a non-empty [old]: the matches are taken from
    the left and do not overlap.  [skip] counts the bytes of a match that
    are still to be dropped. *)
Fixpoint replace_from (old new s : string) (skip : nat) : string :=
  match s with
  | EmptyString => EmptyString
  | String c s' =>
      match skip with
      | S k => replace_from old new s' k
      | O =>
          if String.prefix old s
          then new ++ replace_from old new s' (String.length old - 1)
          else String c (replace_from old new s' 0)
      end
  end.

Fixpoint interleave (new s : string) : string :=
  match s with
  | EmptyString => EmptyString
  | String c s' => String c (new ++ interleave new s')
  end.

Definition replace (old new s : string) : string :=
  if is_empty old then new ++ interleave new s
  else replace_from old new s 0.

(** [s.split(sep)] for a non-empty [sep]; [cur] is the piece being read. *)
Fixpoint split_from (sep s : string) (skip : nat) (cur : string) : list string :=
  match s with
  | EmptyString => [cur]
  | String c s' =>
      match skip with
      | S k => split_from sep s' k cur
      | O =>
          if String.prefix sep s
          then cur :: split_from sep s' (String.length sep - 1) ""
          else split_from sep s' 0 (cur ++ String c "")
      end
  end.

Definition split (sep s : string) : result (list string) :=
  if is_empty sep then Raise ValueError else Ok (split_from sep s 0 "").

(** [sep.join(parts)]. *)
Fixpoint join (sep : string) (parts : list string) : string :=
  match parts with
  | [] => ""
  | [p] => p
  | p :: ps => p ++ sep ++ join sep ps
  end.

(** *** Characters *)

(** The number of bytes of the character that starts with the byte [c]. *)
Definition utf8_length (c : ascii) : nat :=
  let b := nat_of_ascii c in
  if (b <? 192)%nat then 1%nat
  else if (b <? 224)%nat then 2%nat
  else if (b <? 240)%nat then 3%nat
  else 4%nat.

(** The characters of [s]; [cur] holds the bytes of a character that still
    lacks [need] bytes.  Bytes at the end that do not make a whole character
    are no character. *)
Fixpoint chars_from (s cur : string) (need : nat) : list string :=
  match s with
  | EmptyString => []
  | String c s' =>
      match need with
      | O =>
          match utf8_length c with
          | S O => String c "" :: chars_from s' "" 0
          | n => chars_from s' (String c "") (n - 1)
          end
      | S O => (cur ++ String c "") :: chars_from s' "" 0
      | S k => chars_from s' (cur ++ String c "") k
      end
  end.

Definition chars (s : string) : list string := chars_from s "" 0.

Fixpoint concat (cs : list string) : string :=
  match cs with
  | [] => ""
  | ch :: cs' => ch ++ concat cs'
  end.

(** The payload bits of the bytes after the first one. *)
Fixpoint continuation (s : string) (acc : N) : N :=
  match s with
  | EmptyString => acc
  | String c s' => continuation s' (acc * 64 + (N_of_ascii c - 128))%N
  end.

(** The code point of a character. *)
Definition code_point (ch : string) : N :=
  match ch with
  | EmptyString => 0%N
  | String c rest =>
      let b := N_of_ascii c in
      let lead :=
        if (b <? 192)%N then b
        else if (b <? 224)%N then (b - 192)%N
        else if (b <? 240)%N then (b - 224)%N
        else (b - 240)%N in
      continuation rest lead
  end.

(** [ch.isspace()]. *)
Definition space_points : list N :=
  [ 9; 10; 11; 12; 13; 28; 29; 30; 31; 32; 133; 160; 5760; 8192; 8193; 8194;
    8195; 8196; 8197; 8198; 8199; 8200; 8201; 8202; 8232; 8233; 8239; 8287;
    12288 ]%N.

Definition is_space (ch : string) : bool :=
  existsb (N.eqb (code_point ch)) space_points.

(** The code points of the digits zero of Unicode: each one starts a run of
    the ten decimal digits of a script. *)
Definition decimal_zeros : list N :=
  [ 48; 1632; 1776; 1984; 2406; 2534; 2662; 2790; 2918; 3046; 3174; 3302;
    3430; 3558; 3664; 3792; 3872; 4160; 4240; 6112; 6160; 6470; 6608; 6784;
    6800; 6992; 7088; 7232; 7248; 42528; 43216; 43264; 43472; 43504; 43600;
    44016; 65296; 66720; 68912; 69734; 69872; 69942; 70096; 70384; 70736;
    70864; 71248; 71360; 71472; 71904; 72016; 72784; 73040; 73120; 92768;
    92864; 93008; 120782; 120792; 120802; 120812; 120822; 123200; 123632;
    125264; 130032 ]%N.

Fixpoint decimal_in (zeros : list N) (cp : N) : option N :=
  match zeros with
  | [] => None
  | z :: zeros' =>
      if (z <=? cp)%N && (cp <? z + 10)%N then Some (cp - z)%N
      else decimal_in zeros' cp
  end.

(** The value of a decimal digit, of any script. *)
Definition decimal_value (ch : string) : option N :=
  decimal_in decimal_zeros (code_point ch).

Definition is_decimal (ch : string) : bool :=
  match decimal_value ch with
  | Some _ => true
  | None => false
  end.

(** *** White space *)

Fixpoint drop_spaces (cs : list string) : list string :=
  match cs with
  | [] => []
  | ch :: cs' => if is_space ch then drop_spaces cs' else cs
  end.

Fixpoint drop_trailing_spaces (cs : list string) : list string :=
  match cs with
  | [] => []
  | ch :: cs' =>
      match drop_trailing_spaces cs' with
      | [] => if is_space ch then [] else [ch]
      | rest => ch :: rest
      end
  end.

(** [s.strip()]. *)
Definition strip (s : string) : string :=
  concat (drop_trailing_spaces (drop_spaces (chars s))).

(** *** Runs of digits *)

(** [re.findall(r'\d+', s)]: the maximal runs of decimal digits, from the
    left; [cur] holds the characters of the run being read. *)
Fixpoint digit_runs (cs cur : list string) : list (list string) :=
  match cs with
  | [] =>
      match cur with
      | [] => []
      | _ => [cur]
      end
  | ch :: cs' =>
      if is_decimal ch then digit_runs cs' (cur ++ [ch])%list
      else
        match cur with
        | [] => digit_runs cs' []
        | _ => cur :: digit_runs cs' []
        end
  end.

Definition findall_digits (s : string) : list string :=
  map concat (digit_runs (chars s) []).

(** *** Numerals *)

(** What [int] and [float] first make of a character: one below 127
    stays, white space becomes a blank, a decimal digit its ASCII digit; any
    other character makes the text unreadable. *)
Definition to_ascii (ch : string) : option ascii :=
  let translated :=
    if is_space ch then Some " "%char
    else match decimal_value ch with
         | Some d => Some (ascii_of_N (48 + d))
         | None => None
         end in
  match ch with
  | String c EmptyString =>
      if (nat_of_ascii c <? 127)%nat then Some c else translated
  | _ => translated
  end.

Fixpoint ascii_form (cs : list string) : option string :=
  match cs with
  | [] => Some ""
  | ch :: cs' =>
      match to_ascii ch, ascii_form cs' with
      | Some c, Some rest => Some (String c rest)
      | _, _ => None
      end
  end.

(** The white space of C: blank, tab, line feed, vertical tab, form feed and
    carriage return. *)
Definition is_c_space (c : ascii) : bool :=
  let n := nat_of_ascii c in
  ((9 <=? n)%nat && (n <=? 13)%nat) || (n =? 32)%nat.

Fixpoint c_lstrip (s : string) : string :=
  match s with
  | EmptyString => EmptyString
  | String c s' => if is_c_space c then c_lstrip s' else s
  end.

Fixpoint c_rstrip (s : string) : string :=
  match s with
  | EmptyString => EmptyString
  | String c s' =>
      let r := c_rstrip s' in
      if is_c_space c && is_empty r then EmptyString else String c r
  end.

Definition c_strip (s : string) : string := c_rstrip (c_lstrip s).

Definition is_digit (c : ascii) : bool :=
  let n := nat_of_ascii c in (48 <=? n)%nat && (n <=? 57)%nat.

Definition digit_value (c : ascii) : Z := Z.of_nat (nat_of_ascii c - 48).

(** The underscores of a numeral are dropped when each of them stands
    between two digits; [prev] tells whether the byte before is a digit. *)
Fixpoint drop_underscores (s : string) (prev : bool) : option string :=
  match s with
  | EmptyString => Some ""
  | String c s' =>
      if Ascii.eqb c "_" then
        match s' with
        | String d _ =>
            if prev && is_digit d then drop_underscores s' false else None
        | EmptyString => None
        end
      else
        match drop_underscores s' (is_digit c) with
        | Some rest => Some (String c rest)
        | None => None
        end
  end.

Fixpoint all_digits (s : string) : bool :=
  match s with
  | EmptyString => true
  | String c s' => is_digit c && all_digits s'
  end.

(** The value of a run of ASCII digits read after the value [acc]. *)
Fixpoint digits_value (s : string) (acc : Z) : Z :=
  match s with
  | EmptyString => acc
  | String c s' => digits_value s' (10 * acc + digit_value c)%Z
  end.

(** An optional sign: [true] for a minus. *)
Definition read_sign (s : string) : bool * string :=
  match s with
  | String "-"%char r => (true, r)
  | String "+"%char r => (false, r)
  | _ => (false, s)
  end.

(** The longest numeral that [int] converts. *)
Definition max_str_digits : nat := 4300.

(** [int(s)]: white space around an optional sign and decimal digits, with
    single underscores between digits; [ValueError] for any other text and
    for more than 4300 digits. *)
Definition int (s : string) : result Z :=
  match ascii_form (chars s) with
  | None => Raise ValueError
  | Some text =>
      match drop_underscores (c_strip text) false with
      | None => Raise ValueError
      | Some numeral =>
          let '(neg, digits) := read_sign numeral in
          if is_empty digits || negb (all_digits digits) then Raise ValueError
          else if (max_str_digits <? String.length digits)%nat then Raise ValueError
          else Ok (if neg then (- digits_value digits 0)%Z else digits_value digits 0)
      end
  end.

(** The longest prefix of digits, and what follows it. *)
Fixpoint span_digits (s : string) : string * string :=
  match s with
  | EmptyString => (EmptyString, EmptyString)
  | String c s' =>
      if is_digit c
      then let '(d, r) := span_digits s' in (String c d, r)
      else (EmptyString, s)
  end.

(** The exponent part of a decimal literal: empty, or [e] or [E], an
    optional sign and at least one digit, up to the end of the text. *)
Definition read_exponent (s : string) : result Z :=
  match s with
  | EmptyString => Ok 0%Z
  | String c r =>
      if (Ascii.eqb c "e" || Ascii.eqb c "E")%bool
      then let '(neg, r1) := read_sign r in
           let '(d, r2) := span_digits r1 in
           if is_empty d || negb (is_empty r2) then Raise ValueError
           else Ok (if neg then (- digits_value d 0)%Z else digits_value d 0)
      else Raise ValueError
  end.

(** A letter in lower case. *)
Definition lower (c : ascii) : ascii :=
  let n := nat_of_ascii c in
  if (65 <=? n)%nat && (n <=? 90)%nat then ascii_of_nat (n + 32) else c.

Fixpoint lower_string (s : string) : string :=
  match s with
  | EmptyString => EmptyString
  | String c s' => String (lower c) (lower_string s')
  end.

(** A decimal literal without its sign: digits with an optional fraction (at
    least one digit in all) and an optional exponent. *)
Definition decimal_literal (s : string) : result Q :=
  let '(ip, s2) := span_digits s in
  let '(fp, s3) := match s2 with
                   | String "."%char r => span_digits r
                   | _ => (EmptyString, s2)
                   end in
  if is_empty ip && is_empty fp then Raise ValueError
  else
    let! e := read_exponent s3 in
    Ok (inject_Z (digits_value (ip ++ fp) 0)
        * Qpower 10 (e - Z.of_nat (String.length fp))).

(** [float(s)]: white space around an optional sign and [inf], [infinity],
    [nan] in any case or a decimal literal, with single underscores between
    digits; [ValueError] for any other text.  A literal beyond the range of
    the doubles is an infinity, one below it is zero. *)
Definition float (s : string) : result PyFloat.t :=
  match ascii_form (chars s) with
  | None => Raise ValueError
  | Some text =>
      match drop_underscores (c_strip text) false with
      | None => Raise ValueError
      | Some numeral =>
          let '(neg, body) := read_sign numeral in
          let word := lower_string body in
          if String.eqb word "inf" || String.eqb word "infinity"
          then Ok (if neg then PyFloat.NegInf else PyFloat.PosInf)
          else if String.eqb word "nan" then Ok PyFloat.NaN
          else
            let! v := decimal_literal body in
            Ok (PyFloat.of_Q (if neg then - v else v))
      end
  end.

End PyStr.

(** ** Data model *)

(** A listing: the keys of the dict that the matching agent reads.  The other
    keys of [PropertyInfo] (size, bedrooms, ...) are carried along untouched
    and are left out. *)
Module Listing.
Record t : Type := mk {
  property_id : option string;
  address : option string;
  price : option Q;
  area : option string;
  school_district : option string;
  commute_time : option Z
}.
End Listing.

(** The structured requirements: four optional texts. *)
Module Requirements.
Record t : Type := mk {
  budget : option string;
  area : option string;
  school_district : option string;
  commute : option string
}.
End Requirements.

Record MatchingScore : Type := mkMatchingScore {
  ms_property_id : string;
  total_score : Q;
  budget_score : Q;
  area_score : Q;
  school_score : Q;
  commute_score : Q;
  recommendation_reason : string
}.

Record PropertyRecommendation : Type := mkPropertyRecommendation {
  property_info : Listing.t;
  matching_score : MatchingScore;
  rank : Z
}.

(** ** Python lists *)

Module PyList.

(** [l[:k]]: a negative [k] counts from the end. *)
Definition slice_to {A : Type} (k : Z) (l : list A) : list A :=
  if (k <? 0)%Z
  then firstn (Z.to_nat (Z.of_nat (length l) + k)) l
  else firstn (Z.to_nat k) l.

(** [enumerate(l, start)]. *)
Fixpoint enumerate {A : Type} (start : Z) (l : list A) : list (Z * A) :=
  match l with
  | [] => []
  | x :: l' => (start, x) :: enumerate (start + 1) l'
  end.

(** [l.sort(key=key, reverse=True)].  The sort of Python is stable, and
    with [reverse=True] the elements of equal key still keep their original
    order: the result is the one of inserting each element, from the last
    to the first, in front of the first element whose key is not larger. *)
Section Sort.
Context {A : Type} (key : A -> Q).

Fixpoint insert_desc (x : A) (l : list A) : list A :=
  match l with
  | [] => [x]
  | y :: l' =>
      if PyNum.Qlt_bool (key x) (key y) then y :: insert_desc x l'
      else x :: l
  end.

Fixpoint sort_desc (l : list A) : list A :=
  match l with
  | [] => []
  | x :: l' => insert_desc x (sort_desc l')
  end.
End Sort.

End PyList.

(** ** The matching agent *)

Module MatchingAgent.

(** The state of an agent: the four normalised weights. *)
Record t : Type := mk {
  budget_weight : Q;
  area_weight : Q;
  school_weight : Q;
  commute_weight : Q
}.

(** [MatchingAgent.__init__]: each weight is divided by the sum of the four. *)
Definition __init__ (budget_weight area_weight school_weight commute_weight : Q)
  : result t :=
  let total_weight := budget_weight + area_weight + school_weight + commute_weight in
  let! bw := PyNum.div budget_weight total_weight in
  let! aw := PyNum.div area_weight total_weight in
  let! sw := PyNum.div school_weight total_weight in
  let! cw := PyNum.div commute_weight total_weight in
  Ok (mk bw aw sw cw).

(** The default arguments of the constructor. *)
Definition default_agent : result t := __init__ 0.4 0.2 0.3 0.3.

(** The price of the listing is a number; the bounds are what [float] read
    from the budget text. *)
Definition calculate_budget_score (property_price : Q)
    (budget_min budget_max : option PyFloat.t) : result Q :=
  let price := PyFloat.Finite property_price in
  match budget_min, budget_max with
  | None, None => Ok 0.5
  | Some bmin, None =>
      if PyFloat.le bmin price then Ok 1
      else let! r := PyFloat.ratio property_price bmin in
           Ok (PyFloat.max_zero r)
  | None, Some bmax =>
      if PyFloat.le price bmax then Ok 1
      else let! r := PyFloat.excess_ratio property_price bmax in
           Ok (PyFloat.max_zero (PyFloat.one_minus r))
  | Some bmin, Some bmax =>
      if PyFloat.le bmin price && PyFloat.le price bmax then Ok 1
      else if PyFloat.lt price bmin
      then let! r := PyFloat.ratio property_price bmin in
           Ok (PyFloat.max_zero r)
      else let! r := PyFloat.excess_ratio property_price bmax in
           Ok (PyFloat.max_zero (PyFloat.one_minus r))
  end.

Definition area_similarity_map : gmap string (list string) :=
  list_to_map
    [ ("朝阳区", ["海淀区"; "东城区"]);
      ("海淀区", ["朝阳区"; "西城区"]);
      ("西城区", ["海淀区"; "东城区"]);
      ("东城区", ["西城区"; "朝阳区"]);
      ("丰台区", ["朝阳区"; "西城区"]) ].

(** [x in l] on a list of strings. *)
Definition list_contains (x : string) (l : list string) : bool :=
  existsb (String.eqb x) l.

Definition calculate_area_score (property_area required_area : string) : Q :=
  if PyStr.is_empty required_area then 0.5
  else if PyStr.contains required_area property_area
          || PyStr.contains property_area required_area then 1
  else
    let similar_areas := default [] (area_similarity_map !! required_area) in
    if list_contains property_area similar_areas then 0.7
    else 0.2.

Definition school_quality_map : gmap string Q :=
  list_to_map
    [ ("北京第二实验小学", 0.95);
      ("中关村第一小学", 0.90);
      ("朝阳实验小学", 0.85);
      ("朝阳外国语学校", 0.88);
      ("丰台第五小学", 0.75);
      ("丰台实验小学", 0.78) ].

Definition calculate_school_score (property_school required_school : string) : Q :=
  if PyStr.is_empty required_school then 0.5
  else if PyStr.contains required_school property_school
          || PyStr.contains property_school required_school then 1
  else
    let property_quality := default 0.6 (school_quality_map !! property_school) in
    let required_quality := default 0.6 (school_quality_map !! required_school) in
    let quality_diff := PyNum.abs (property_quality - required_quality) in
    PyNum.max 0 (1 - quality_diff * 2).

Definition calculate_commute_score (property_commute : Z)
    (required_commute : option Z) : result Q :=
  match required_commute with
  | None =>
      let! minutes := PyNum.int_to_float property_commute in
      let! r := PyNum.div minutes 60 in
      Ok (PyNum.max 0 (1 - r))
  | Some required =>
      if (property_commute <=? required)%Z then Ok 1
      else
        let! excess_ratio :=
          PyNum.int_div (property_commute - required) required in
        Ok (PyNum.max 0 (1 - excess_ratio))
  end.

(** The budget text of the requirements, lines 189-201 of
    [calculate_matching_score]: the pair [(budget_min, budget_max)]. *)
Definition parse_budget (budget_str : string)
  : result (option PyFloat.t * option PyFloat.t) :=
  if negb (PyStr.is_empty budget_str) && PyStr.contains "万" budget_str then
    let budget_str := PyStr.replace "万" "" budget_str in
    if PyStr.contains "-" budget_str then
      let! parts := PyStr.split "-" budget_str in
      match parts with
      | [lo; hi] =>
          let! budget_min := PyStr.float (PyStr.strip lo) in
          let! budget_max := PyStr.float (PyStr.strip hi) in
          Ok (Some (PyFloat.mul budget_min 10000),
              Some (PyFloat.mul budget_max 10000))
      | _ => Ok (None, None)
      end
    else if PyStr.contains "以内" budget_str then
      let! budget_max :=
        PyStr.float (PyStr.strip (PyStr.replace "以内" "" budget_str)) in
      Ok (None, Some (PyFloat.mul budget_max 10000))
    else Ok (None, None)
  else Ok (None, None).

(** The commute text, lines 203-209: [max_commute_time]. *)
Definition parse_commute (commute_str : string) : result (option Z) :=
  if negb (PyStr.is_empty commute_str) && PyStr.contains "分钟" commute_str then
    match PyStr.findall_digits commute_str with
    | [] => Ok None
    | first :: _ => let! n := PyStr.int first in Ok (Some n)
    end
  else Ok None.

(** One criterion of the recommendation reason. *)
Definition reason_part (score : Q) (strong moderate : string) : list string :=
  if Qle_bool 0.8 score then [strong]
  else if Qle_bool 0.6 score then [moderate]
  else [].

Definition reason_of (budget_score area_score school_score commute_score : Q)
  : string :=
  let reason_parts :=
    (reason_part budget_score "价格符合预算" "价格基本符合预算"
     ++ reason_part area_score "位置优越" "位置较好"
     ++ reason_part school_score "学区优质" "学区不错"
     ++ reason_part commute_score "通勤便利" "通勤较为便利")%list in
  let reason_parts :=
    match reason_parts with
    | [] => ["综合条件一般"]
    | _ => reason_parts
    end in
  PyStr.join "，" reason_parts.

Definition calculate_matching_score (self : t) (property_info : Listing.t)
    (requirements : Requirements.t) : result MatchingScore :=
  let! bounds := parse_budget (get_str (Requirements.budget requirements)) in
  let '(budget_min, budget_max) := bounds in
  let! max_commute_time :=
    parse_commute (get_str (Requirements.commute requirements)) in
  let! price := getitem (Listing.price property_info) in
  let! budget_score := calculate_budget_score price budget_min budget_max in
  let! area := getitem (Listing.area property_info) in
  let area_score :=
    calculate_area_score area (get_str (Requirements.area requirements)) in
  let! school := getitem (Listing.school_district property_info) in
  let school_score :=
    calculate_school_score school
      (get_str (Requirements.school_district requirements)) in
  let! commute := getitem (Listing.commute_time property_info) in
  let! commute_score := calculate_commute_score commute max_commute_time in
  let total_score :=
    budget_score * budget_weight self
    + area_score * area_weight self
    + school_score * school_weight self
    + commute_score * commute_weight self in
  let recommendation_reason :=
    reason_of budget_score area_score school_score commute_score in
  let! property_id := getitem (Listing.property_id property_info) in
  Ok (mkMatchingScore property_id total_score budget_score area_score
        school_score commute_score recommendation_reason).

(** The first loop of [recommend_properties]: every listing with its score. *)
Definition scored_properties (self : t) (properties : list Listing.t)
    (requirements : Requirements.t) : result (list (Listing.t * MatchingScore)) :=
  mapM (fun prop =>
          let! matching_score := calculate_matching_score self prop requirements in
          Ok (prop, matching_score))
       properties.

Definition sort_key (x : Listing.t * MatchingScore) : Q := total_score (snd x).

(** The list of recommendations built from the sorted scores. *)
Definition recommendations_of (top_k : Z)
    (sorted : list (Listing.t * MatchingScore)) : list PropertyRecommendation :=
  map (fun '(rank, (prop, score)) => mkPropertyRecommendation prop score rank)
      (PyList.enumerate 1 (PyList.slice_to top_k sorted)).

(** [recommend_properties]: any exception of the body is caught and gives
    the empty list. *)
Definition recommend_properties (self : t) (properties : list Listing.t)
    (requirements : Requirements.t) (top_k : Z) : list PropertyRecommendation :=
  match scored_properties self properties requirements with
  | Ok scored => recommendations_of top_k (PyList.sort_desc sort_key scored)
  | Raise _ => []
  end.

(** *** The summary *)

Record ScoreBreakdown : Type := mkScoreBreakdown {
  sb_budget : Q;
  sb_area : Q;
  sb_school : Q;
  sb_commute : Q
}.

Record SummaryEntry : Type := mkSummaryEntry {
  se_rank : Z;
  se_property_id : string;
  se_address : string;
  se_price : Q;
  se_area : string;
  se_school_district : string;
  se_commute_time : Z;
  se_matching_score : Q;
  se_score_breakdown : ScoreBreakdown;
  se_reason : string
}.

Record TopRecommendation : Type := mkTopRecommendation {
  top_property_id : string;
  top_address : string;
  top_price : Q;
  top_matching_score : Q;
  top_reason : string
}.

Inductive Summary : Type :=
| NoRecommendation (message : string)
| Report (total_recommendations : Z) (average_matching_score : Q)
    (price_min price_max : Q) (top_recommendation : TopRecommendation)
    (recommendations : list SummaryEntry).

(** [sum(xs)]. *)
Definition sum (xs : list Q) : Q := fold_left Qplus xs 0.

(** [min(xs)] and [max(xs)] of a list that starts with [x]: the first of
    the smallest, the first of the largest. *)
Definition min_from (x : Q) (xs : list Q) : Q :=
  fold_left (fun m y => if PyNum.Qlt_bool y m then y else m) xs x.

Definition max_from (x : Q) (xs : list Q) : Q :=
  fold_left (fun m y => if PyNum.Qlt_bool m y then y else m) xs x.

(** [round(x, 2)] gives the double next to the decimal rounding of a double;
    it is the parameter [round2] of the summary. *)
Section Summary.
Variable round2 : Q -> Q.

Definition summary_entry (rec : PropertyRecommendation) : result SummaryEntry :=
  let info := property_info rec in
  let score := matching_score rec in
  let! property_id := getitem (Listing.property_id info) in
  let! address := getitem (Listing.address info) in
  let! price := getitem (Listing.price info) in
  let! area := getitem (Listing.area info) in
  let! school_district := getitem (Listing.school_district info) in
  let! commute_time := getitem (Listing.commute_time info) in
  Ok (mkSummaryEntry (rank rec) property_id address price area school_district
        commute_time (round2 (total_score score))
        (mkScoreBreakdown (round2 (budget_score score))
           (round2 (area_score score))
           (round2 (school_score score))
           (round2 (commute_score score)))
        (recommendation_reason score)).

Definition generate_recommendation_summary
    (recommendations : list PropertyRecommendation) : result Summary :=
  match recommendations with
  | [] => Ok (NoRecommendation "未找到合适的房源推荐")
  | first :: _ =>
      let total_count := Z.of_nat (length recommendations) in
      let! avg_score :=
        PyNum.div
          (sum (map (fun rec => total_score (matching_score rec)) recommendations))
          (inject_Z total_count) in
      let! prices :=
        mapM (fun rec => getitem (Listing.price (property_info rec)))
             recommendations in
      let price_min := match prices with [] => 0 | x :: xs => min_from x xs end in
      let price_max := match prices with [] => 0 | x :: xs => max_from x xs end in
      let! property_id := getitem (Listing.property_id (property_info first)) in
      let! address := getitem (Listing.address (property_info first)) in
      let! price := getitem (Listing.price (property_info first)) in
      let top :=
        mkTopRecommendation property_id address price
          (round2 (total_score (matching_score first)))
          (recommendation_reason (matching_score first)) in
      let! entries := mapM summary_entry recommendations in
      Ok (Report total_count (round2 avg_score) price_min price_max top
            entries)
  end.

End Summary.

End MatchingAgent.

(** ** The constructor in binary64 arithmetic

    [MatchingAgent.__init__] once more, on IEEE binary64 numbers with the
    rounding of every operation, which is what a Python [float] is. *)

Module Binary64.

Record t : Type := mk {
  budget_weight : float;
  area_weight : float;
  school_weight : float;
  commute_weight : float
}.

(** A zero sum (of either sign) makes the first division raise. *)
Definition __init__ (budget_weight area_weight school_weight commute_weight : float)
  : result t :=
  let total_weight :=
    (budget_weight + area_weight + school_weight + commute_weight)%float in
  if PrimFloat.eqb total_weight 0%float then Raise ZeroDivisionError
  else Ok (mk (budget_weight / total_weight)%float
              (area_weight / total_weight)%float
              (school_weight / total_weight)%float
              (commute_weight / total_weight)%float).

(** The sum of the four stored weights, added from the left. *)
Definition weight_sum (self : t) : float :=
  (budget_weight self + area_weight self + school_weight self
   + commute_weight self)%float.

(** The double of a small natural number. *)
Definition of_int (n : Z) : float := PrimFloat.of_uint63 (Uint63.of_Z n).

(** Within one unit in the last place of 1.0: from the second double below
    1.0 to the first double above it. *)
Definition near_one (x : float) : bool :=
  PrimFloat.leb 0x1.ffffffffffffep-1 x && PrimFloat.leb x 0x1.0000000000001p+0.

End Binary64.

(** ** The property agent

    [src/real_estate_agents/property_agent/agent.py].  The search tool
    returns its result as JSON text and [search_properties] reads it back;
    for the strings, integers and numbers of a result the two steps undo
    each other, and the embedding passes the result itself.  The text of
    the error that [search_properties] reports, [str(e)], is the exception. *)

Module PropertySearchTool.

Definition mock_properties : list Listing.t :=
  [ Listing.mk (Some "P001") (Some "朝阳区建国路88号") (Some 3500000)
      (Some "朝阳区") (Some "朝阳实验小学") (Some 25%Z);
    Listing.mk (Some "P002") (Some "海淀区中关村大街123号") (Some 4200000)
      (Some "海淀区") (Some "中关村第一小学") (Some 30%Z);
    Listing.mk (Some "P003") (Some "丰台区南三环西路456号") (Some 2800000)
      (Some "丰台区") (Some "丰台第五小学") (Some 35%Z);
    Listing.mk (Some "P004") (Some "西城区金融街789号") (Some 5800000)
      (Some "西城区") (Some "北京第二实验小学") (Some 15%Z);
    Listing.mk (Some "P005") (Some "朝阳区望京西路321号") (Some 3200000)
      (Some "朝阳区") (Some "朝阳外国语学校") (Some 28%Z) ].

Record SearchResult : Type := mkSearchResult {
  total_count : Z;
  properties : list Listing.t;
  error : option exn
}.

(** The conditions of a search, as [_run] receives them. *)
Record Conditions : Type := mkConditions {
  budget_min : option PyFloat.t;
  budget_max : option PyFloat.t;
  area : option string;
  school_district : option string;
  max_commute_time : option Z
}.

(** [if bound and test(prop[key], bound): continue], for a float, a text
    and an integer: [None], zero and the empty text are false, and the key
    is read only when the condition is a true value. *)
Definition skip_num (bound : option PyFloat.t) (field : option Q)
    (test : PyFloat.t -> PyFloat.t -> bool) : result bool :=
  match bound with
  | None => Ok false
  | Some b =>
      if PyFloat.is_zero b then Ok false
      else let! value := getitem field in Ok (test (PyFloat.Finite value) b)
  end.

Definition skip_str (wanted : option string) (field : option string) : result bool :=
  match wanted with
  | None => Ok false
  | Some w =>
      if PyStr.is_empty w then Ok false
      else let! value := getitem field in Ok (negb (PyStr.contains w value))
  end.

Definition skip_int (bound : option Z) (field : option Z) : result bool :=
  match bound with
  | None => Ok false
  | Some b =>
      if (b =? 0)%Z then Ok false
      else let! value := getitem field in Ok (b <? value)%Z
  end.

(** The body of the loop: whether [prop] is appended. *)
Definition keeps (c : Conditions) (prop : Listing.t) : result bool :=
  let! below := skip_num (budget_min c) (Listing.price prop) PyFloat.lt in
  if below then Ok false else
  let! above := skip_num (budget_max c) (Listing.price prop)
                  (fun price b => PyFloat.lt b price) in
  if above then Ok false else
  let! elsewhere := skip_str (area c) (Listing.area prop) in
  if elsewhere then Ok false else
  let! other_school := skip_str (school_district c) (Listing.school_district prop) in
  if other_school then Ok false else
  let! too_far := skip_int (max_commute_time c) (Listing.commute_time prop) in
  if too_far then Ok false else Ok true.

(** The loop over an inventory. *)
Fixpoint filtered_properties (c : Conditions) (inventory : list Listing.t)
  : result (list Listing.t) :=
  match inventory with
  | [] => Ok []
  | prop :: rest =>
      let! keep := keeps c prop in
      let! tail := filtered_properties c rest in
      Ok (if keep then prop :: tail else tail)
  end.

Definition run_on (inventory : list Listing.t) (c : Conditions) : result SearchResult :=
  let! filtered := filtered_properties c inventory in
  Ok (mkSearchResult (Z.of_nat (length filtered)) filtered None).

(** [PropertySearchTool._run]: the search of the mock inventory. *)
Definition _run (c : Conditions) : result SearchResult := run_on mock_properties c.

End PropertySearchTool.

Module PropertyAgent.

(** The budget text, lines 229-245 of [search_properties]. *)
Definition parse_budget (budget_str : string)
  : result (option PyFloat.t * option PyFloat.t) :=
  if negb (PyStr.is_empty budget_str) then
    if PyStr.contains "万" budget_str then
      let budget_str := PyStr.replace "万" "" budget_str in
      if PyStr.contains "-" budget_str then
        let! parts := PyStr.split "-" budget_str in
        match parts with
        | [lo; hi] =>
            let! budget_min := PyStr.float (PyStr.strip lo) in
            let! budget_max := PyStr.float (PyStr.strip hi) in
            Ok (Some (PyFloat.mul budget_min 10000),
                Some (PyFloat.mul budget_max 10000))
        | _ => Ok (None, None)
        end
      else
        if PyStr.contains "以内" budget_str then
          let! budget_max :=
            PyStr.float (PyStr.strip (PyStr.replace "以内" "" budget_str)) in
          Ok (None, Some (PyFloat.mul budget_max 10000))
        else Ok (None, None)
    else Ok (None, None)
  else Ok (None, None).

(** The commute text, lines 252-259. *)
Definition parse_commute (commute_str : string) : result (option Z) :=
  if negb (PyStr.is_empty commute_str) && PyStr.contains "分钟" commute_str then
    let numbers := PyStr.findall_digits commute_str in
    match numbers with
    | [] => Ok None
    | first :: _ => let! n := PyStr.int first in Ok (Some n)
    end
  else Ok None.

(** The conditions that [search_properties] passes to the search tool. *)
Definition conditions_of (requirements : Requirements.t)
  : result PropertySearchTool.Conditions :=
  let! bounds := parse_budget (get_str (Requirements.budget requirements)) in
  let '(budget_min, budget_max) := bounds in
  let area := get_str (Requirements.area requirements) in
  let school_district := get_str (Requirements.school_district requirements) in
  let! max_commute_time :=
    parse_commute (get_str (Requirements.commute requirements)) in
  Ok (PropertySearchTool.mkConditions budget_min budget_max (Some area)
        (Some school_district) max_commute_time).

(** [search_properties] over an inventory: any exception of the body gives
    the result of no property, with the error. *)
Definition search_in (inventory : list Listing.t) (requirements : Requirements.t)
  : PropertySearchTool.SearchResult :=
  match (let! c := conditions_of requirements in
         PropertySearchTool.run_on inventory c) with
  | Ok search_result => search_result
  | Raise e => PropertySearchTool.mkSearchResult 0 [] (Some e)
  end.

Definition search_properties (requirements : Requirements.t)
  : PropertySearchTool.SearchResult :=
  search_in PropertySearchTool.mock_properties requirements.

End PropertyAgent.

(** ** The requirement tool and the system

    [requirement_agent/agent.py] and [multi_agent_system.py]. *)

Module RequirementExtractionTool.

(** [value or ""]. *)
Definition or_empty (value : option string) : string :=
  match value with
  | Some s => s
  | None => ""
  end.

Definition _run (budget area school_district commute : option string)
  : Requirements.t :=
  Requirements.mk (Some (or_empty budget)) (Some (or_empty area))
    (Some (or_empty school_district)) (Some (or_empty commute)).

End RequirementExtractionTool.

Module RealEstateMultiAgentSystem.

Record t : Type := mk {
  matching_agent : MatchingAgent.t
}.

Definition __init__ : result t :=
  let! agent := MatchingAgent.__init__ 0.4 0.2 0.3 0.3 in
  Ok (mk agent).

(** What [process_user_query] returns: the message of no property, the
    summary, or the error that was caught. *)
Inductive Response : Type :=
| NotFound
| Answer (summary : MatchingAgent.Summary)
| Failure (e : exn).

Section Query.
Variable round2 : Q -> Q.

Definition process_user_query (self : t) (user_query : string) : Response :=
  let requirements := RequirementExtractionTool._run None None None None in
  let property_results := PropertyAgent.search_properties requirements in
  let properties := PropertySearchTool.properties property_results in
  if (length properties =? 0)%nat then NotFound
  else
    let recommendations :=
      MatchingAgent.recommend_properties (matching_agent self) properties
        requirements 3 in
    match MatchingAgent.generate_recommendation_summary round2
            recommendations with
    | Ok summary => Answer summary
    | Raise e => Failure e
    end.

End Query.

End RealEstateMultiAgentSystem.

(** ** Sample data

    The first listing of the mock inventory of the property agent, further
    listings made after it, and requirements in the shapes that the parsing
    recognises. *)

Module Examples.

Definition P001 : Listing.t :=
  Listing.mk (Some "P001") (Some "朝阳区建国路88号") (Some 3500000)
    (Some "朝阳区") (Some "朝阳实验小学") (Some 25%Z).

Definition P005 : Listing.t :=
  Listing.mk (Some "P005") (Some "朝阳区望京西路321号") (Some 4200000)
    (Some "海淀区") (Some "中关村第一小学") (Some 28%Z).

(** A listing that differs from [P001] in its identifier and address only. *)
Definition P006 : Listing.t :=
  Listing.mk (Some "P006") (Some "朝阳区建国路90号") (Some 3500000)
    (Some "朝阳区") (Some "朝阳实验小学") (Some 25%Z).

(** [P001] without its ["address"] key. *)
Definition P001_no_address : Listing.t :=
  Listing.mk (Some "P001") None (Some 3500000)
    (Some "朝阳区") (Some "朝阳实验小学") (Some 25%Z).

(** [P005] without its ["price"] key. *)
Definition P005_no_price : Listing.t :=
  Listing.mk (Some "P005") (Some "朝阳区望京西路321号") None
    (Some "海淀区") (Some "中关村第一小学") (Some 28%Z).

Definition requirements : Requirements.t :=
  Requirements.mk (Some "300-500万") (Some "朝阳区") None (Some "30分钟").

(** A budget cap of zero. *)
Definition requirements_zero_cap : Requirements.t :=
  Requirements.mk (Some "0万以内") (Some "朝阳区") None (Some "30分钟").

(** The agent that the constructor builds from its default arguments. *)
Definition agent : MatchingAgent.t :=
  Eval vm_compute in
    match MatchingAgent.default_agent with
    | Ok self => self
    | Raise _ => MatchingAgent.mk 0 0 0 0
    end.

(** The score of [P001] against [requirements] under [agent]. *)
Definition score_P001 : MatchingScore :=
  Eval vm_compute in
    match MatchingAgent.calculate_matching_score agent P001 requirements with
    | Ok ms => ms
    | Raise _ => mkMatchingScore "" 0 0 0 0 0 ""
    end.

(** The scores of three listings, two of them with the same total. *)
Definition scored : list (Listing.t * MatchingScore) :=
  Eval vm_compute in
    match MatchingAgent.scored_properties agent [P005; P006; P001] requirements with
    | Ok scored => scored
    | Raise _ => []
    end.

(** A rounding to the nearest hundredth, of the exact value, a tie going to
    the even neighbour. *)
Definition round_half_even (x : Q) : Q :=
  let t := x * 100 in
  let f := Qfloor t in
  let r := t - inject_Z f in
  let n := if PyNum.Qlt_bool r (1 # 2) then f
           else if PyNum.Qlt_bool (1 # 2) r then (f + 1)%Z
           else if Z.even f then f else (f + 1)%Z in
  inject_Z n / 100.

End Examples.

(** ** Notions used in the statements *)

Definition unit_interval (x : Q) : Prop := 0 <= x <= 1.

Definition weight_sum (self : MatchingAgent.t) : Q :=
  MatchingAgent.budget_weight self + MatchingAgent.area_weight self
  + MatchingAgent.school_weight self + MatchingAgent.commute_weight self.

(** The texts that [parse_budget] hands to [float]: two for a range, one for
    a cap, none for a text of any other shape. *)
Definition budget_numbers (budget_str : string) : list string :=
  if PyStr.contains "万" budget_str then
    let rest := PyStr.replace "万" "" budget_str in
    if PyStr.contains "-" rest then
      match PyStr.split_from "-" rest 0 "" with
      | [lo; hi] => [PyStr.strip lo; PyStr.strip hi]
      | _ => []
      end
    else if PyStr.contains "以内" rest
    then [PyStr.strip (PyStr.replace "以内" "" rest)]
    else []
  else [].

(** The text that [parse_commute] hands to [int]: the first run of digits of
    a text with the marker, if there is one. *)
Definition commute_number (commute_str : string) : option string :=
  if PyStr.contains "分钟" commute_str
  then head (PyStr.findall_digits commute_str)
  else None.

(** The number of characters of a text. *)
Definition char_count (s : string) : nat := length (PyStr.chars s).

(** A whole character: a first byte and as many bytes as it announces. *)
Definition whole (ch : string) : bool :=
  match ch with
  | String c rest => (String.length rest =? PyStr.utf8_length c - 1)%nat
  | EmptyString => false
  end.

(** A listing that lacks one of the keys that [calculate_matching_score]
    reads. *)
Definition absent {A : Type} (field : option A) : bool :=
  match field with
  | Some _ => false
  | None => true
  end.

Definition missing_required (p : Listing.t) : bool :=
  absent (Listing.price p) || absent (Listing.area p)
  || absent (Listing.school_district p) || absent (Listing.commute_time p)
  || absent (Listing.property_id p).

(** Descending by key, and the elements of one key. *)
Definition descending {A : Type} (key : A -> Q) : list A -> Prop :=
  StronglySorted (fun a b => key b <= key a).



(** A recommendation without its rank. *)
Definition unranked (rec : PropertyRecommendation) : Listing.t * MatchingScore :=
  (property_info rec, matching_score rec).

(** The byte [a] occurs in [s]. *)
Fixpoint occurs (a : ascii) (s : string) : bool :=
  match s with
  | EmptyString => false
  | String c s' => Ascii.eqb a c || occurs a s'
  end.

(** A bound that is set is not negative: it is NaN, the positive infinity or
    a number that is not negative. *)
Definition bound_nonneg (bound : option PyFloat.t) : Prop :=
  match bound with
  | Some (PyFloat.Finite b) => 0 <= b
  | Some PyFloat.NegInf => False
  | _ => True
  end.

(** A bound that is set and is NaN. *)
Definition is_nan (bound : option PyFloat.t) : bool :=
  match bound with
  | Some PyFloat.NaN => true
  | _ => false
  end.

(** A bound that is set and is zero. *)
Definition is_zero (bound : option PyFloat.t) : bool :=
  match bound with
  | Some b => PyFloat.is_zero b
  | None => false
  end.

(** An integer that a double holds exactly. *)
Definition exact_int (n : Z) : Prop := (Z.abs n <= 2 ^ 53)%Z.

(** A listing with the six keys that the summary reads. *)
Definition complete (p : Listing.t) : bool :=
  negb (absent (Listing.property_id p)) && negb (absent (Listing.address p))
  && negb (absent (Listing.price p)) && negb (absent (Listing.area p))
  && negb (absent (Listing.school_district p))
  && negb (absent (Listing.commute_time p)).

(** The entry of the summary for a recommendation and the top
    recommendation, under the rounding [round2]: the keys of the listing,
    the rank, the rounded scores and the reason. *)
Definition entry_of (round2 : Q -> Q) (rec : PropertyRecommendation)
    (entry : MatchingAgent.SummaryEntry) : Prop :=
  let info := property_info rec in
  let score := matching_score rec in
  MatchingAgent.se_rank entry = rank rec
  /\ Listing.property_id info = Some (MatchingAgent.se_property_id entry)
  /\ Listing.address info = Some (MatchingAgent.se_address entry)
  /\ Listing.price info = Some (MatchingAgent.se_price entry)
  /\ Listing.area info = Some (MatchingAgent.se_area entry)
  /\ Listing.school_district info = Some (MatchingAgent.se_school_district entry)
  /\ Listing.commute_time info = Some (MatchingAgent.se_commute_time entry)
  /\ MatchingAgent.se_matching_score entry = round2 (total_score score)
  /\ MatchingAgent.se_score_breakdown entry
     = MatchingAgent.mkScoreBreakdown (round2 (budget_score score))
         (round2 (area_score score)) (round2 (school_score score))
         (round2 (commute_score score))
  /\ MatchingAgent.se_reason entry = recommendation_reason score.

Definition top_of (round2 : Q -> Q) (rec : PropertyRecommendation)
    (top : MatchingAgent.TopRecommendation) : Prop :=
  let info := property_info rec in
  let score := matching_score rec in
  Listing.property_id info = Some (MatchingAgent.top_property_id top)
  /\ Listing.address info = Some (MatchingAgent.top_address top)
  /\ Listing.price info = Some (MatchingAgent.top_price top)
  /\ MatchingAgent.top_matching_score top = round2 (total_score score)
  /\ MatchingAgent.top_reason top = recommendation_reason score.

(** A listing that meets the conditions of a search: a condition that is
    [None], zero or the empty text asks for nothing, and so does a bound
    that is NaN, which no price is below or above. *)
Definition meets (c : PropertySearchTool.Conditions) (p : Listing.t) : bool :=
  match Listing.price p, Listing.area p, Listing.school_district p,
        Listing.commute_time p with
  | Some price, Some area, Some school, Some commute =>
      match PropertySearchTool.budget_min c with
      | Some b => PyFloat.is_zero b || negb (PyFloat.lt (PyFloat.Finite price) b)
      | None => true
      end
      && match PropertySearchTool.budget_max c with
         | Some b => PyFloat.is_zero b || negb (PyFloat.lt b (PyFloat.Finite price))
         | None => true
         end
      && match PropertySearchTool.area c with
         | Some a => PyStr.is_empty a || PyStr.contains a area
         | None => true
         end
      && match PropertySearchTool.school_district c with
         | Some sd => PyStr.is_empty sd || PyStr.contains sd school
         | None => true
         end
      && match PropertySearchTool.max_commute_time c with
         | Some m => (m =? 0)%Z || (commute <=? m)%Z
         | None => true
         end
  | _, _, _, _ => false
  end.

(** A listing with the four keys that the search may read. *)
Definition searchable (p : Listing.t) : bool :=
  negb (absent (Listing.price p)) && negb (absent (Listing.area p))
  && negb (absent (Listing.school_district p))
  && negb (absent (Listing.commute_time p)).

(** Requirements that ask for nothing: every text is absent or empty. *)
Definition no_requirement (reqs : Requirements.t) : Prop :=
  get_str (Requirements.budget reqs) = ""
  /\ get_str (Requirements.area reqs) = ""
  /\ get_str (Requirements.school_district reqs) = ""
  /\ get_str (Requirements.commute reqs) = "".

(** The raw weights from 0 to 20 whose stored sum is within one unit in the
    last place of 1.0, when they are not all zero. *)
Definition stored_sum_near_one (bw aw sw cw : Z) : bool :=
  if (bw + aw + sw + cw =? 0)%Z then true
  else
    match Binary64.__init__ (Binary64.of_int bw) (Binary64.of_int aw)
            (Binary64.of_int sw) (Binary64.of_int cw) with
    | Ok self => Binary64.near_one (Binary64.weight_sum self)
    | Raise _ => false
    end.

Definition small_weights : list Z := map Z.of_nat (seq 0 21).

(** * Properties *)

Import MatchingAgent.

(** ** Comparisons, division and [max] *)

Lemma Qlt_bool_true (a b : Q) : PyNum.Qlt_bool a b = true <-> a < b.
Proof.
  unfold PyNum.Qlt_bool. rewrite negb_true_iff. split; intro H.
  - apply Qnot_le_lt. intro Hle. apply Qle_bool_iff in Hle. congruence.
  - destruct (Qle_bool b a) eqn:E; [|reflexivity].
    apply Qle_bool_iff in E. exfalso. apply (Qlt_not_le _ _ H E).
Qed.

Lemma Qlt_bool_false (a b : Q) : PyNum.Qlt_bool a b = false <-> b <= a.
Proof.
  unfold PyNum.Qlt_bool. rewrite negb_false_iff. apply Qle_bool_iff.
Qed.

Lemma Qle_bool_false (a b : Q) : Qle_bool a b = false <-> b < a.
Proof.
  rewrite <- Qlt_bool_true. unfold PyNum.Qlt_bool.
  destruct (Qle_bool a b); simpl; split; congruence.
Qed.

Lemma div_zero (a b : Q) : b == 0 -> PyNum.div a b = Raise ZeroDivisionError.
Proof.
  intro H. unfold PyNum.div. apply Qeq_bool_iff in H. now rewrite H.
Qed.

Lemma div_nonzero (a b : Q) : ~ b == 0 -> PyNum.div a b = Ok (a / b).
Proof.
  intro H. unfold PyNum.div. destruct (Qeq_bool b 0) eqn:E; [|reflexivity].
  apply Qeq_bool_iff in E. contradiction.
Qed.

Lemma max_lower (a b : Q) : a <= PyNum.max a b.
Proof.
  unfold PyNum.max. destruct (PyNum.Qlt_bool a b) eqn:E.
  - apply Qlt_bool_true in E. lra.
  - lra.
Qed.

Lemma max_upper (a b c : Q) : a <= c -> b <= c -> PyNum.max a b <= c.
Proof. unfold PyNum.max. now destruct (PyNum.Qlt_bool a b). Qed.

Lemma max_mono (a b c : Q) : b <= c -> PyNum.max a b <= PyNum.max a c.
Proof.
  intro H. unfold PyNum.max.
  destruct (PyNum.Qlt_bool a b) eqn:E1, (PyNum.Qlt_bool a c) eqn:E2;
    rewrite ?Qlt_bool_true, ?Qlt_bool_false in *; lra.
Qed.

Lemma abs_nonneg (a : Q) : 0 <= PyNum.abs a.
Proof.
  unfold PyNum.abs. destruct (PyNum.Qlt_bool a 0) eqn:E;
    rewrite ?Qlt_bool_true, ?Qlt_bool_false in *; lra.
Qed.

(** A quotient by a positive divisor, bounded on both sides. *)
Lemma quotient_bounds (a b lo hi : Q) :
  0 < b -> lo * b <= a -> a <= hi * b -> lo <= a / b <= hi.
Proof.
  intros Hb Hlo Hhi. split.
  - apply Qle_shift_div_l; assumption.
  - apply Qle_shift_div_r; assumption.
Qed.

Lemma quotient_mono (a a' b : Q) : 0 < b -> a <= a' -> a / b <= a' / b.
Proof.
  intros Hb Ha. unfold Qdiv. apply Qmult_le_compat_r; [assumption|].
  apply Qlt_le_weak, Qinv_lt_0_compat, Hb.
Qed.

(** ** The range of the doubles *)

Lemma overflow_bound_pos : (0 < PyNum.overflow_bound)%Z.
Proof. reflexivity. Qed.

Lemma overflows_within (x : Q) :
  - inject_Z PyNum.overflow_bound < x -> x < inject_Z PyNum.overflow_bound ->
  PyNum.overflows x = false.
Proof.
  intros Hlo Hhi. unfold PyNum.overflows.
  apply orb_false_iff. split; apply Qle_bool_false; [assumption|].
  now rewrite inject_Z_opp.
Qed.

Lemma int_to_float_within (n : Z) :
  (Z.abs n < PyNum.overflow_bound)%Z -> PyNum.int_to_float n = Ok (inject_Z n).
Proof.
  intro H. unfold PyNum.int_to_float. rewrite overflows_within; [reflexivity| |].
  - rewrite <- inject_Z_opp, <- Zlt_Qlt. lia.
  - rewrite <- Zlt_Qlt. lia.
Qed.

Lemma int_div_zero (a : Z) : PyNum.int_div a 0 = Raise ZeroDivisionError.
Proof. reflexivity. Qed.

(** The quotient of a natural number below the bound by a positive integer. *)
Lemma int_div_within (a b : Z) :
  (0 <= a < PyNum.overflow_bound)%Z -> (0 < b)%Z ->
  PyNum.int_div a b = Ok (inject_Z a / inject_Z b).
Proof.
  intros [Ha0 Ha] Hb. unfold PyNum.int_div.
  destruct (b =? 0)%Z eqn:E; [apply Z.eqb_eq in E; lia|].
  assert (Hb' : 0 < inject_Z b)
    by (change 0 with (inject_Z 0); now rewrite <- Zlt_Qlt).
  assert (Ha' : 0 <= inject_Z a)
    by (change 0 with (inject_Z 0); now rewrite <- Zle_Qle).
  assert (Hq : 0 <= inject_Z a / inject_Z b <= inject_Z a).
  { split; [apply Qle_shift_div_l; lra|]. apply Qle_shift_div_r; [assumption|].
    assert (1 <= inject_Z b)
      by (change 1 with (inject_Z 1); rewrite <- Zle_Qle; lia).
    nra. }
  assert (HT : inject_Z a < inject_Z PyNum.overflow_bound)
    by now rewrite <- Zlt_Qlt.
  assert (H0 : 0 < inject_Z PyNum.overflow_bound)
    by (change 0 with (inject_Z 0); rewrite <- Zlt_Qlt; reflexivity).
  rewrite overflows_within; [reflexivity|lra|lra].
Qed.

(** ** The range of the four criterion scores *)

Lemma area_score_unit_interval (property_area required_area : string) :
  unit_interval (calculate_area_score property_area required_area).
Proof.
  unfold unit_interval, calculate_area_score.
  destruct (PyStr.is_empty required_area); [lra|].
  destruct (_ || _); [lra|].
  destruct (list_contains _ _); lra.
Qed.

Lemma school_score_unit_interval (property_school required_school : string) :
  unit_interval (calculate_school_score property_school required_school).
Proof.
  unfold unit_interval, calculate_school_score.
  destruct (PyStr.is_empty required_school); [lra|].
  destruct (_ || _); [lra|].
  cbv zeta. split; [apply max_lower|].
  apply max_upper; [lra|].
  pose proof (abs_nonneg
    (default 0.6 (school_quality_map !! property_school)
     - default 0.6 (school_quality_map !! required_school))).
  lra.
Qed.

(** The commute score within the cap, above a positive cap and without a
    cap, for a commute time within the range of the doubles. *)
Lemma commute_score_within (property_commute required : Z) :
  (property_commute <= required)%Z ->
  calculate_commute_score property_commute (Some required) = Ok 1.
Proof.
  intro H. unfold calculate_commute_score.
  apply Z.leb_le in H. now rewrite H.
Qed.

Lemma commute_score_above (property_commute required : Z) :
  (0 < required)%Z -> (required < property_commute)%Z ->
  (property_commute < PyNum.overflow_bound)%Z ->
  calculate_commute_score property_commute (Some required)
  = Ok (PyNum.max 0 (1 - inject_Z (property_commute - required) / inject_Z required)).
Proof.
  intros Hr H HT. unfold calculate_commute_score.
  apply Z.leb_gt in H. rewrite H.
  rewrite int_div_within; [reflexivity|lia|assumption].
Qed.

Lemma commute_score_uncapped (property_commute : Z) :
  (Z.abs property_commute < PyNum.overflow_bound)%Z ->
  calculate_commute_score property_commute None
  = Ok (PyNum.max 0 (1 - inject_Z property_commute / 60)).
Proof.
  intro H. unfold calculate_commute_score.
  rewrite int_to_float_within by assumption. cbn [bind].
  rewrite div_nonzero by (intro E; discriminate E). reflexivity.
Qed.

(** The commute score, when the cap is unset or positive and the commute of
    the listing is not negative. *)
Lemma commute_score_unit_interval (property_commute : Z) (required : option Z) :
  (0 <= property_commute < PyNum.overflow_bound)%Z ->
  match required with Some r => (0 < r)%Z | None => True end ->
  exists s, calculate_commute_score property_commute required = Ok s
            /\ unit_interval s.
Proof.
  intros [Hc HT] Hr. unfold unit_interval.
  assert (Hc' : 0 <= inject_Z property_commute)
    by (change 0 with (inject_Z 0); now rewrite <- Zle_Qle).
  destruct required as [r|].
  - destruct (Z.le_gt_cases property_commute r) as [E|E].
    + rewrite commute_score_within by assumption.
      eexists; split; [reflexivity|lra].
    + assert (Hr' : 0 < inject_Z r)
        by (change 0 with (inject_Z 0); now rewrite <- Zlt_Qlt).
      rewrite commute_score_above by assumption.
      eexists; split; [reflexivity|]. split; [apply max_lower|].
      apply max_upper; [lra|].
      assert (0 <= inject_Z (property_commute - r) / inject_Z r).
      { apply Qle_shift_div_l; [assumption|].
        rewrite Qmult_0_l. change 0 with (inject_Z 0).
        rewrite <- Zle_Qle. lia. }
      lra.
  - rewrite commute_score_uncapped by lia.
    eexists; split; [reflexivity|]. split; [apply max_lower|].
    apply max_upper; [lra|].
    assert (0 <= inject_Z property_commute / 60)
      by (apply Qle_shift_div_l; lra).
    lra.
Qed.

(** The two branches of the budget score outside the range. *)
Lemma ramp_unit_interval (price bmin : Q) :
  0 < bmin -> price < bmin -> unit_interval (PyNum.max 0 (price / bmin)).
Proof.
  intros Hb Hp. split; [apply max_lower|].
  apply max_upper; [lra|]. apply Qle_shift_div_r; lra.
Qed.

Lemma decay_unit_interval (price bmax : Q) :
  0 < bmax -> bmax < price ->
  unit_interval (PyNum.max 0 (1 - (price - bmax) / bmax)).
Proof.
  intros Hb Hp. split; [apply max_lower|].
  apply max_upper; [lra|].
  assert (0 <= (price - bmax) / bmax) by (apply Qle_shift_div_l; lra).
  lra.
Qed.

(** The budget score for bounds that are numbers. *)
Lemma budget_score_numbers (price bmin bmax : Q) :
  calculate_budget_score price (Some (PyFloat.Finite bmin))
    (Some (PyFloat.Finite bmax))
  = if Qle_bool bmin price && Qle_bool price bmax then Ok 1
    else if PyNum.Qlt_bool price bmin
    then let! r := PyNum.div price bmin in Ok (PyNum.max 0 r)
    else let! r := PyNum.div (price - bmax) bmax in Ok (PyNum.max 0 (1 - r)).
Proof.
  unfold calculate_budget_score, PyFloat.ratio, PyFloat.excess_ratio. simpl.
  destruct (_ && _); [reflexivity|].
  destruct (PyNum.Qlt_bool price bmin).
  - now destruct (PyNum.div price bmin).
  - now destruct (PyNum.div (price - bmax) bmax).
Qed.

Lemma budget_score_floor (price bmin : Q) :
  calculate_budget_score price (Some (PyFloat.Finite bmin)) None
  = if Qle_bool bmin price then Ok 1
    else let! r := PyNum.div price bmin in Ok (PyNum.max 0 r).
Proof.
  unfold calculate_budget_score, PyFloat.ratio. simpl.
  destruct (Qle_bool bmin price); [reflexivity|].
  now destruct (PyNum.div price bmin).
Qed.

Lemma budget_score_cap (price bmax : Q) :
  calculate_budget_score price None (Some (PyFloat.Finite bmax))
  = if Qle_bool price bmax then Ok 1
    else let! r := PyNum.div (price - bmax) bmax in Ok (PyNum.max 0 (1 - r)).
Proof.
  unfold calculate_budget_score, PyFloat.excess_ratio. simpl.
  destruct (Qle_bool price bmax); [reflexivity|].
  now destruct (PyNum.div (price - bmax) bmax).
Qed.

Lemma div_ok_inv (a b r : Q) :
  PyNum.div a b = Ok r -> ~ b == 0 /\ r = a / b.
Proof.
  unfold PyNum.div. destruct (Qeq_bool b 0) eqn:E; [discriminate|].
  intro H. inversion H. split; [|reflexivity].
  intro Hb. apply Qeq_bool_iff in Hb. congruence.
Qed.


Lemma unit_interval_zero : unit_interval 0.
Proof. unfold unit_interval. lra. Qed.

Lemma unit_interval_one : unit_interval 1.
Proof. unfold unit_interval. lra. Qed.

Lemma unit_interval_max_zero : unit_interval (PyNum.max 0 0).
Proof. vm_compute. split; discriminate. Qed.


(** A budget score that is returned for bounds that are not negative lies
    in the unit interval, unless the lower bound is NaN. *)
Lemma budget_score_unit_interval_when_returned (price : Q)
    (budget_min budget_max : option PyFloat.t) (s : Q) :
  bound_nonneg budget_min -> bound_nonneg budget_max ->
  is_nan budget_min = false ->
  calculate_budget_score price budget_min budget_max = Ok s ->
  unit_interval s.
Proof.
  intros Hmin Hmax Hnan.
  assert (Hramp : forall b r, 0 <= b -> price < b ->
            PyNum.div price b = Ok r -> unit_interval (PyNum.max 0 r)).
  { intros b r Hb Hp Hd. apply div_ok_inv in Hd as [Hnz ->].
    apply ramp_unit_interval; lra. }
  assert (Hdecay : forall b r, 0 <= b -> b < price ->
            PyNum.div (price - b) b = Ok r -> unit_interval (PyNum.max 0 (1 - r))).
  { intros b r Hb Hp Hd. apply div_ok_inv in Hd as [Hnz ->].
    apply decay_unit_interval; lra. }
  destruct budget_min as [[bmin| | |]|], budget_max as [[bmax| | |]|];
    simpl in Hmin, Hmax, Hnan; try contradiction; try discriminate.
  - rewrite budget_score_numbers.
    destruct (Qle_bool bmin price && Qle_bool price bmax) eqn:E.
    { intro H. inversion H. apply unit_interval_one. }
    destruct (PyNum.Qlt_bool price bmin) eqn:E1.
    + apply Qlt_bool_true in E1.
      destruct (PyNum.div price bmin) as [r|] eqn:Ed; simpl; [|discriminate].
      intro H. inversion H. now apply (Hramp bmin).
    + apply Qlt_bool_false in E1. apply Qle_bool_iff in E1. rewrite E1 in E.
      simpl in E. apply Qle_bool_false in E.
      destruct (PyNum.div (price - bmax) bmax) as [r|] eqn:Ed; simpl; [|discriminate].
      intro H. inversion H. now apply (Hdecay bmax).
  - unfold calculate_budget_score. simpl. rewrite andb_true_r.
    destruct (Qle_bool bmin price) eqn:E.
    { intro H. inversion H. apply unit_interval_one. }
    apply Qle_bool_false in E. rewrite (proj2 (Qlt_bool_true _ _) E).
    destruct (PyNum.div price bmin) as [r|] eqn:Ed; simpl; [|discriminate].
    intro H. inversion H. now apply (Hramp bmin).
  - unfold calculate_budget_score. simpl. rewrite andb_false_r.
    destruct (PyNum.Qlt_bool price bmin) eqn:E1.
    + apply Qlt_bool_true in E1.
      destruct (PyNum.div price bmin) as [r|] eqn:Ed; simpl; [|discriminate].
      intro H. inversion H. now apply (Hramp bmin).
    + intro H. inversion H. apply unit_interval_zero.
  - rewrite budget_score_floor.
    destruct (Qle_bool bmin price) eqn:E.
    { intro H. inversion H. apply unit_interval_one. }
    apply Qle_bool_false in E.
    destruct (PyNum.div price bmin) as [r|] eqn:Ed; simpl; [|discriminate].
    intro H. inversion H. now apply (Hramp bmin).
  - unfold calculate_budget_score. simpl.
    intro H. inversion H. apply unit_interval_max_zero.
  - unfold calculate_budget_score. simpl.
    intro H. inversion H. apply unit_interval_max_zero.
  - unfold calculate_budget_score. simpl.
    intro H. inversion H. apply unit_interval_max_zero.
  - unfold calculate_budget_score. simpl.
    intro H. inversion H. apply unit_interval_max_zero.
  - rewrite budget_score_cap.
    destruct (Qle_bool price bmax) eqn:E.
    { intro H. inversion H. apply unit_interval_one. }
    apply Qle_bool_false in E.
    destruct (PyNum.div (price - bmax) bmax) as [r|] eqn:Ed; simpl; [|discriminate].
    intro H. inversion H. now apply (Hdecay bmax).
  - unfold calculate_budget_score. simpl.
    intro H. inversion H. apply unit_interval_one.
  - unfold calculate_budget_score. simpl.
    intro H. inversion H. apply unit_interval_zero.
  - unfold calculate_budget_score. simpl.
    intro H. inversion H. unfold unit_interval. lra.
Qed.

(** ** The weights *)

Lemma init_nonzero (bw aw sw cw : Q) :
  ~ bw + aw + sw + cw == 0 ->
  __init__ bw aw sw cw =
    Ok (MatchingAgent.mk (bw / (bw + aw + sw + cw)) (aw / (bw + aw + sw + cw))
          (sw / (bw + aw + sw + cw)) (cw / (bw + aw + sw + cw))).
Proof.
  intro H. unfold __init__. cbv zeta. rewrite !div_nonzero by assumption.
  reflexivity.
Qed.

Lemma init_zero (bw aw sw cw : Q) :
  bw + aw + sw + cw == 0 -> __init__ bw aw sw cw = Raise ZeroDivisionError.
Proof.
  intro H. unfold __init__. cbv zeta. rewrite div_zero by assumption.
  reflexivity.
Qed.

(** The weighted total of four scores of the unit interval, under weights
    that are not negative and sum to one. *)
Lemma weighted_total_unit_interval (self : MatchingAgent.t) (b a s c : Q) :
  0 <= budget_weight self -> 0 <= area_weight self ->
  0 <= school_weight self -> 0 <= commute_weight self ->
  weight_sum self == 1 ->
  unit_interval b -> unit_interval a -> unit_interval s -> unit_interval c ->
  unit_interval (b * budget_weight self + a * area_weight self
                 + s * school_weight self + c * commute_weight self).
Proof.
  unfold weight_sum, unit_interval.
  intros Hb Ha Hs Hc Hsum [Hb0 Hb1] [Ha0 Ha1] [Hs0 Hs1] [Hc0 Hc1].
  split; nra.
Qed.

Lemma default_agent_ok : default_agent = Ok Examples.agent.
Proof. vm_compute. reflexivity. Qed.

(** ** Division by a zero cap *)

(** C1.  Every criterion score and the total lie in [0, 1], says the claim;
    for a budget text with a cap of zero, ["0万以内"], and the listing P001
    of the mock inventory the budget scorer divides by the cap, and
    [calculate_matching_score] raises [ZeroDivisionError]: no score at all
    is computed. *)
Theorem matching_score_zero_budget_cap_raises :
  parse_budget "0万以内" = Ok (None, Some (PyFloat.Finite (0 * 10000)))
  /\ calculate_budget_score 3500000 None (Some (PyFloat.Finite (0 * 10000)))
     = Raise ZeroDivisionError
  /\ calculate_matching_score Examples.agent Examples.P001
       Examples.requirements_zero_cap = Raise ZeroDivisionError.
Proof. repeat split; vm_compute; reflexivity. Qed.

(** C2.  With a cap of zero minutes, every listing whose commute exceeds the
    cap makes [calculate_commute_score] raise [ZeroDivisionError], where the
    claim asks for the score 0.0. *)
Theorem commute_score_zero_cap_raises (property_commute : Z) :
  (0 < property_commute)%Z ->
  calculate_commute_score property_commute (Some 0%Z) = Raise ZeroDivisionError.
Proof.
  intro H. unfold calculate_commute_score.
  apply Z.leb_gt in H. rewrite H.
  rewrite int_div_zero. reflexivity.
Qed.

Lemma commute_score_zero_cap_raises_witness :
  calculate_commute_score 5 (Some 0%Z) = Raise ZeroDivisionError.
Proof. apply (commute_score_zero_cap_raises 5). lia. Defined.

(** ** The budget score *)




(** The budget score under bounds that are no numbers: NaN compares false
    with every price, and a quotient that is NaN is clamped to 0.0. *)
Lemma budget_score_special_bounds :
  (exists s, calculate_budget_score 3500000 (Some PyFloat.NaN)
               (Some (PyFloat.Finite 5000000)) = Ok s /\ s == 1.3)
  /\ calculate_budget_score 3500000 (Some (PyFloat.Finite 3000000))
       (Some PyFloat.NaN) = Ok 0
  /\ calculate_budget_score 3500000 None (Some PyFloat.NaN) = Ok 0
  /\ calculate_budget_score 3500000 (Some PyFloat.NaN) None = Ok 0
  /\ calculate_budget_score 3500000 None (Some PyFloat.PosInf) = Ok 1
  /\ calculate_budget_score 3500000 (Some PyFloat.PosInf) None = Ok 0
  /\ calculate_budget_score 3500000 (Some PyFloat.PosInf)
       (Some PyFloat.PosInf) = Ok 0.
Proof.
  split; [eexists; split; vm_compute; reflexivity|].
  repeat split; vm_compute; reflexivity.
Qed.



(** C7.  The budget score is documented as a score between 0 and 1, and the
    claim has it monotone outside every range [budget_min <= budget_max].
    For the range of the text ["0-0万"] every price but 0 is outside the
    range and raises [ZeroDivisionError], and so does the listing P001
    through [calculate_matching_score]; for a range of negative bounds,
    [-4 <= -2], the score grows with the price above [budget_max] and leaves
    the unit interval: 3/2 at the price -1 and 2 at the price 0. *)
Theorem budget_score_zero_range_raises (price : Q) :
  ~ price == 0 ->
  parse_budget "0-0万"
  = Ok (Some (PyFloat.Finite (0 * 10000)), Some (PyFloat.Finite (0 * 10000)))
  /\ calculate_budget_score price (Some (PyFloat.Finite (0 * 10000)))
       (Some (PyFloat.Finite (0 * 10000))) = Raise ZeroDivisionError
  /\ calculate_matching_score Examples.agent Examples.P001
       (Requirements.mk (Some "0-0万") None None None) = Raise ZeroDivisionError
  /\ exists s1 s2,
       calculate_budget_score (-1) (Some (PyFloat.Finite (-4)))
         (Some (PyFloat.Finite (-2))) = Ok s1
       /\ calculate_budget_score 0 (Some (PyFloat.Finite (-4)))
            (Some (PyFloat.Finite (-2))) = Ok s2
       /\ s1 == 3 # 2 /\ s2 == 2 /\ s1 < s2.
Proof.
  intro Hp. split; [vm_compute; reflexivity|]. split.
  - rewrite budget_score_numbers.
    change (0 * 10000) with 0.
    destruct (Qle_bool 0 price && Qle_bool price 0) eqn:E.
    { apply andb_true_iff in E as [E1 E2]. apply Qle_bool_iff in E1, E2.
      exfalso. apply Hp. lra. }
    destruct (PyNum.Qlt_bool price 0); rewrite div_zero; reflexivity.
  - split; [vm_compute; reflexivity|].
    do 2 eexists. split; [vm_compute; reflexivity|].
    split; [vm_compute; reflexivity|].
    repeat split; vm_compute; reflexivity.
Qed.

Lemma budget_score_zero_range_raises_witness :
  parse_budget "0-0万"
  = Ok (Some (PyFloat.Finite (0 * 10000)), Some (PyFloat.Finite (0 * 10000)))
  /\ calculate_budget_score 3500000 (Some (PyFloat.Finite (0 * 10000)))
       (Some (PyFloat.Finite (0 * 10000))) = Raise ZeroDivisionError
  /\ calculate_matching_score Examples.agent Examples.P001
       (Requirements.mk (Some "0-0万") None None None) = Raise ZeroDivisionError
  /\ exists s1 s2,
       calculate_budget_score (-1) (Some (PyFloat.Finite (-4)))
         (Some (PyFloat.Finite (-2))) = Ok s1
       /\ calculate_budget_score 0 (Some (PyFloat.Finite (-4)))
            (Some (PyFloat.Finite (-2))) = Ok s2
       /\ s1 == 3 # 2 /\ s2 == 2 /\ s1 < s2.
Proof. apply (budget_score_zero_range_raises 3500000). intro E. discriminate E. Defined.

(** ** Weight normalisation *)

Lemma small_weights_spec (f : Z -> bool) (z : Z) :
  forallb f small_weights = true -> (0 <= z <= 20)%Z -> f z = true.
Proof.
  intros H Hz. apply (proj1 (forallb_forall f small_weights) H).
  unfold small_weights. replace z with (Z.of_nat (Z.to_nat z)) by lia.
  apply in_map, in_seq. lia.
Qed.

Lemma small_weights_stored_sum :
  forallb (fun bw => forallb (fun aw => forallb (fun sw => forallb (fun cw =>
    stored_sum_near_one bw aw sw cw) small_weights) small_weights)
    small_weights) small_weights = true.
Proof. vm_compute. reflexivity. Qed.

(** C8, as amended.  For raw weights that are not negative and have a
    positive sum, the four quotients by the sum add up to exactly 1 in the
    arithmetic of the rational numbers.  The constructor stores the doubles
    next to the quotients: the raw weights 2, 1, 1, 1 give exactly the
    doubles 0.4, 0.2, 0.2, 0.2, whose sum is exactly 1.0, and for all
    integer raw weights from 0 to 20 that are not all zero the sum of the
    four stored doubles is within one unit in the last place of 1.0. *)
Theorem normalized_weights_sum_to_one (bw aw sw cw : Q) :
  0 <= bw -> 0 <= aw -> 0 <= sw -> 0 <= cw -> 0 < bw + aw + sw + cw ->
  (exists self,
     __init__ bw aw sw cw = Ok self
     /\ weight_sum self == 1
     /\ budget_weight self == bw / (bw + aw + sw + cw)
     /\ area_weight self == aw / (bw + aw + sw + cw)
     /\ school_weight self == sw / (bw + aw + sw + cw)
     /\ commute_weight self == cw / (bw + aw + sw + cw))
  /\ Binary64.__init__ 2 1 1 1 = Ok (Binary64.mk 0.4 0.2 0.2 0.2)
  /\ Binary64.weight_sum (Binary64.mk 0.4 0.2 0.2 0.2) = 1%float
  /\ forall n1 n2 n3 n4 : Z,
       (0 <= n1 <= 20)%Z -> (0 <= n2 <= 20)%Z ->
       (0 <= n3 <= 20)%Z -> (0 <= n4 <= 20)%Z ->
       (0 < n1 + n2 + n3 + n4)%Z ->
       exists stored,
         Binary64.__init__ (Binary64.of_int n1) (Binary64.of_int n2)
           (Binary64.of_int n3) (Binary64.of_int n4) = Ok stored
         /\ Binary64.near_one (Binary64.weight_sum stored) = true.
Proof.
  intros Hb Ha Hs Hc Ht. split.
  - rewrite init_nonzero by lra. eexists. split; [reflexivity|].
    unfold weight_sum. simpl. repeat split; try reflexivity. field. lra.
  - split; [vm_compute; reflexivity|]. split; [vm_compute; reflexivity|].
    intros n1 n2 n3 n4 H1 H2 H3 H4 Hpos.
    pose proof small_weights_stored_sum as H.
    apply (fun H => small_weights_spec _ n1 H H1) in H.
    apply (fun H => small_weights_spec _ n2 H H2) in H.
    apply (fun H => small_weights_spec _ n3 H H3) in H.
    apply (fun H => small_weights_spec _ n4 H H4) in H.
    unfold stored_sum_near_one in H.
    destruct (n1 + n2 + n3 + n4 =? 0)%Z eqn:E; [apply Z.eqb_eq in E; lia|].
    destruct (Binary64.__init__ _ _ _ _) as [stored|]; [|discriminate H].
    exists stored. now split.
Qed.

Lemma normalized_weights_sum_to_one_witness :
  (exists self,
     __init__ 2 1 1 1 = Ok self
     /\ weight_sum self == 1
     /\ budget_weight self == 2 / (2 + 1 + 1 + 1)
     /\ area_weight self == 1 / (2 + 1 + 1 + 1)
     /\ school_weight self == 1 / (2 + 1 + 1 + 1)
     /\ commute_weight self == 1 / (2 + 1 + 1 + 1))
  /\ Binary64.__init__ 2 1 1 1 = Ok (Binary64.mk 0.4 0.2 0.2 0.2)
  /\ Binary64.weight_sum (Binary64.mk 0.4 0.2 0.2 0.2) = 1%float
  /\ forall n1 n2 n3 n4 : Z,
       (0 <= n1 <= 20)%Z -> (0 <= n2 <= 20)%Z ->
       (0 <= n3 <= 20)%Z -> (0 <= n4 <= 20)%Z ->
       (0 < n1 + n2 + n3 + n4)%Z ->
       exists stored,
         Binary64.__init__ (Binary64.of_int n1) (Binary64.of_int n2)
           (Binary64.of_int n3) (Binary64.of_int n4) = Ok stored
         /\ Binary64.near_one (Binary64.weight_sum stored) = true.
Proof. apply (normalized_weights_sum_to_one 2 1 1 1); lra. Defined.

(** C8 as stated fails in the arithmetic of the code: the raw weights
    1, 6, 3, 3 are stored as four doubles whose sum is the double next above
    1.0, which Python prints as 1.0000000000000002; and for the raw weights
    1e308, 1e308, 1, 1 the raw sum is beyond the doubles, the four stored
    weights are 0.0, and so is their sum. *)
Lemma normalized_weights_sum_rounds :
  (exists self,
     Binary64.__init__ 1 6 3 3 = Ok self
     /\ Binary64.weight_sum self = 0x1.0000000000001p+0%float
     /\ Binary64.weight_sum self <> 1%float)
  /\ Binary64.__init__ 1e308 1e308 1 1 = Ok (Binary64.mk 0 0 0 0)
  /\ Binary64.weight_sum (Binary64.mk 0 0 0 0) = 0%float.
Proof.
  split.
  - eexists. split; [vm_compute; reflexivity|].
    split; [vm_compute; reflexivity|].
    intro H.
    assert (E : PrimFloat.eqb 0x1.0000000000001p+0 1 = true).
    { rewrite <- H. vm_compute. reflexivity. }
    vm_compute in E. discriminate E.
  - split; vm_compute; reflexivity.
Qed.

(** ** Area and school scores *)

Lemma contains_empty (s : string) : PyStr.contains "" s = true.
Proof. destruct s; reflexivity. Qed.

(** C9.  An empty attribute of the listing against a requirement that is not
    empty is a full match, for the area and for the school: the empty string
    is a substring of the requirement. *)
Theorem empty_listing_attribute_scores_one (required : string) :
  required <> "" ->
  calculate_area_score "" required = 1
  /\ calculate_school_score "" required = 1.
Proof.
  intro H. unfold calculate_area_score, calculate_school_score.
  destruct required as [|c r]; [contradiction|]. simpl PyStr.is_empty.
  rewrite contains_empty, orb_true_r. split; reflexivity.
Qed.

Lemma empty_listing_attribute_scores_one_witness :
  calculate_area_score "" "朝阳区" = 1
  /\ calculate_school_score "" "朝阳区" = 1.
Proof. apply (empty_listing_attribute_scores_one "朝阳区"). discriminate. Defined.

(** C10.  The area score is not symmetric: 丰台区 lists 朝阳区 among its
    neighbours, and 朝阳区 does not list 丰台区. *)
Theorem area_score_not_symmetric :
  calculate_area_score "朝阳区" "丰台区" = 0.7
  /\ calculate_area_score "丰台区" "朝阳区" = 0.2.
Proof. split; vm_compute; reflexivity. Qed.

(** ** Characters *)

Lemma utf8_length_range (c : ascii) : (1 <= PyStr.utf8_length c <= 4)%nat.
Proof.
  unfold PyStr.utf8_length.
  repeat match goal with |- context [if ?b then _ else _] => destruct b end; lia.
Qed.

Lemma append_cons (c : ascii) (s t : string) :
  String c s ++ t = String c (s ++ t).
Proof. reflexivity. Qed.

Lemma append_snoc (cur : string) (c : ascii) (rest : string) :
  (cur ++ String c "") ++ rest = cur ++ String c rest.
Proof.
  induction cur as [|d cur IH]; [reflexivity|].
  rewrite !append_cons. f_equal. exact IH.
Qed.

Lemma length_snoc (cur : string) (c : ascii) :
  String.length (cur ++ String c "") = S (String.length cur).
Proof.
  induction cur as [|d cur IH]; [reflexivity|].
  rewrite append_cons. cbn [String.length]. f_equal. exact IH.
Qed.

(** Every character of a text is whole. *)
Lemma chars_from_whole (s cur : string) (need : nat) :
  (need = 0%nat
   \/ exists c0 rest0, cur = String c0 rest0
        /\ (String.length rest0 + need = PyStr.utf8_length c0 - 1)%nat) ->
  Forall (fun ch => whole ch = true) (PyStr.chars_from s cur need).
Proof.
  revert cur need. induction s as [|c s IH]; intros cur need Hinv; simpl;
    [constructor|].
  destruct need as [|[|k]].
  - pose proof (utf8_length_range c) as Hc.
    destruct (PyStr.utf8_length c) as [|[|n]] eqn:E; [lia| |].
    + constructor; [simpl; now rewrite E|]. apply IH. now left.
    + apply IH. right. exists c, "". split; [reflexivity|]. simpl. lia.
  - destruct Hinv as [Hinv|(c0 & rest0 & -> & Hlen)]; [discriminate|].
    constructor; [|apply IH; now left].
    simpl. rewrite length_snoc. apply Nat.eqb_eq. lia.
  - destruct Hinv as [Hinv|(c0 & rest0 & -> & Hlen)]; [discriminate|].
    apply IH. right. exists c0, (rest0 ++ String c ""). split; [reflexivity|].
    rewrite length_snoc. lia.
Qed.

Lemma chars_whole (s : string) : Forall (fun ch => whole ch = true) (PyStr.chars s).
Proof. apply chars_from_whole. now left. Qed.

Lemma chars_from_rest (rest t cur : string) (need : nat) :
  String.length rest = S need ->
  PyStr.chars_from (rest ++ t) cur (S need)
  = (cur ++ rest) :: PyStr.chars_from t "" 0.
Proof.
  revert cur need. induction rest as [|r rest IH]; intros cur need Hlen;
    [discriminate|].
  simpl in Hlen. injection Hlen as Hlen. simpl.
  destruct need as [|k].
  - destruct rest; [reflexivity|discriminate].
  - rewrite IH by assumption. f_equal. apply append_snoc.
Qed.

(** The characters of a whole character followed by a text. *)
Lemma chars_whole_app (ch t : string) :
  whole ch = true -> PyStr.chars (ch ++ t) = ch :: PyStr.chars t.
Proof.
  unfold PyStr.chars. destruct ch as [|c rest]; [discriminate|].
  simpl. intro H. apply Nat.eqb_eq in H.
  pose proof (utf8_length_range c) as Hc.
  destruct (PyStr.utf8_length c) as [|[|n]] eqn:E; [lia| |].
  - destruct rest; [reflexivity|discriminate].
  - simpl in H. replace (n - 0)%nat with n in H by lia.
    replace (S (S n) - 1)%nat with (S n) by lia.
    now rewrite chars_from_rest.
Qed.

Lemma chars_concat (cs : list string) :
  Forall (fun ch => whole ch = true) cs -> PyStr.chars (PyStr.concat cs) = cs.
Proof.
  induction 1 as [|ch cs Hch Hcs IH]; [reflexivity|].
  simpl. rewrite chars_whole_app by assumption. now rewrite IH.
Qed.

(** ** Decimal digits *)

Lemma decimal_in_spec (zeros : list N) (cp d : N) :
  PyStr.decimal_in zeros cp = Some d ->
  (d < 10)%N /\ exists z, In z zeros /\ (z <= cp < z + 10)%N.
Proof.
  induction zeros as [|z zeros IH]; simpl; [discriminate|].
  destruct ((z <=? cp)%N && (cp <? z + 10)%N) eqn:E.
  - apply andb_true_iff in E as [E1 E2].
    apply N.leb_le in E1. apply N.ltb_lt in E2.
    intro H. inversion H. split; [lia|]. exists z. split; [now left|lia].
  - intro H. destruct (IH H) as [Hd (z' & Hin & Hz)].
    split; [assumption|]. exists z'. split; [now right|assumption].
Qed.

Lemma decimal_zeros_apart :
  forallb (fun z => forallb (fun sp => (sp <? z)%N || (z + 10 <=? sp)%N)
                            PyStr.space_points)
          PyStr.decimal_zeros = true.
Proof. vm_compute. reflexivity. Qed.

Lemma decimal_zeros_ascii :
  forallb (fun z => (z =? 48)%N || (127 <=? z)%N) PyStr.decimal_zeros = true.
Proof. vm_compute. reflexivity. Qed.

(** A decimal digit is no white space. *)
Lemma decimal_not_space (ch : string) (d : N) :
  PyStr.decimal_value ch = Some d -> PyStr.is_space ch = false.
Proof.
  unfold PyStr.decimal_value, PyStr.is_space. intro H.
  apply decimal_in_spec in H as [_ (z & Hin & Hz)].
  destruct (existsb _ _) eqn:E; [|reflexivity].
  apply existsb_exists in E as (sp & Hsp & Heq). apply N.eqb_eq in Heq. subst sp.
  pose proof (proj1 (forallb_forall _ _) decimal_zeros_apart z Hin) as Hz'.
  pose proof (proj1 (forallb_forall _ _) Hz' _ Hsp) as Hsp'. simpl in Hsp'.
  apply orb_true_iff in Hsp' as [H1|H1];
    [apply N.ltb_lt in H1|apply N.leb_le in H1]; lia.
Qed.

Lemma is_digit_of_N (d : N) :
  (d < 10)%N -> PyStr.is_digit (ascii_of_N (48 + d)) = true.
Proof.
  intro H.
  assert (Hd : (d = 0 \/ d = 1 \/ d = 2 \/ d = 3 \/ d = 4 \/ d = 5 \/ d = 6
                \/ d = 7 \/ d = 8 \/ d = 9)%N) by lia.
  repeat (destruct Hd as [->|Hd]; [reflexivity|]). now subst d.
Qed.

(** What [int] and [float] make of a decimal digit is an ASCII digit. *)
Lemma to_ascii_decimal (ch : string) :
  PyStr.is_decimal ch = true ->
  exists a, PyStr.to_ascii ch = Some a /\ PyStr.is_digit a = true.
Proof.
  unfold PyStr.is_decimal. destruct (PyStr.decimal_value ch) as [d|] eqn:E;
    [intros _|discriminate].
  pose proof (decimal_not_space ch d E) as Hsp.
  pose proof E as E'. unfold PyStr.decimal_value in E'.
  apply decimal_in_spec in E' as [Hd (z & Hin & Hz)].
  assert (Htr : exists a,
            (if PyStr.is_space ch then Some " "%char
             else match PyStr.decimal_value ch with
                  | Some d => Some (ascii_of_N (48 + d))
                  | None => None
                  end) = Some a /\ PyStr.is_digit a = true).
  { rewrite Hsp, E. eexists. split; [reflexivity|]. now apply is_digit_of_N. }
  unfold PyStr.to_ascii. destruct ch as [|c [|c' rest]]; try exact Htr.
  destruct (nat_of_ascii c <? 127)%nat eqn:Hc; [|exact Htr].
  exists c. split; [reflexivity|].
  apply Nat.ltb_lt in Hc.
  assert (Hcp : PyStr.code_point (String c "") = N_of_ascii c).
  { unfold PyStr.code_point. simpl.
    destruct (N_of_ascii c <? 192)%N eqn:E1; [reflexivity|].
    apply N.ltb_ge in E1. unfold nat_of_ascii in Hc. lia. }
  rewrite Hcp in Hz.
  pose proof (proj1 (forallb_forall _ _) decimal_zeros_ascii z Hin) as Hz'.
  simpl in Hz'. unfold nat_of_ascii in Hc.
  apply orb_true_iff in Hz' as [H1|H1];
    [apply N.eqb_eq in H1|apply N.leb_le in H1; lia].
  subst z. unfold PyStr.is_digit, nat_of_ascii.
  apply andb_true_iff. split; apply Nat.leb_le; lia.
Qed.

(** ** Runs of digits *)

Lemma digit_runs_spec (cs cur : list string) :
  Forall (fun ch => whole ch = true) cs ->
  Forall (fun ch => whole ch = true /\ PyStr.is_decimal ch = true) cur ->
  Forall (fun run =>
            run <> []
            /\ Forall (fun ch => whole ch = true /\ PyStr.is_decimal ch = true) run)
         (PyStr.digit_runs cs cur).
Proof.
  intro Hcs. revert cur. induction Hcs as [|ch cs Hch Hcs IH]; intros cur Hcur; simpl.
  - destruct cur; [constructor|]. constructor; [|constructor].
    split; [discriminate|assumption].
  - destruct (PyStr.is_decimal ch) eqn:Hd.
    + apply IH. apply Forall_app. split; [assumption|]. now repeat constructor.
    + destruct cur as [|x cur]; [apply IH; constructor|].
      constructor; [split; [discriminate|assumption]|]. apply IH. constructor.
Qed.

Lemma is_digit_cases (c : ascii) :
  PyStr.is_digit c = true ->
  PyStr.is_c_space c = false /\ Ascii.eqb c "_" = false
  /\ PyStr.read_sign (String c "") = (false, String c "")
  /\ forall s, PyStr.read_sign (String c s) = (false, String c s).
Proof.
  destruct c as [[] [] [] [] [] [] [] []]; try discriminate; intros _;
    repeat split; reflexivity.
Qed.

Lemma c_rstrip_digits (s : string) :
  PyStr.all_digits s = true -> PyStr.c_rstrip s = s.
Proof.
  induction s as [|c s IH]; [reflexivity|]. simpl.
  intro H. apply andb_true_iff in H as [Hc Hs].
  rewrite (IH Hs). destruct (is_digit_cases c Hc) as [-> _]. reflexivity.
Qed.

Lemma c_strip_digits (s : string) :
  PyStr.all_digits s = true -> PyStr.c_strip s = s.
Proof.
  intro H. unfold PyStr.c_strip.
  destruct s as [|c s]; [reflexivity|].
  pose proof H as H'. simpl in H'. apply andb_true_iff in H' as [Hc _].
  cbn [PyStr.c_lstrip]. destruct (is_digit_cases c Hc) as [-> _].
  now apply c_rstrip_digits.
Qed.

Lemma drop_underscores_digits (s : string) (prev : bool) :
  PyStr.all_digits s = true -> PyStr.drop_underscores s prev = Some s.
Proof.
  revert prev. induction s as [|c s IH]; intros prev H; [reflexivity|].
  simpl in H. apply andb_true_iff in H as [Hc Hs].
  cbn [PyStr.drop_underscores].
  destruct (is_digit_cases c Hc) as (_ & -> & _). now rewrite IH.
Qed.

Lemma digits_value_nonneg (s : string) (acc : Z) :
  (0 <= acc)%Z -> (0 <= PyStr.digits_value s acc)%Z.
Proof.
  revert acc. induction s as [|c s IH]; intros acc H; simpl; [assumption|].
  apply IH. unfold PyStr.digit_value. lia.
Qed.

(** The ASCII form of a run of decimal digits: as many ASCII digits. *)
Lemma ascii_form_decimals (run : list string) :
  Forall (fun ch => whole ch = true /\ PyStr.is_decimal ch = true) run ->
  exists digits, PyStr.ascii_form run = Some digits
    /\ PyStr.all_digits digits = true
    /\ String.length digits = length run.
Proof.
  induction 1 as [|ch run [_ Hd] _ (digits & E & Hall & Hlen)]; simpl.
  - exists "". repeat split.
  - destruct (to_ascii_decimal ch Hd) as (a & -> & Ha). rewrite E.
    exists (String a digits). simpl. rewrite Ha, Hall, Hlen. repeat split.
Qed.

(** [int] of a run of decimal digits raises exactly when the run has more
    than 4300 digits, and returns a number that is not negative otherwise. *)
Lemma int_digit_run (run : list string) :
  run <> [] ->
  Forall (fun ch => whole ch = true /\ PyStr.is_decimal ch = true) run ->
  char_count (PyStr.concat run) = length run
  /\ if (4300 <? length run)%nat
     then PyStr.int (PyStr.concat run) = Raise ValueError
     else exists n, PyStr.int (PyStr.concat run) = Ok n /\ (0 <= n)%Z.
Proof.
  intros Hne Hrun.
  assert (Hch : PyStr.chars (PyStr.concat run) = run).
  { apply chars_concat. eapply List.Forall_impl; [|exact Hrun]. now intros ch []. }
  split; [unfold char_count; now rewrite Hch|].
  destruct (ascii_form_decimals run Hrun) as (digits & E & Hall & Hlen).
  unfold PyStr.int. rewrite Hch, E, c_strip_digits, drop_underscores_digits
    by assumption.
  destruct digits as [|c digits]; [destruct run; [contradiction|discriminate]|].
  pose proof Hall as Hall'. simpl in Hall'. apply andb_true_iff in Hall' as [Hc _].
  destruct (is_digit_cases c Hc) as (_ & _ & _ & ->).
  rewrite Hall. cbn [PyStr.is_empty negb orb].
  change PyStr.max_str_digits with 4300%nat. rewrite Hlen.
  destruct (4300 <? length run)%nat; [reflexivity|].
  eexists. split; [reflexivity|]. now apply digits_value_nonneg.
Qed.

Lemma findall_digits_spec (s : string) :
  Forall (fun first => exists run,
            first = PyStr.concat run /\ run <> []
            /\ Forall (fun ch => whole ch = true /\ PyStr.is_decimal ch = true) run)
         (PyStr.findall_digits s).
Proof.
  unfold PyStr.findall_digits. apply List.Forall_map.
  eapply List.Forall_impl; [|apply digit_runs_spec; [apply chars_whole|constructor]].
  intros run [Hne Hrun]. exists run. now repeat split.
Qed.

(** ** Parsing the requirements *)

Lemma int_raises_value_error (s : string) (e : exn) :
  PyStr.int s = Raise e -> e = ValueError.
Proof.
  unfold PyStr.int.
  destruct (PyStr.ascii_form _); [|congruence].
  destruct (PyStr.drop_underscores _ _) as [numeral|]; [|congruence].
  destruct (PyStr.read_sign numeral) as [neg digits].
  destruct (_ || _)%bool; [congruence|].
  destruct (_ <? _)%nat; [congruence|discriminate].
Qed.

Lemma decimal_literal_raises_value_error (s : string) (e : exn) :
  PyStr.decimal_literal s = Raise e -> e = ValueError.
Proof.
  unfold PyStr.decimal_literal.
  destruct (PyStr.span_digits s) as [ip s2].
  destruct (match s2 with String "."%char r => PyStr.span_digits r | _ => (""%string, s2) end)
    as [fp s3].
  destruct (PyStr.is_empty ip && PyStr.is_empty fp); [congruence|].
  unfold PyStr.read_exponent. destruct s3 as [|c r]; simpl; [discriminate|].
  destruct (_ || _)%bool; [|simpl; congruence].
  destruct (PyStr.read_sign r) as [neg' r1].
  destruct (PyStr.span_digits r1) as [d r2].
  destruct (_ || _)%bool; simpl; [congruence|discriminate].
Qed.

Lemma float_raises_value_error (s : string) (e : exn) :
  PyStr.float s = Raise e -> e = ValueError.
Proof.
  unfold PyStr.float.
  destruct (PyStr.ascii_form _); [|congruence].
  destruct (PyStr.drop_underscores _ _) as [numeral|]; [|congruence].
  destruct (PyStr.read_sign numeral) as [neg body].
  destruct (_ || _)%bool; [discriminate|].
  destruct (String.eqb _ "nan"); [discriminate|].
  destruct (PyStr.decimal_literal body) as [v|e'] eqn:E; simpl; [discriminate|].
  intro H. inversion H. subst e'. now apply decimal_literal_raises_value_error in E.
Qed.

Lemma contains_marker_nonempty (marker s : string) :
  marker <> "" -> PyStr.contains marker s = true -> PyStr.is_empty s = false.
Proof.
  intros Hm H. destruct s; [|reflexivity].
  destruct marker; [contradiction|discriminate H].
Qed.

(** The cap that is parsed from a commute text: it is unset without the
    marker or without a digit, and otherwise [int] of the first run of
    digits, which raises [ValueError] for a run of more than 4300 digits. *)
Lemma parse_commute_spec (commute_str : string) :
  match commute_number commute_str with
  | None => parse_commute commute_str = Ok None
  | Some first =>
      if (4300 <? char_count first)%nat
      then parse_commute commute_str = Raise ValueError
      else exists n, parse_commute commute_str = Ok (Some n) /\ (0 <= n)%Z
  end.
Proof.
  unfold commute_number, parse_commute.
  destruct (PyStr.contains "分钟" commute_str) eqn:Em.
  - rewrite (contains_marker_nonempty "分钟" commute_str) by (discriminate || assumption).
    cbn [negb andb].
    pose proof (findall_digits_spec commute_str) as H.
    destruct (PyStr.findall_digits commute_str) as [|first rest]; [reflexivity|].
    apply Forall_inv in H as (run & -> & Hne & Hrun). cbn [head].
    destruct (int_digit_run run Hne Hrun) as [-> Hint].
    destruct (4300 <? length run)%nat.
    + now rewrite Hint.
    + destruct Hint as (n & -> & Hn). exists n. now split.
  - rewrite andb_false_r. reflexivity.
Qed.

Lemma parse_budget_spec (budget_str : string) :
  match parse_budget budget_str with
  | Raise e =>
      e = ValueError
      /\ exists part, In part (budget_numbers budget_str)
                      /\ PyStr.float part = Raise ValueError
  | Ok (budget_min, budget_max) =>
      Forall (fun part => exists x, PyStr.float part = Ok x)
             (budget_numbers budget_str)
      /\ (budget_numbers budget_str = [] ->
          budget_min = None /\ budget_max = None)
  end.
Proof.
  unfold parse_budget, budget_numbers.
  destruct budget_str as [|c0 s0] eqn:Es; [simpl; split; [constructor|auto]|].
  rewrite <- Es. replace (PyStr.is_empty budget_str) with false by now subst.
  simpl negb. simpl andb.
  destruct (PyStr.contains "万" budget_str); [|split; [constructor|auto]].
  cbv zeta. destruct (PyStr.contains "-" _).
  - unfold PyStr.split. simpl PyStr.is_empty. simpl bind.
    destruct (PyStr.split_from "-" _ 0 "") as [|lo [|hi [|x l]]];
      try (split; [constructor|auto]).
    destruct (PyStr.float (PyStr.strip lo)) as [qlo|e] eqn:Elo; simpl.
    + destruct (PyStr.float (PyStr.strip hi)) as [qhi|e] eqn:Ehi; simpl.
      * split; [|discriminate].
        repeat constructor; eexists; eassumption.
      * pose proof (float_raises_value_error _ _ Ehi). subst e.
        split; [reflexivity|]. exists (PyStr.strip hi). simpl. auto.
    + pose proof (float_raises_value_error _ _ Elo). subst e.
      split; [reflexivity|]. exists (PyStr.strip lo). simpl. auto.
  - destruct (PyStr.contains "以内" _); [|split; [constructor|auto]].
    destruct (PyStr.float _) as [q|e] eqn:E; simpl.
    + split; [|discriminate]. repeat constructor. eexists; eassumption.
    + pose proof (float_raises_value_error _ _ E). subst e.
      split; [reflexivity|]. eexists. simpl. split; [left; reflexivity|assumption].
Qed.

Lemma parse_budget_raises_value_error (budget_str : string) (e : exn) :
  parse_budget budget_str = Raise e -> e = ValueError.
Proof.
  intro H. pose proof (parse_budget_spec budget_str) as Hs.
  rewrite H in Hs. apply Hs.
Qed.

Lemma parse_commute_raises_value_error (commute_str : string) (e : exn) :
  parse_commute commute_str = Raise e -> e = ValueError.
Proof.
  intro H. pose proof (parse_commute_spec commute_str) as Hs.
  destruct (commute_number commute_str) as [first|]; [|congruence].
  destruct (_ <? _)%nat; [congruence|].
  destruct Hs as (n & Hn & _). congruence.
Qed.

(** An error of the parsing leaves [calculate_matching_score]. *)
Lemma matching_score_parse_error (self : MatchingAgent.t) (p : Listing.t)
    (reqs : Requirements.t) :
  parse_budget (get_str (Requirements.budget reqs)) = Raise ValueError
  \/ parse_commute (get_str (Requirements.commute reqs)) = Raise ValueError ->
  calculate_matching_score self p reqs = Raise ValueError.
Proof.
  intro H. unfold calculate_matching_score.
  destruct (parse_budget _) as [[bmin bmax]|e] eqn:Eb; cbn [bind].
  - destruct H as [H|H]; [discriminate H|]. now rewrite H.
  - now rewrite (parse_budget_raises_value_error _ _ Eb).
Qed.

(** C3, as amended.  Parsing the budget text raises only [ValueError], and
    exactly when one of the texts it hands to [float] (the two sides of a
    range, the number of a cap) is not a number; when every such text is a
    number it returns the bounds, and a text of any other shape leaves both
    bounds unset.  Parsing the commute text leaves the cap unset for a text
    without the marker or without a digit, and otherwise hands the first
    run of digits to [int]: it raises [ValueError] exactly when that run
    has more than 4300 digits.  Either error leaves
    [calculate_matching_score] for every listing, and [recommend_properties]
    then returns no recommendation. *)
Theorem parsing_raises_only_on_unreadable_numbers (self : MatchingAgent.t)
    (p : Listing.t) (rest : list Listing.t) (reqs : Requirements.t) (top_k : Z) :
  let budget_str := get_str (Requirements.budget reqs) in
  let commute_str := get_str (Requirements.commute reqs) in
  match parse_budget budget_str with
  | Raise e =>
      e = ValueError
      /\ exists part, In part (budget_numbers budget_str)
                      /\ PyStr.float part = Raise ValueError
  | Ok (budget_min, budget_max) =>
      Forall (fun part => exists x, PyStr.float part = Ok x)
             (budget_numbers budget_str)
      /\ (budget_numbers budget_str = [] ->
          budget_min = None /\ budget_max = None)
  end
  /\ match commute_number commute_str with
     | None => parse_commute commute_str = Ok None
     | Some first =>
         if (4300 <? char_count first)%nat
         then parse_commute commute_str = Raise ValueError
         else exists n, parse_commute commute_str = Ok (Some n) /\ (0 <= n)%Z
     end
  /\ (parse_budget budget_str = Raise ValueError
      \/ parse_commute commute_str = Raise ValueError ->
      calculate_matching_score self p reqs = Raise ValueError
      /\ recommend_properties self (p :: rest) reqs top_k = []).
Proof.
  cbv zeta. split; [apply parse_budget_spec|]. split; [apply parse_commute_spec|].
  intro H. pose proof (matching_score_parse_error self p reqs H) as E.
  split; [assumption|].
  unfold recommend_properties, scored_properties. cbn [mapM].
  now rewrite E.
Qed.

(** The texts of the recognised shapes, texts that are left unset, and
    numbers as [float] and [int] read them. *)
Lemma parse_budget_examples :
  parse_budget "300-500万"
  = Ok (Some (PyFloat.Finite (300 * 10000)), Some (PyFloat.Finite (500 * 10000)))
  /\ parse_budget "500万以内" = Ok (None, Some (PyFloat.Finite (500 * 10000)))
  /\ parse_budget "300万-500万"
     = Ok (Some (PyFloat.Finite (300 * 10000)), Some (PyFloat.Finite (500 * 10000)))
  /\ parse_budget "５００万以内" = Ok (None, Some (PyFloat.Finite (500 * 10000)))
  /\ parse_budget "1_000万以内" = Ok (None, Some (PyFloat.Finite (1000 * 10000)))
  /\ parse_budget "nan-500万"
     = Ok (Some PyFloat.NaN, Some (PyFloat.Finite (500 * 10000)))
  /\ parse_budget "inf万以内" = Ok (None, Some PyFloat.PosInf)
  /\ parse_budget "1e400万以内" = Ok (None, Some PyFloat.PosInf)
  /\ parse_budget "1e-400万以内" = Raise ValueError
  /\ parse_budget "500万左右" = Ok (None, None)
  /\ parse_budget "100-200-300万" = Ok (None, None)
  /\ parse_budget "500" = Ok (None, None)
  /\ parse_budget "" = Ok (None, None).
Proof. repeat split; vm_compute; reflexivity. Qed.

Lemma float_examples :
  PyStr.float " 3.5 " = Ok (PyFloat.Finite 3.5)
  /\ PyStr.float "1e3" = Ok (PyFloat.Finite 1000)
  /\ PyStr.float "-Infinity" = Ok PyFloat.NegInf
  /\ PyStr.float "1e-400" = Ok (PyFloat.Finite 0)
  /\ PyStr.float "1_0" = Ok (PyFloat.Finite 10)
  /\ PyStr.float "1__0" = Raise ValueError
  /\ PyStr.float "0x10" = Raise ValueError
  /\ PyStr.float "" = Raise ValueError.
Proof. repeat split; vm_compute; reflexivity. Qed.

Lemma parse_commute_examples :
  parse_commute "30分钟" = Ok (Some 30%Z)
  /\ parse_commute "通勤30到45分钟" = Ok (Some 30%Z)
  /\ parse_commute "３０分钟" = Ok (Some 30%Z)
  /\ parse_commute "半小时" = Ok None
  /\ parse_commute "三十分钟" = Ok None
  /\ parse_commute "" = Ok None.
Proof. repeat split; vm_compute; reflexivity. Qed.

(** C3 as stated fails: a cap written in Chinese numerals, ["五百万以内"],
    has the marker and the suffix, [float] is given ["五百"], and the
    [ValueError] leaves [calculate_matching_score]: the budget is not
    treated as unset.  So does a commute text of 4301 digits before the
    marker. *)
Lemma parse_budget_raises_on_unreadable_number :
  parse_budget "五百万以内" = Raise ValueError
  /\ calculate_matching_score Examples.agent Examples.P001
       (Requirements.mk (Some "五百万以内") None None None) = Raise ValueError
  /\ parse_commute (PyStr.concat (List.repeat "1" 4301) ++ "分钟")
     = Raise ValueError
  /\ recommend_properties Examples.agent [Examples.P001]
       (Requirements.mk None None None
          (Some (PyStr.concat (List.repeat "1" 4301) ++ "分钟"))) 5 = [].
Proof. repeat split; vm_compute; reflexivity. Qed.

(** ** A listing without a required key *)

Lemma mapM_raises {A B : Type} (f : A -> result B) (l : list A) (x : A) :
  In x l -> (exists e, f x = Raise e) -> exists e, mapM f l = Raise e.
Proof.
  intros Hin [e He]. induction l as [|y l IH]; [contradiction|]. simpl.
  destruct Hin as [->|Hin].
  - rewrite He. simpl. eauto.
  - destruct (f y); simpl; [|eauto].
    destruct (IH Hin) as [e' ->]. simpl. eauto.
Qed.

Lemma mapM_length {A B : Type} (f : A -> result B) (l : list A) (ys : list B) :
  mapM f l = Ok ys -> length ys = length l.
Proof.
  revert ys. induction l as [|x l IH]; simpl; intros ys H.
  - now inversion H.
  - destruct (f x); simpl in H; [|discriminate].
    destruct (mapM f l); simpl in H; [|discriminate].
    inversion H. simpl. f_equal. now apply IH.
Qed.

Lemma matching_score_missing_key (self : MatchingAgent.t) (p : Listing.t)
    (reqs : Requirements.t) :
  missing_required p = true ->
  exists e, calculate_matching_score self p reqs = Raise e.
Proof.
  intro H. unfold calculate_matching_score.
  destruct (parse_budget _) as [[bmin bmax]|]; simpl; [|eauto].
  destruct (parse_commute _) as [cap|]; simpl; [|eauto].
  destruct p as [pid addr price area school commute]. unfold missing_required in H.
  simpl in *.
  destruct price as [price|]; simpl; [|eauto].
  destruct (calculate_budget_score _ _ _); simpl; [|eauto].
  destruct area as [area|]; simpl; [|eauto].
  destruct school as [school|]; simpl; [|eauto].
  destruct commute as [commute|]; simpl; [|eauto].
  destruct (calculate_commute_score _ _); simpl; [|eauto].
  destruct pid as [pid|]; simpl; [discriminate H|eauto].
Qed.

(** C4, as amended.  When a listing of the input lacks a required key, the
    [KeyError] is caught around the whole body of [recommend_properties],
    which returns the empty list: no listing is ranked, and nothing is
    reported about the listing that was at fault. *)
Theorem recommend_properties_aborts_on_missing_key (self : MatchingAgent.t)
    (properties : list Listing.t) (reqs : Requirements.t) (top_k : Z)
    (p : Listing.t) :
  In p properties -> missing_required p = true ->
  recommend_properties self properties reqs top_k = [].
Proof.
  intros Hin Hmiss. unfold recommend_properties, scored_properties.
  destruct (mapM_raises
    (fun prop => let! matching_score := calculate_matching_score self prop reqs in
                 Ok (prop, matching_score)) properties p Hin) as [e ->];
    [|reflexivity].
  destruct (matching_score_missing_key self p reqs Hmiss) as [e ->].
  simpl. eauto.
Qed.

Lemma recommend_properties_aborts_on_missing_key_witness :
  recommend_properties Examples.agent [Examples.P001; Examples.P005_no_price]
    Examples.requirements 5 = [].
Proof.
  apply (recommend_properties_aborts_on_missing_key Examples.agent
           [Examples.P001; Examples.P005_no_price] Examples.requirements 5
           Examples.P005_no_price).
  - simpl. right. left. reflexivity.
  - reflexivity.
Defined.

(** C4 as stated fails: P001 alone is recommended, and next to a listing
    without its price it is not. *)
Lemma missing_key_drops_every_listing :
  length (recommend_properties Examples.agent [Examples.P001]
            Examples.requirements 5) = 1%nat
  /\ recommend_properties Examples.agent
       [Examples.P001; Examples.P005_no_price] Examples.requirements 5 = [].
Proof. split; vm_compute; reflexivity. Qed.

(** ** The stable descending sort *)

Section SortFacts.
Context {A : Type} (key : A -> Q).

Lemma insert_desc_perm (x : A) (l : list A) :
  Permutation (PyList.insert_desc key x l) (x :: l).
Proof.
  induction l as [|y l IH]; simpl; [reflexivity|].
  destruct (PyNum.Qlt_bool (key x) (key y)); [|reflexivity].
  rewrite IH. apply perm_swap.
Qed.

Lemma sort_desc_perm (l : list A) : Permutation (PyList.sort_desc key l) l.
Proof.
  induction l as [|x l IH]; simpl; [reflexivity|].
  rewrite insert_desc_perm. now apply perm_skip.
Qed.

Lemma sort_desc_length (l : list A) :
  length (PyList.sort_desc key l) = length l.
Proof. apply Permutation_length, sort_desc_perm. Qed.

Lemma insert_desc_descending (x : A) (l : list A) :
  descending key l -> descending key (PyList.insert_desc key x l).
Proof.
  unfold descending. induction l as [|y l IH]; intro H; simpl.
  - repeat constructor.
  - apply StronglySorted_inv in H as [Hl Hy].
    destruct (PyNum.Qlt_bool (key x) (key y)) eqn:E.
    + apply Qlt_bool_true in E. constructor; [now apply IH|].
      apply (Permutation_Forall (Permutation_sym (insert_desc_perm x l))).
      constructor; [lra|assumption].
    + apply Qlt_bool_false in E. constructor; [now constructor|].
      constructor; [assumption|].
      eapply List.Forall_impl; [|exact Hy]. simpl. intros z Hz. lra.
Qed.

Lemma sort_desc_descending (l : list A) : descending key (PyList.sort_desc key l).
Proof.
  induction l as [|x l IH]; simpl; [constructor|].
  now apply insert_desc_descending.
Qed.







Lemma descending_firstn (n : nat) (l : list A) :
  descending key l -> descending key (firstn n l).
Proof.
  unfold descending. revert n. induction l as [|x l IH]; intros n H.
  - rewrite firstn_nil. constructor.
  - destruct n as [|n]; [constructor|]. simpl.
    apply StronglySorted_inv in H as [Hl Hx].
    constructor; [now apply IH|].
    now apply Forall_take.
Qed.

Lemma filter_firstn (f : A -> bool) (n : nat) (l : list A) :
  exists m, List.filter f (firstn n l) = firstn m (List.filter f l).
Proof.
  revert n. induction l as [|x l IH]; intros n.
  - exists 0%nat. now rewrite firstn_nil.
  - destruct n as [|n]; [now exists 0%nat|]. simpl.
    destruct (IH n) as [m Hm]. destruct (f x).
    + exists (S m). simpl. now rewrite Hm.
    + now exists m.
Qed.

Lemma descending_slice_to (k : Z) (l : list A) :
  descending key l -> descending key (PyList.slice_to k l).
Proof.
  intro H. unfold PyList.slice_to.
  destruct (k <? 0)%Z; now apply descending_firstn.
Qed.

Lemma filter_slice_to (f : A -> bool) (k : Z) (l : list A) :
  exists m, List.filter f (PyList.slice_to k l) = firstn m (List.filter f l).
Proof.
  unfold PyList.slice_to. destruct (k <? 0)%Z; apply filter_firstn.
Qed.


Lemma enumerate_snd (start : Z) (l : list A) :
  map snd (PyList.enumerate start l) = l.
Proof.
  revert start. induction l as [|x l IH]; intro start; [reflexivity|].
  simpl. now rewrite IH.
Qed.

Lemma enumerate_length (start : Z) (l : list A) :
  length (PyList.enumerate start l) = length l.
Proof. rewrite <- (length_map snd). now rewrite enumerate_snd. Qed.

End SortFacts.

(** ** Ranking *)

Lemma scored_properties_spec (self : MatchingAgent.t) (properties : list Listing.t)
    (reqs : Requirements.t) (scored : list (Listing.t * MatchingScore)) :
  scored_properties self properties reqs = Ok scored ->
  map fst scored = properties
  /\ Forall (fun x => calculate_matching_score self (fst x) reqs = Ok (snd x)) scored.
Proof.
  unfold scored_properties. revert scored.
  induction properties as [|p ps IH]; simpl; intros scored H.
  - inversion H. split; [reflexivity|constructor].
  - destruct (calculate_matching_score self p reqs) as [ms|] eqn:E;
      simpl in H; [|discriminate].
    destruct (mapM _ ps) as [rest|]; simpl in H; [|discriminate].
    inversion H. destruct (IH rest eq_refl) as [Hfst Hall].
    simpl. split; [now rewrite Hfst|]. constructor; assumption.
Qed.

Lemma recommendations_unranked (top_k : Z) (sorted : list (Listing.t * MatchingScore)) :
  map unranked (recommendations_of top_k sorted) = PyList.slice_to top_k sorted.
Proof.
  unfold recommendations_of. rewrite map_map.
  rewrite <- (enumerate_snd 1 (PyList.slice_to top_k sorted)) at 2.
  apply map_ext. intros [r [p s]]. reflexivity.
Qed.

Lemma recommendations_length (top_k : Z) (sorted : list (Listing.t * MatchingScore)) :
  length (recommendations_of top_k sorted) = length (PyList.slice_to top_k sorted).
Proof.
  unfold recommendations_of. now rewrite length_map, enumerate_length.
Qed.







(** The order of ties on the sample data: P006 and P001 have the same total
    score, and they are ranked in the order of the input, whichever it is. *)
Lemma recommend_properties_ties_example :
  map (fun rec => (rank rec, Listing.property_id (property_info rec)))
      (recommend_properties Examples.agent
         [Examples.P005; Examples.P006; Examples.P001] Examples.requirements 3)
  = [(1%Z, Some "P006"); (2%Z, Some "P001"); (3%Z, Some "P005")]
  /\ map (fun rec => (rank rec, Listing.property_id (property_info rec)))
         (recommend_properties Examples.agent
            [Examples.P001; Examples.P005; Examples.P006] Examples.requirements 3)
     = [(1%Z, Some "P001"); (2%Z, Some "P006"); (3%Z, Some "P005")].
Proof. split; vm_compute; reflexivity. Qed.

(** ** The number of recommendations *)

Lemma slice_to_nonneg {A : Type} (k : Z) (l : list A) :
  (0 <= k)%Z -> PyList.slice_to k l = firstn (Z.to_nat k) l.
Proof.
  intro H. unfold PyList.slice_to.
  destruct (k <? 0)%Z eqn:E; [|reflexivity]. apply Z.ltb_lt in E. lia.
Qed.

(** X12.  A [top_k] that is not negative: the first [top_k] of the sorted scores,
    all of them when [top_k] is not smaller than their number, none for 0. *)
Lemma recommend_properties_top_k_nonneg (self : MatchingAgent.t)
    (properties : list Listing.t) (reqs : Requirements.t) (top_k : Z)
    (scored : list (Listing.t * MatchingScore)) :
  scored_properties self properties reqs = Ok scored ->
  (0 <= top_k)%Z ->
  let out := recommend_properties self properties reqs top_k in
  map unranked out = firstn (Z.to_nat top_k) (PyList.sort_desc sort_key scored)
  /\ length out = Nat.min (Z.to_nat top_k) (length properties)
  /\ ((Z.of_nat (length properties) <= top_k)%Z ->
      Permutation (map unranked out) scored).
Proof.
  intros E Hk. cbv zeta. unfold recommend_properties. rewrite E.
  assert (Hlen : length scored = length properties).
  { destruct (scored_properties_spec _ _ _ _ E) as [<- _]. now rewrite length_map. }
  rewrite recommendations_length, recommendations_unranked, slice_to_nonneg by assumption.
  split; [reflexivity|]. split.
  - now rewrite length_firstn, sort_desc_length, Hlen.
  - intro Hall. rewrite firstn_all2; [apply sort_desc_perm|].
    rewrite sort_desc_length, Hlen. lia.
Qed.

(** C6.  For a negative [top_k] the slice drops the last [-top_k] of the
    sorted scores: with [N] listings, [N + top_k] of them are recommended
    (none when that is negative), where the claim asks for none at all. *)
Theorem recommend_properties_negative_top_k (self : MatchingAgent.t)
    (properties : list Listing.t) (reqs : Requirements.t) (top_k : Z)
    (scored : list (Listing.t * MatchingScore)) :
  scored_properties self properties reqs = Ok scored ->
  (top_k < 0)%Z ->
  length (recommend_properties self properties reqs top_k)
  = Z.to_nat (Z.of_nat (length properties) + top_k).
Proof.
  intros E Hk. unfold recommend_properties. rewrite E.
  assert (Hlen : length scored = length properties).
  { destruct (scored_properties_spec _ _ _ _ E) as [<- _]. now rewrite length_map. }
  rewrite recommendations_length. unfold PyList.slice_to.
  apply Z.ltb_lt in Hk as Hk'. rewrite Hk'.
  rewrite length_firstn, sort_desc_length, Hlen. lia.
Qed.

Lemma recommend_properties_negative_top_k_witness :
  length (recommend_properties Examples.agent [Examples.P001; Examples.P005]
            Examples.requirements (-1))
  = Z.to_nat (Z.of_nat (length [Examples.P001; Examples.P005]) + -1).
Proof.
  apply (recommend_properties_negative_top_k Examples.agent
           [Examples.P001; Examples.P005] Examples.requirements (-1)
           (match scored_properties Examples.agent [Examples.P001; Examples.P005]
                    Examples.requirements with
            | Ok scored => scored
            | Raise _ => []
            end)).
  - vm_compute. reflexivity.
  - lia.
Defined.

(** The recommendation that a [top_k] of -1 leaves of two listings. *)
Lemma recommend_properties_minus_one_example :
  map (fun rec => (rank rec, Listing.property_id (property_info rec)))
      (recommend_properties Examples.agent [Examples.P001; Examples.P005]
         Examples.requirements (-1))
  = [(1%Z, Some "P001")].
Proof. vm_compute. reflexivity. Qed.

(** * Further properties *)

(** ** Bytes of the texts that are parsed *)

Lemma contains_char (a : ascii) (s : string) :
  PyStr.contains (String a "") s = occurs a s.
Proof.
  induction s as [|c s IH]; [reflexivity|].
  simpl. destruct (ascii_dec a c) as [->|Hne].
  - rewrite Ascii.eqb_refl. now destruct s.
  - apply Ascii.eqb_neq in Hne. now rewrite Hne.
Qed.

Lemma occurs_app (a : ascii) (s t : string) :
  occurs a (s ++ t) = occurs a s || occurs a t.
Proof.
  induction s as [|c s IH]; [reflexivity|].
  rewrite append_cons. cbn [occurs]. now rewrite IH, orb_assoc.
Qed.

Lemma chars_from_occurs (a : ascii) (s cur : string) (need : nat) :
  occurs a s = false -> occurs a cur = false ->
  Forall (fun ch => occurs a ch = false) (PyStr.chars_from s cur need).
Proof.
  revert cur need. induction s as [|c s IH]; intros cur need Hs Hcur;
    cbn [PyStr.chars_from]; [constructor|].
  cbn [occurs] in Hs. apply orb_false_iff in Hs as [Hc Hs].
  assert (Hsnoc : occurs a (cur ++ String c "") = false).
  { rewrite occurs_app, Hcur. cbn [occurs]. now rewrite Hc. }
  assert (Hone : occurs a (String c "") = false) by (cbn [occurs]; now rewrite Hc).
  destruct need as [|[|k]].
  - destruct (PyStr.utf8_length c) as [|[|n]].
    + now apply IH.
    + constructor; [assumption|]. now apply IH.
    + now apply IH.
  - constructor; [assumption|]. now apply IH.
  - now apply IH.
Qed.

Lemma concat_occurs (a : ascii) (cs : list string) :
  Forall (fun ch => occurs a ch = false) cs -> occurs a (PyStr.concat cs) = false.
Proof.
  induction 1 as [|ch cs Hch _ IH]; [reflexivity|].
  cbn [PyStr.concat]. now rewrite occurs_app, Hch, IH.
Qed.

Lemma drop_spaces_forall (P : string -> Prop) (cs : list string) :
  Forall P cs -> Forall P (PyStr.drop_spaces cs).
Proof.
  induction 1 as [|ch cs Hch Hcs IH]; simpl; [constructor|].
  destruct (PyStr.is_space ch); [assumption|now constructor].
Qed.

Lemma drop_trailing_spaces_forall (P : string -> Prop) (cs : list string) :
  Forall P cs -> Forall P (PyStr.drop_trailing_spaces cs).
Proof.
  induction 1 as [|ch cs Hch Hcs IH]; simpl; [constructor|].
  destruct (PyStr.drop_trailing_spaces cs) as [|x rest].
  - destruct (PyStr.is_space ch); [constructor|now repeat constructor].
  - now constructor.
Qed.

Lemma strip_occurs (a : ascii) (s : string) :
  occurs a s = false -> occurs a (PyStr.strip s) = false.
Proof.
  intro H. unfold PyStr.strip. apply concat_occurs.
  apply drop_trailing_spaces_forall, drop_spaces_forall.
  now apply chars_from_occurs.
Qed.

Lemma replace_from_occurs (a : ascii) (old new s : string) (skip : nat) :
  occurs a s = false -> occurs a new = false ->
  occurs a (PyStr.replace_from old new s skip) = false.
Proof.
  intros Hs Hn. revert skip. induction s as [|c s IH]; intro skip; [reflexivity|].
  simpl in Hs. apply orb_false_iff in Hs as [Hc Hs]. cbn [PyStr.replace_from].
  destruct skip as [|k]; [|now apply IH].
  destruct (String.prefix old (String c s)).
  - rewrite occurs_app, Hn. now apply IH.
  - cbn [occurs]. rewrite Hc. now apply IH.
Qed.

Lemma replace_occurs (a : ascii) (old s : string) :
  PyStr.is_empty old = false -> occurs a s = false ->
  occurs a (PyStr.replace old "" s) = false.
Proof.
  intros Ho Hs. unfold PyStr.replace. rewrite Ho.
  now apply replace_from_occurs.
Qed.

(** The pieces of a split on one byte are free of that byte. *)
Lemma split_from_char (a : ascii) (s cur : string) :
  occurs a cur = false ->
  Forall (fun piece => occurs a piece = false)
         (PyStr.split_from (String a "") s 0 cur).
Proof.
  revert cur. induction s as [|c s IH]; intros cur Hcur;
    cbn [PyStr.split_from String.prefix String.length Nat.sub].
  - now constructor.
  - destruct (ascii_dec a c) as [->|Hne].
    + replace (String.prefix "" s) with true by now destruct s.
      constructor; [assumption|]. now apply IH.
    + apply IH. rewrite occurs_app, Hcur. cbn [occurs].
      apply Ascii.eqb_neq in Hne. now rewrite Hne.
Qed.

(** The ASCII form of a text without a minus sign has none. *)
Lemma to_ascii_minus (ch : string) (c : ascii) :
  occurs "-" ch = false -> PyStr.to_ascii ch = Some c -> c <> "-"%char.
Proof.
  intros Hch.
  assert (Htr : (if PyStr.is_space ch then Some " "%char
                 else match PyStr.decimal_value ch with
                      | Some d => Some (ascii_of_N (48 + d))
                      | None => None
                      end) = Some c -> c <> "-"%char).
  { destruct (PyStr.is_space ch); [intro H; inversion H; discriminate|].
    destruct (PyStr.decimal_value ch) as [d|] eqn:E; [|discriminate].
    unfold PyStr.decimal_value in E. apply decimal_in_spec in E as [Hd _].
    intro H. inversion H. intro Hm.
    pose proof (is_digit_of_N d Hd) as Hdig. rewrite Hm in Hdig. discriminate. }
  unfold PyStr.to_ascii. destruct ch as [|b [|b' rest]]; try exact Htr.
  destruct (nat_of_ascii b <? 127)%nat; [|exact Htr].
  intro H. inversion H. subst b. intro Hm. subst c. discriminate Hch.
Qed.

Lemma ascii_form_minus (cs : list string) (text : string) :
  Forall (fun ch => occurs "-" ch = false) cs ->
  PyStr.ascii_form cs = Some text -> occurs "-" text = false.
Proof.
  intro H. revert text. induction H as [|ch cs Hch _ IH]; intros text; simpl.
  - intro E. now inversion E.
  - destruct (PyStr.to_ascii ch) as [c|] eqn:Ec; [|discriminate].
    destruct (PyStr.ascii_form cs) as [rest|]; [|discriminate].
    intro E. inversion E. cbn [occurs]. rewrite (IH rest eq_refl), orb_false_r.
    apply Ascii.eqb_neq. intro Hm. symmetry in Hm.
    exact (to_ascii_minus ch c Hch Ec Hm).
Qed.

Lemma c_lstrip_occurs (a : ascii) (s : string) :
  occurs a s = false -> occurs a (PyStr.c_lstrip s) = false.
Proof.
  induction s as [|c s IH]; [auto|]. cbn [PyStr.c_lstrip].
  destruct (PyStr.is_c_space c); [|auto].
  cbn [occurs]. intro H. apply orb_false_iff in H as [_ H]. now apply IH.
Qed.

Lemma c_rstrip_occurs (a : ascii) (s : string) :
  occurs a s = false -> occurs a (PyStr.c_rstrip s) = false.
Proof.
  induction s as [|c s IH]; [auto|]. cbn [PyStr.c_rstrip occurs].
  intro H. apply orb_false_iff in H as [Hc H].
  destruct (PyStr.is_c_space c && PyStr.is_empty (PyStr.c_rstrip s));
    [reflexivity|].
  cbn [occurs]. now rewrite Hc, IH.
Qed.

Lemma drop_underscores_occurs (a : ascii) (s t : string) (prev : bool) :
  occurs a s = false -> PyStr.drop_underscores s prev = Some t ->
  occurs a t = false.
Proof.
  revert t prev. induction s as [|c s IH]; intros t prev Hs; cbn [PyStr.drop_underscores].
  - intro H. now inversion H.
  - cbn [occurs] in Hs. apply orb_false_iff in Hs as [Hc Hs].
    destruct (Ascii.eqb c "_").
    + destruct s as [|d s']; [discriminate|].
      destruct (prev && PyStr.is_digit d); [|discriminate]. now apply IH.
    + destruct (PyStr.drop_underscores s (PyStr.is_digit c)) as [rest|] eqn:E;
        [|discriminate].
      intro H. inversion H. cbn [occurs]. rewrite Hc. now apply (IH rest _ Hs E).
Qed.

Lemma read_sign_plain (s : string) (neg : bool) (body : string) :
  occurs "-" s = false -> PyStr.read_sign s = (neg, body) -> neg = false.
Proof.
  destruct s as [|c r]; [intros _ H; now inversion H|].
  cbn [occurs]. intro H. apply orb_false_iff in H as [Hc _].
  unfold PyStr.read_sign.
  destruct c as [[] [] [] [] [] [] [] []]; try discriminate Hc;
    intro E; now inversion E.
Qed.

Lemma decimal_literal_nonneg (s : string) (v : Q) :
  PyStr.decimal_literal s = Ok v -> 0 <= v.
Proof.
  unfold PyStr.decimal_literal.
  destruct (PyStr.span_digits s) as [ip s2].
  destruct (match s2 with String "."%char r0 => PyStr.span_digits r0
                     | _ => (""%string, s2) end) as [fp s3].
  destruct (PyStr.is_empty ip && PyStr.is_empty fp); [discriminate|].
  destruct (PyStr.read_exponent s3) as [e|]; simpl; [|discriminate].
  intro H. inversion H. apply Qmult_le_0_compat.
  - change 0 with (inject_Z 0). rewrite <- Zle_Qle.
    now apply digits_value_nonneg.
  - apply Qlt_le_weak, Qpower_0_lt. reflexivity.
Qed.

Lemma of_Q_nonneg (v : Q) : 0 <= v -> bound_nonneg (Some (PyFloat.of_Q v)).
Proof.
  intro H. unfold PyFloat.of_Q.
  destruct (Qle_bool (inject_Z PyNum.overflow_bound) v); [exact I|].
  destruct (Qle_bool v (inject_Z (- PyNum.overflow_bound))) eqn:E.
  - apply Qle_bool_iff in E.
    assert (inject_Z (- PyNum.overflow_bound) < 0)
      by (change 0 with (inject_Z 0); rewrite <- Zlt_Qlt; reflexivity).
    lra.
  - destruct (_ && _); simpl; [lra|assumption].
Qed.

(** What [float] reads from a text without a minus sign is not negative. *)
Lemma float_nonneg (s : string) (x : PyFloat.t) :
  occurs "-" s = false -> PyStr.float s = Ok x -> bound_nonneg (Some x).
Proof.
  intros Hs. unfold PyStr.float.
  destruct (PyStr.ascii_form (PyStr.chars s)) as [text|] eqn:Ef; [|discriminate].
  apply ascii_form_minus in Ef; [|now apply chars_from_occurs].
  destruct (PyStr.drop_underscores _ _) as [numeral|] eqn:Eu; [|discriminate].
  apply drop_underscores_occurs with (a := "-"%char) in Eu;
    [|now apply c_rstrip_occurs, c_lstrip_occurs].
  destruct (PyStr.read_sign numeral) as [neg body] eqn:Er.
  apply read_sign_plain in Er; [subst neg|assumption].
  destruct (_ || _)%bool; [intro H; now inversion H|].
  destruct (String.eqb _ "nan"); [intro H; now inversion H|].
  destruct (PyStr.decimal_literal body) as [v|] eqn:Ev; simpl; [|discriminate].
  intro H. inversion H. apply of_Q_nonneg. now apply decimal_literal_nonneg in Ev.
Qed.

Lemma mul_nonneg (x : PyFloat.t) :
  bound_nonneg (Some x) -> bound_nonneg (Some (PyFloat.mul x 10000)).
Proof.
  destruct x as [q| | |]; simpl; try contradiction; try exact (fun H => H).
  intro H. apply of_Q_nonneg. lra.
Qed.

Lemma parse_budget_bounds_nonneg (budget_str : string)
    (budget_min budget_max : option PyFloat.t) :
  parse_budget budget_str = Ok (budget_min, budget_max) ->
  bound_nonneg budget_min /\ bound_nonneg budget_max.
Proof.
  unfold parse_budget.
  destruct (negb (PyStr.is_empty budget_str) && PyStr.contains "万" budget_str);
    [|intro H; inversion H; now split].
  cbv zeta. set (rest := PyStr.replace "万" "" budget_str).
  destruct (PyStr.contains "-" rest) eqn:Edash.
  - unfold PyStr.split. simpl PyStr.is_empty. simpl bind.
    pose proof (split_from_char "-" rest "" eq_refl) as Hpieces.
    destruct (PyStr.split_from "-" rest 0 "") as [|lo [|hi [|x l]]];
      try (intro H; inversion H; now split).
    apply Forall_cons_iff in Hpieces as [Hlo Hpieces].
    apply Forall_cons_iff in Hpieces as [Hhi _].
    destruct (PyStr.float (PyStr.strip lo)) as [qlo|] eqn:Elo; simpl; [|discriminate].
    destruct (PyStr.float (PyStr.strip hi)) as [qhi|] eqn:Ehi; simpl; [|discriminate].
    intro H. inversion H.
    apply float_nonneg in Elo; [|now apply strip_occurs].
    apply float_nonneg in Ehi; [|now apply strip_occurs].
    split; now apply mul_nonneg.
  - rewrite contains_char in Edash.
    destruct (PyStr.contains "以内" rest); [|intro H; inversion H; now split].
    destruct (PyStr.float _) as [q|] eqn:E; simpl; [|discriminate].
    intro H. inversion H. split; [exact I|].
    apply mul_nonneg. apply float_nonneg in E; [assumption|].
    apply strip_occurs, replace_occurs; [reflexivity|assumption].
Qed.

Lemma parse_commute_nonneg (commute_str : string) (cap : Z) :
  parse_commute commute_str = Ok (Some cap) -> (0 <= cap)%Z.
Proof.
  intro H. pose proof (parse_commute_spec commute_str) as Hs.
  destruct (commute_number commute_str) as [first|]; [|congruence].
  destruct (_ <? _)%nat; [congruence|].
  destruct Hs as (n & Hn & Hpos). congruence.
Qed.

(** X3.  Whatever the texts, a budget bound that is parsed from them is never a
    negative number nor the negative infinity (it is a number that is not
    negative, the positive infinity or NaN), and a commute cap that is
    parsed is not negative: the sides of a range hold no minus sign once the
    text is split on it, a budget cap is read only from a text without one,
    and the commute cap is a run of digits. *)
Theorem parsed_bounds_nonneg (budget_str commute_str : string) :
  match parse_budget budget_str with
  | Ok (budget_min, budget_max) => bound_nonneg budget_min /\ bound_nonneg budget_max
  | Raise _ => True
  end
  /\ match parse_commute commute_str with
     | Ok (Some cap) => (0 <= cap)%Z
     | _ => True
     end.
Proof.
  split.
  - destruct (parse_budget budget_str) as [[lo hi]|] eqn:E; [|exact I].
    now apply (parse_budget_bounds_nonneg budget_str).
  - destruct (parse_commute commute_str) as [[cap|]|] eqn:E; try exact I.
    now apply (parse_commute_nonneg commute_str).
Qed.

(** ** The range of the scores that are returned *)

Lemma int_div_ok_inv (a b : Z) (r : Q) :
  PyNum.int_div a b = Ok r -> b <> 0%Z /\ r = inject_Z a / inject_Z b.
Proof.
  unfold PyNum.int_div. destruct (b =? 0)%Z eqn:E; [discriminate|].
  destruct (PyNum.overflows _); [discriminate|].
  intro H. inversion H. split; [|reflexivity]. now apply Z.eqb_neq.
Qed.

Lemma int_to_float_ok_inv (n : Z) (r : Q) :
  PyNum.int_to_float n = Ok r -> r = inject_Z n.
Proof.
  unfold PyNum.int_to_float. destruct (PyNum.overflows _); [discriminate|].
  intro H. now inversion H.
Qed.

Lemma commute_score_unit_interval_when_returned (property_commute : Z)
    (cap : option Z) (s : Q) :
  (0 <= property_commute)%Z ->
  match cap with Some r => (0 <= r)%Z | None => True end ->
  calculate_commute_score property_commute cap = Ok s ->
  unit_interval s.
Proof.
  intros Hc Hcap. unfold calculate_commute_score.
  assert (Hc' : 0 <= inject_Z property_commute)
    by (change 0 with (inject_Z 0); now rewrite <- Zle_Qle).
  destruct cap as [r|].
  - destruct (property_commute <=? r)%Z eqn:E.
    { intro H. inversion H. apply unit_interval_one. }
    apply Z.leb_gt in E.
    destruct (PyNum.int_div _ _) as [q|] eqn:Ed; cbn [bind]; [|discriminate].
    apply int_div_ok_inv in Ed as [Hr ->]. intro H. inversion H.
    assert (Hr' : 0 < inject_Z r)
      by (change 0 with (inject_Z 0); rewrite <- Zlt_Qlt; lia).
    split; [apply max_lower|]. apply max_upper; [lra|].
    assert (0 <= inject_Z (property_commute - r) / inject_Z r).
    { apply Qle_shift_div_l; [assumption|].
      rewrite Qmult_0_l. change 0 with (inject_Z 0). rewrite <- Zle_Qle. lia. }
    lra.
  - destruct (PyNum.int_to_float _) as [m|] eqn:Em; cbn [bind]; [|discriminate].
    apply int_to_float_ok_inv in Em. subst m.
    rewrite div_nonzero by (intro E; discriminate E). cbn [bind].
    intro H. inversion H. split; [apply max_lower|]. apply max_upper; [lra|].
    assert (0 <= inject_Z property_commute / 60)
      by (apply Qle_shift_div_l; lra).
    lra.
Qed.

Lemma default_agent_weights :
  0 <= budget_weight Examples.agent /\ 0 <= area_weight Examples.agent
  /\ 0 <= school_weight Examples.agent /\ 0 <= commute_weight Examples.agent
  /\ weight_sum Examples.agent == 1.
Proof. repeat split; vm_compute; discriminate || reflexivity. Qed.

(** X1.  Whenever [calculate_matching_score] returns, for a listing whose
    commute time is not negative and a budget text whose lower bound is not
    read as NaN, the four criterion scores lie in [[0, 1]], whatever the
    agent, the price and the requirement texts; and so does the total under
    the weights of the default constructor. *)
Theorem matching_score_unit_interval_when_returned
    (self : MatchingAgent.t) (p : Listing.t) (reqs : Requirements.t)
    (ms : MatchingScore) (budget_min budget_max : option PyFloat.t) :
  parse_budget (get_str (Requirements.budget reqs)) = Ok (budget_min, budget_max) ->
  is_nan budget_min = false ->
  match Listing.commute_time p with Some c => (0 <= c)%Z | None => True end ->
  calculate_matching_score self p reqs = Ok ms ->
  unit_interval (budget_score ms) /\ unit_interval (area_score ms)
  /\ unit_interval (school_score ms) /\ unit_interval (commute_score ms)
  /\ (default_agent = Ok self -> unit_interval (total_score ms)).
Proof.
  intros Epb Hnan Hcommute H.
  unfold calculate_matching_score in H. rewrite Epb in H. cbn [bind] in H.
  destruct (parse_budget_bounds_nonneg _ _ _ Epb) as [Hmin Hmax].
  destruct (parse_commute _) as [cap|] eqn:Epc; simpl in H; [|discriminate].
  assert (Hcap : match cap with Some r => (0 <= r)%Z | None => True end).
  { destruct cap as [r|]; [|exact I]. now apply parse_commute_nonneg in Epc. }
  destruct (Listing.price p) as [price|]; simpl in H; [|discriminate].
  destruct (calculate_budget_score price budget_min budget_max) as [bs|] eqn:Eb;
    simpl in H; [|discriminate].
  apply budget_score_unit_interval_when_returned in Eb; try assumption.
  destruct (Listing.area p) as [area|]; simpl in H; [|discriminate].
  destruct (Listing.school_district p) as [school|]; simpl in H; [|discriminate].
  destruct (Listing.commute_time p) as [commute|]; simpl in H; [|discriminate].
  destruct (calculate_commute_score commute cap) as [cs|] eqn:Ec;
    simpl in H; [|discriminate].
  apply commute_score_unit_interval_when_returned in Ec; try assumption.
  destruct (Listing.property_id p) as [pid|]; simpl in H; [|discriminate].
  inversion H. cbn [budget_score area_score school_score commute_score total_score].
  pose proof (area_score_unit_interval area (get_str (Requirements.area reqs))) as Har.
  pose proof (school_score_unit_interval school
                (get_str (Requirements.school_district reqs))) as Hsc.
  split; [exact Eb|]. split; [exact Har|]. split; [exact Hsc|].
  split; [exact Ec|]. intro Hd.
  assert (Hself : self = Examples.agent)
    by (pose proof default_agent_ok; congruence).
  subst self.
  destruct default_agent_weights as (Hwb & Hwa & Hws & Hwc & Hsum).
  now apply weighted_total_unit_interval.
Qed.

Lemma matching_score_unit_interval_when_returned_witness :
  unit_interval (budget_score Examples.score_P001)
  /\ unit_interval (area_score Examples.score_P001)
  /\ unit_interval (school_score Examples.score_P001)
  /\ unit_interval (commute_score Examples.score_P001)
  /\ (default_agent = Ok Examples.agent
      -> unit_interval (total_score Examples.score_P001)).
Proof.
  apply (matching_score_unit_interval_when_returned
           Examples.agent Examples.P001 Examples.requirements Examples.score_P001
           (Some (PyFloat.Finite (300 * 10000))) (Some (PyFloat.Finite (500 * 10000)))).
  - vm_compute. reflexivity.
  - reflexivity.
  - simpl. lia.
  - vm_compute. reflexivity.
Defined.

(** ** More on the criterion scores *)

Lemma Qlt_bool_compat (a a' b b' : Q) :
  a == a' -> b == b' -> PyNum.Qlt_bool a b = PyNum.Qlt_bool a' b'.
Proof.
  intros Ha Hb.
  destruct (PyNum.Qlt_bool a b) eqn:E, (PyNum.Qlt_bool a' b') eqn:E';
    rewrite ?Qlt_bool_true, ?Qlt_bool_false in *; try reflexivity; lra.
Qed.

Lemma max_compat (a b b' : Q) : b == b' -> PyNum.max a b == PyNum.max a b'.
Proof.
  intro H. unfold PyNum.max.
  rewrite (Qlt_bool_compat a a b b' (Qeq_refl a) H).
  destruct (PyNum.Qlt_bool a b'); [assumption|reflexivity].
Qed.

Lemma max_zero_iff (x : Q) : PyNum.max 0 x == 0 <-> x <= 0.
Proof.
  unfold PyNum.max. destruct (PyNum.Qlt_bool 0 x) eqn:E;
    rewrite ?Qlt_bool_true, ?Qlt_bool_false in E; split; intro H; lra.
Qed.

Lemma abs_sym (x y : Q) : PyNum.abs (x - y) == PyNum.abs (y - x).
Proof.
  unfold PyNum.abs.
  destruct (PyNum.Qlt_bool (x - y) 0) eqn:E1, (PyNum.Qlt_bool (y - x) 0) eqn:E2;
    rewrite ?Qlt_bool_true, ?Qlt_bool_false in *; lra.
Qed.

Lemma abs_upper (x b : Q) : - b <= x -> x <= b -> PyNum.abs x <= b.
Proof.
  intros H1 H2. unfold PyNum.abs.
  destruct (PyNum.Qlt_bool x 0); lra.
Qed.

Lemma quotient_ge_one (a b : Q) : 0 < b -> (1 <= a / b <-> b <= a).
Proof.
  intro Hb. split; intro H.
  - assert (E : a == a / b * b) by (field; lra).
    apply (Qmult_le_compat_r _ _ b) in H; [|lra]. lra.
  - apply Qle_shift_div_l; lra.
Qed.

(** The quality of a school: its entry of the table, 0.6 without one. *)
Lemma school_quality_range (school : string) :
  0.6 <= default 0.6 (school_quality_map !! school) <= 0.95.
Proof.
  destruct (school_quality_map !! school) as [q|] eqn:E; simpl; [|lra].
  unfold school_quality_map in E.
  apply elem_of_list_to_map_2 in E.
  repeat (apply elem_of_cons in E as [E|E]; [inversion E; subst; lra|]).
  inversion E.
Qed.

(** X6.  When both names are given, the school score does not depend on which of
    the two is the listing's and which is the requirement's. *)
Theorem school_score_symmetric (school1 school2 : string) :
  school1 <> "" -> school2 <> "" ->
  calculate_school_score school1 school2 == calculate_school_score school2 school1.
Proof.
  intros H1 H2. unfold calculate_school_score.
  destruct school1 as [|c1 r1]; [contradiction|].
  destruct school2 as [|c2 r2]; [contradiction|].
  cbn [PyStr.is_empty]. rewrite (orb_comm (PyStr.contains (String c2 r2) _)).
  destruct (_ || _); [reflexivity|]. cbv zeta.
  apply max_compat. rewrite abs_sym. reflexivity.
Qed.

Lemma school_score_symmetric_witness :
  calculate_school_score "丰台第五小学" "北京第二实验小学"
  == calculate_school_score "北京第二实验小学" "丰台第五小学".
Proof.
  apply (school_score_symmetric "丰台第五小学" "北京第二实验小学"); discriminate.
Defined.

(** X7.  Against a requirement that is given, the school score is never below
    0.3: the qualities of the table and the default lie between 0.6 and 0.95,
    so the clamp at 0 is never reached. *)
Theorem school_score_at_least_three_tenths (property_school required_school : string) :
  required_school <> "" ->
  0.3 <= calculate_school_score property_school required_school.
Proof.
  intro H. unfold calculate_school_score.
  destruct required_school as [|c r]; [contradiction|]. cbn [PyStr.is_empty].
  destruct (_ || _); [lra|]. cbv zeta.
  pose proof (school_quality_range property_school) as [Hp1 Hp2].
  pose proof (school_quality_range (String c r)) as [Hr1 Hr2].
  set (qp := default 0.6 (school_quality_map !! property_school)) in *.
  set (qr := default 0.6 (school_quality_map !! String c r)) in *.
  assert (Habs : PyNum.abs (qp - qr) <= 0.35) by (apply abs_upper; lra).
  eapply Qle_trans; [|apply max_mono with (b := 0.3)]; [|lra].
  unfold PyNum.max. simpl. lra.
Qed.

Lemma school_score_at_least_three_tenths_witness :
  0.3 <= calculate_school_score "丰台第五小学" "北京第二实验小学".
Proof.
  apply (school_score_at_least_three_tenths "丰台第五小学" "北京第二实验小学").
  discriminate.
Defined.

(** X8.  Two schools of the same quality score 1.0 against each other; so do any
    two schools that the table does not list, whatever their names. *)
Theorem school_score_unlisted_schools (property_school required_school : string) :
  required_school <> "" ->
  school_quality_map !! property_school = None ->
  school_quality_map !! required_school = None ->
  calculate_school_score property_school required_school == 1.
Proof.
  intros H Hp Hr. unfold calculate_school_score.
  destruct required_school as [|c r]; [contradiction|]. cbn [PyStr.is_empty].
  destruct (_ || _); [reflexivity|]. cbv zeta. rewrite Hp, Hr.
  vm_compute. reflexivity.
Qed.

Lemma school_score_unlisted_schools_witness :
  calculate_school_score "史家小学" "人大附小" == 1.
Proof.
  apply (school_score_unlisted_schools "史家小学" "人大附小").
  - discriminate.
  - vm_compute. reflexivity.
  - vm_compute. reflexivity.
Defined.



(** X5.  For commute times and a cap that a double holds exactly (up to
    [2^53] in magnitude), the commute score decays with the commute time and
    vanishes: without a cap it is 0 exactly from 60 minutes on, with a
    positive cap exactly from twice the cap on. *)
Theorem commute_score_decay (c1 c2 : Z) (cap : option Z) :
  match cap with Some r => (0 < r)%Z /\ exact_int r | None => True end ->
  exact_int c1 -> exact_int c2 ->
  (c1 <= c2)%Z ->
  exists s1 s2,
    calculate_commute_score c1 cap = Ok s1
    /\ calculate_commute_score c2 cap = Ok s2
    /\ s2 <= s1
    /\ (s1 == 0 <-> (match cap with Some r => 2 * r | None => 60 end <= c1)%Z).
Proof.
  intros Hcap He1 He2 H12.
  assert (Hbig : (2 ^ 53 < PyNum.overflow_bound)%Z) by reflexivity.
  unfold exact_int in He1, He2.
  assert (Hq : inject_Z c1 <= inject_Z c2) by now rewrite <- Zle_Qle.
  destruct cap as [r|].
  - destruct Hcap as [Hcap _].
    assert (Hr : 0 < inject_Z r)
      by (change 0 with (inject_Z 0); now rewrite <- Zlt_Qlt).
    assert (Hform : forall c, (Z.abs c <= 2 ^ 53)%Z -> (r < c)%Z ->
      calculate_commute_score c (Some r)
      = Ok (PyNum.max 0 (1 - inject_Z (c - r) / inject_Z r))
      /\ 0 < inject_Z (c - r) / inject_Z r).
    { intros c Hc' Hc. split; [apply commute_score_above; lia|].
      apply Qlt_shift_div_l; [assumption|]. rewrite Qmult_0_l.
      change 0 with (inject_Z 0). rewrite <- Zlt_Qlt. lia. }
    destruct (Z.le_gt_cases c1 r) as [H1|H1].
    + rewrite (commute_score_within c1 r H1).
      destruct (Z.le_gt_cases c2 r) as [H2|H2].
      * rewrite (commute_score_within c2 r H2).
        do 2 eexists; repeat split; try reflexivity; try lra;
          intro; try lia; exfalso; lra.
      * destruct (Hform c2 He2 H2) as [-> Hpos].
        do 2 eexists; repeat split; try reflexivity.
        -- apply max_upper; lra.
        -- intro; exfalso; lra.
        -- intro; lia.
    + destruct (Hform c1 He1 H1) as [-> Hpos1].
      destruct (Hform c2 He2 ltac:(lia)) as [-> Hpos2].
      do 2 eexists; repeat split; try reflexivity.
      * apply max_mono.
        assert (inject_Z (c1 - r) / inject_Z r <= inject_Z (c2 - r) / inject_Z r).
        { apply quotient_mono; [assumption|]. rewrite <- Zle_Qle. lia. }
        lra.
      * intro Hz. apply max_zero_iff in Hz.
        assert (Hge : 1 <= inject_Z (c1 - r) / inject_Z r) by lra.
        apply (proj1 (quotient_ge_one _ _ Hr)) in Hge.
        rewrite <- Zle_Qle in Hge. lia.
      * intro Hge. apply max_zero_iff.
        assert (1 <= inject_Z (c1 - r) / inject_Z r).
        { apply (proj2 (quotient_ge_one _ _ Hr)). rewrite <- Zle_Qle. lia. }
        lra.
  - rewrite !commute_score_uncapped by lia.
    do 2 eexists; repeat split; try reflexivity.
    + apply max_mono.
      assert (inject_Z c1 / 60 <= inject_Z c2 / 60) by (apply quotient_mono; lra).
      lra.
    + intro Hz. apply max_zero_iff in Hz.
      assert (Hge : 1 <= inject_Z c1 / 60) by lra.
      apply (proj1 (quotient_ge_one _ 60 eq_refl)) in Hge.
      change 60 with (inject_Z 60) in Hge. rewrite <- Zle_Qle in Hge. lia.
    + intro Hge. apply max_zero_iff.
      assert (1 <= inject_Z c1 / 60).
      { apply (proj2 (quotient_ge_one _ 60 eq_refl)).
        change 60 with (inject_Z 60). rewrite <- Zle_Qle. lia. }
      lra.
Qed.

Lemma commute_score_decay_witness :
  exists s1 s2,
    calculate_commute_score 45 (Some 30%Z) = Ok s1
    /\ calculate_commute_score 60 (Some 30%Z) = Ok s2
    /\ s2 <= s1
    /\ (s1 == 0 <-> (2 * 30 <= 45)%Z).
Proof.
  apply (commute_score_decay 45 60 (Some 30%Z)); unfold exact_int; simpl; lia.
Defined.

(** ** The recommendation reason *)

(** X9.  The reason is the fallback phrase exactly when none of the four scores
    reaches 0.6. *)
Theorem reason_fallback_iff (b a s c : Q) :
  reason_of b a s c = "综合条件一般"
  <-> (b < 0.6 /\ a < 0.6 /\ s < 0.6 /\ c < 0.6).
Proof.
  unfold reason_of, reason_part.
  destruct (Qle_bool 0.8 b) eqn:Eb1; [|destruct (Qle_bool 0.6 b) eqn:Eb2];
  (destruct (Qle_bool 0.8 a) eqn:Ea1; [|destruct (Qle_bool 0.6 a) eqn:Ea2]);
  (destruct (Qle_bool 0.8 s) eqn:Es1; [|destruct (Qle_bool 0.6 s) eqn:Es2]);
  (destruct (Qle_bool 0.8 c) eqn:Ec1; [|destruct (Qle_bool 0.6 c) eqn:Ec2]);
  rewrite ?Qle_bool_iff, ?Qle_bool_false in *;
  (split; [intro H; try (vm_compute in H; discriminate H)
          |intros (Hb & Ha & Hs & Hc); try lra]);
  try (repeat split; assumption); reflexivity.
Qed.

(** ** The summary *)

Lemma mapM_getitem_ok {A B : Type} (f : A -> option B) (l : list A) :
  Forall (fun x => absent (f x) = false) l ->
  exists ys, mapM (fun x => getitem (f x)) l = Ok ys
             /\ map f l = map Some ys.
Proof.
  induction 1 as [|x l Hx Hl IH]; simpl.
  - exists []. now split.
  - destruct IH as [ys [E Hmap]]. destruct (f x) as [y|]; [|discriminate Hx].
    simpl. rewrite E. simpl. exists (y :: ys). split; [reflexivity|].
    simpl. now rewrite Hmap.
Qed.

Lemma min_from_spec (x : Q) (xs : list Q) :
  In (min_from x xs) (x :: xs)
  /\ Forall (fun y => min_from x xs <= y) (x :: xs).
Proof.
  unfold min_from. revert x. induction xs as [|y ys IH]; intro x; simpl.
  - split; [now left|]. constructor; [lra|constructor].
  - destruct (PyNum.Qlt_bool y x) eqn:E;
      rewrite ?Qlt_bool_true, ?Qlt_bool_false in E;
      destruct (IH (if PyNum.Qlt_bool y x then y else x)) as [Hin Hall];
      rewrite ?(proj2 (Qlt_bool_true y x) E), ?(proj2 (Qlt_bool_false y x) E) in *.
    + split; [destruct Hin as [<-|Hin]; auto|].
      apply Forall_cons_iff in Hall as [Hy Hall].
      constructor; [lra|]. now constructor.
    + split; [destruct Hin as [<-|Hin]; auto|].
      apply Forall_cons_iff in Hall as [Hx Hall].
      constructor; [assumption|]. constructor; [lra|assumption].
Qed.

Lemma max_from_spec (x : Q) (xs : list Q) :
  In (max_from x xs) (x :: xs)
  /\ Forall (fun y => y <= max_from x xs) (x :: xs).
Proof.
  unfold max_from. revert x. induction xs as [|y ys IH]; intro x; simpl.
  - split; [now left|]. constructor; [lra|constructor].
  - destruct (PyNum.Qlt_bool x y) eqn:E;
      rewrite ?Qlt_bool_true, ?Qlt_bool_false in E;
      destruct (IH (if PyNum.Qlt_bool x y then y else x)) as [Hin Hall];
      rewrite ?(proj2 (Qlt_bool_true x y) E), ?(proj2 (Qlt_bool_false x y) E) in *.
    + split; [destruct Hin as [<-|Hin]; auto|].
      apply Forall_cons_iff in Hall as [Hy Hall].
      constructor; [lra|]. now constructor.
    + split; [destruct Hin as [<-|Hin]; auto|].
      apply Forall_cons_iff in Hall as [Hx Hall].
      constructor; [assumption|]. constructor; [lra|assumption].
Qed.

Lemma mapM_forall2 {A B : Type} (f : A -> result B) (R : A -> B -> Prop)
    (l : list A) :
  Forall (fun x => exists y, f x = Ok y /\ R x y) l ->
  exists ys, mapM f l = Ok ys /\ Forall2 R l ys.
Proof.
  induction 1 as [|x l [y [E Hy]] Hl [ys [Es Hys]]]; simpl.
  - exists []. split; [reflexivity|constructor].
  - rewrite E, Es. simpl. exists (y :: ys). split; [reflexivity|].
    now constructor.
Qed.

Lemma mapM_raise_inv {A B : Type} (f : A -> result B) (l : list A) (e : exn) :
  mapM f l = Raise e -> exists x, In x l /\ f x = Raise e.
Proof.
  induction l as [|x l IH]; simpl; [discriminate|].
  destruct (f x) as [y|e'] eqn:E; simpl.
  - destruct (mapM f l) as [ys|e'']; simpl; [discriminate|].
    intro H. inversion H. subst e''.
    destruct (IH eq_refl) as [x' [Hin Hx']]. exists x'. auto.
  - intro H. inversion H. subst e'. exists x. auto.
Qed.

Lemma getitem_raise {A : Type} (field : option A) (e : exn) :
  getitem field = Raise e -> e = KeyError.
Proof. destruct field; simpl; congruence. Qed.

Lemma summary_entry_complete (round2 : Q -> Q) (rec : PropertyRecommendation) :
  complete (property_info rec) = true ->
  exists entry, summary_entry round2 rec = Ok entry /\ entry_of round2 rec entry.
Proof.
  unfold complete, summary_entry, entry_of.
  destruct (property_info rec) as [[pid|] [addr|] [price|] [area|] [school|] [commute|]];
    simpl; try discriminate.
  intros _. eexists. split; [reflexivity|]. simpl. repeat split.
Qed.

Lemma summary_entry_incomplete (round2 : Q -> Q) (rec : PropertyRecommendation) :
  complete (property_info rec) = false ->
  summary_entry round2 rec = Raise KeyError.
Proof.
  unfold complete, summary_entry.
  destruct (property_info rec) as [[pid|] [addr|] [price|] [area|] [school|] [commute|]];
    simpl; try reflexivity; discriminate.
Qed.

Lemma summary_entry_raise (round2 : Q -> Q) (rec : PropertyRecommendation)
    (e : exn) :
  summary_entry round2 rec = Raise e -> e = KeyError.
Proof.
  unfold summary_entry.
  destruct (property_info rec) as [[pid|] [addr|] [price|] [area|] [school|] [commute|]];
    simpl; congruence.
Qed.

Lemma count_nonzero (n : nat) : ~ inject_Z (Z.of_nat (S n)) == 0.
Proof. intro E. unfold Qeq in E. simpl in E. lia. Qed.

(** X13.  The summary of recommendations whose listings carry the six keys it
    reads, under any rounding: it is a report of as many entries as there
    are recommendations, in their order, each with the rank, the six keys of
    the listing, the rounded total and criterion scores and the reason of
    its recommendation; the top recommendation carries the identifier, the
    address, the price, the rounded total and the reason of the first
    recommendation; and the price range holds the price of every
    recommendation, with both ends among those prices. *)
Theorem summary_of_complete_recommendations (round2 : Q -> Q)
    (first : PropertyRecommendation) (rest : list PropertyRecommendation) :
  Forall (fun rec => complete (property_info rec) = true) (first :: rest) ->
  exists avg price_min price_max top entries,
    generate_recommendation_summary round2 (first :: rest)
    = Ok (Report (Z.of_nat (length (first :: rest))) avg price_min price_max
            top entries)
    /\ Forall2 (entry_of round2) (first :: rest) entries
    /\ top_of round2 first top
    /\ Forall (fun entry => price_min <= se_price entry <= price_max) entries
    /\ In price_min (map se_price entries)
    /\ In price_max (map se_price entries).
Proof.
  intro Hall. unfold generate_recommendation_summary.
  rewrite div_nonzero by apply count_nonzero. cbn [bind].
  destruct (mapM_forall2 (summary_entry round2) (entry_of round2) (first :: rest))
    as [entries [Ee He]].
  { eapply List.Forall_impl; [|exact Hall]. apply summary_entry_complete. }
  assert (Hprices :
    mapM (fun rec => getitem (Listing.price (property_info rec))) (first :: rest)
    = Ok (map se_price entries)).
  { clear Ee Hall. induction He as [|rec entry recs es Hre _ IH]; [reflexivity|].
    cbn [mapM map]. destruct Hre as (_ & _ & _ & Hp & _). rewrite Hp, IH.
    reflexivity. }
  rewrite Hprices. cbn [bind].
  inversion He as [|rec0 entry0 recs0 entries0 H0 Hrest]; subst.
  destruct H0 as (Hrank & Hid & Haddr & Hprice & Hrest0).
  rewrite Hid, Haddr, Hprice. cbn [getitem bind]. rewrite Ee. cbn [bind map].
  do 5 eexists. split; [reflexivity|].
  split; [assumption|].
  split; [unfold top_of; cbv zeta; rewrite Hid, Haddr, Hprice; repeat split|].
  destruct (min_from_spec (se_price entry0) (map se_price entries0)) as [Hmin_in Hmin].
  destruct (max_from_spec (se_price entry0) (map se_price entries0)) as [Hmax_in Hmax].
  split; [|split; assumption].
  change (se_price entry0 :: map se_price entries0)
    with (map se_price (entry0 :: entries0)) in Hmin, Hmax.
  rewrite List.Forall_map in Hmin, Hmax.
  apply List.Forall_forall. intros entry Hin. split.
  - now apply (proj1 (List.Forall_forall _ _) Hmin).
  - now apply (proj1 (List.Forall_forall _ _) Hmax).
Qed.

Lemma summary_of_complete_recommendations_witness :
  exists avg price_min price_max top entries,
    generate_recommendation_summary Examples.round_half_even
      [mkPropertyRecommendation Examples.P001 Examples.score_P001 1]
    = Ok (Report 1 avg price_min price_max top entries)
    /\ Forall2 (entry_of Examples.round_half_even)
         [mkPropertyRecommendation Examples.P001 Examples.score_P001 1] entries
    /\ top_of Examples.round_half_even
         (mkPropertyRecommendation Examples.P001 Examples.score_P001 1) top
    /\ Forall (fun entry => price_min <= se_price entry <= price_max) entries
    /\ In price_min (map se_price entries)
    /\ In price_max (map se_price entries).
Proof.
  apply (summary_of_complete_recommendations Examples.round_half_even
           (mkPropertyRecommendation Examples.P001 Examples.score_P001 1) []).
  repeat constructor.
Defined.

(** X14.  The summary raises [KeyError], and nothing else, as soon as one
    recommendation lacks one of the six keys, the address among them, which
    [recommend_properties] does not ask for. *)
Theorem summary_raises_on_incomplete_listing (round2 : Q -> Q)
    (recommendations : list PropertyRecommendation) (rec : PropertyRecommendation) :
  In rec recommendations -> complete (property_info rec) = false ->
  generate_recommendation_summary round2 recommendations = Raise KeyError.
Proof.
  intros Hin Hinc. unfold generate_recommendation_summary.
  destruct recommendations as [|first rest]; [contradiction|].
  rewrite div_nonzero by apply count_nonzero. cbn [bind].
  destruct (mapM _ (first :: rest)) as [prices|e] eqn:Ep; cbn [bind].
  2:{ apply mapM_raise_inv in Ep as [x [_ Hx]].
      apply getitem_raise in Hx. now subst e. }
  destruct (Listing.property_id (property_info first)); [|reflexivity].
  destruct (Listing.address (property_info first)); [|reflexivity].
  destruct (Listing.price (property_info first)); [|reflexivity].
  cbn [getitem bind].
  destruct (mapM_raises (summary_entry round2) (first :: rest) rec Hin) as [e Ee].
  { exists KeyError. now apply summary_entry_incomplete. }
  rewrite Ee. cbn [bind].
  apply mapM_raise_inv in Ee as [x [_ Hx]].
  apply summary_entry_raise in Hx. now subst e.
Qed.

Lemma summary_raises_on_incomplete_listing_witness :
  generate_recommendation_summary Examples.round_half_even
    (recommend_properties Examples.agent [Examples.P001_no_address]
       Examples.requirements 5)
  = Raise KeyError.
Proof.
  apply (summary_raises_on_incomplete_listing Examples.round_half_even
           (recommend_properties Examples.agent [Examples.P001_no_address]
              Examples.requirements 5)
           (mkPropertyRecommendation Examples.P001_no_address
              (match calculate_matching_score Examples.agent
                       Examples.P001_no_address Examples.requirements with
               | Ok ms => ms
               | Raise _ => mkMatchingScore "" 0 0 0 0 0 ""
               end) 1)).
  - vm_compute. left. reflexivity.
  - reflexivity.
Defined.

(** ** More on the ranking *)

Lemma descending_app_le {A : Type} (key : A -> Q) (l1 l2 : list A) :
  descending key (l1 ++ l2)%list ->
  Forall (fun x => Forall (fun y => key x <= key y) l1) l2.
Proof.
  unfold descending. induction l1 as [|y l1 IH]; intro H.
  - apply List.Forall_forall. intros x _. constructor.
  - simpl in H. apply StronglySorted_inv in H as [Hs Hy].
    specialize (IH Hs).
    apply List.Forall_forall. intros x Hx. constructor.
    + apply (proj1 (List.Forall_forall _ _) Hy). apply in_or_app. now right.
    + now apply (proj1 (List.Forall_forall _ _) IH).
Qed.

Lemma slice_to_split {A : Type} (k : Z) (l : list A) :
  exists rest, l = (PyList.slice_to k l ++ rest)%list.
Proof.
  unfold PyList.slice_to. destruct (k <? 0)%Z;
    eexists; symmetry; apply firstn_skipn.
Qed.

(** X10.  The recommendations are the best of the candidates, whatever [top_k]:
    the scored listings are the recommended ones and a rest, and no listing
    of the rest has a higher total score than a recommended one. *)
Theorem recommendations_are_the_best (self : MatchingAgent.t)
    (properties : list Listing.t) (reqs : Requirements.t) (top_k : Z)
    (scored : list (Listing.t * MatchingScore)) :
  scored_properties self properties reqs = Ok scored ->
  exists rest,
    Permutation scored
      (map unranked (recommend_properties self properties reqs top_k) ++ rest)%list
    /\ Forall (fun left_out =>
                 Forall (fun rec => sort_key left_out
                                    <= total_score (matching_score rec))
                        (recommend_properties self properties reqs top_k))
              rest.
Proof.
  intro E. unfold recommend_properties. rewrite E.
  destruct (slice_to_split top_k (PyList.sort_desc sort_key scored)) as [rest Hrest].
  exists rest. rewrite recommendations_unranked. split.
  - rewrite <- Hrest. symmetry. apply sort_desc_perm.
  - pose proof (sort_desc_descending sort_key scored) as Hd. rewrite Hrest in Hd.
    apply descending_app_le in Hd.
    eapply List.Forall_impl; [|exact Hd]. intros x Hx.
    rewrite <- recommendations_unranked in Hx.
    rewrite List.Forall_map in Hx.
    eapply List.Forall_impl; [|exact Hx]. intros rec Hr. exact Hr.
Qed.

Lemma recommendations_are_the_best_witness :
  exists rest,
    Permutation
      (match scored_properties Examples.agent
               [Examples.P005; Examples.P001; Examples.P006]
               Examples.requirements with
       | Ok scored => scored
       | Raise _ => []
       end)
      (map unranked
         (recommend_properties Examples.agent
            [Examples.P005; Examples.P001; Examples.P006] Examples.requirements 2)
       ++ rest)%list
    /\ Forall (fun left_out =>
                 Forall (fun rec => sort_key left_out
                                    <= total_score (matching_score rec))
                        (recommend_properties Examples.agent
                           [Examples.P005; Examples.P001; Examples.P006]
                           Examples.requirements 2))
              rest.
Proof.
  apply (recommendations_are_the_best Examples.agent
           [Examples.P005; Examples.P001; Examples.P006] Examples.requirements 2).
  vm_compute. reflexivity.
Defined.

(** X11.  Every recommendation is one of the input listings, with the score that
    [calculate_matching_score] gives to that listing and under the
    identifier of that listing. *)
Theorem recommendations_are_scored_inputs (self : MatchingAgent.t)
    (properties : list Listing.t) (reqs : Requirements.t) (top_k : Z) :
  Forall (fun rec =>
            In (property_info rec) properties
            /\ calculate_matching_score self (property_info rec) reqs
               = Ok (matching_score rec)
            /\ Listing.property_id (property_info rec)
               = Some (ms_property_id (matching_score rec)))
         (recommend_properties self properties reqs top_k).
Proof.
  unfold recommend_properties.
  destruct (scored_properties self properties reqs) as [scored|e] eqn:E;
    [|constructor].
  destruct (scored_properties_spec _ _ _ _ E) as [Hfst Hall].
  assert (Hsorted : Forall (fun x =>
            In (fst x) properties
            /\ calculate_matching_score self (fst x) reqs = Ok (snd x)
            /\ Listing.property_id (fst x) = Some (ms_property_id (snd x)))
          (PyList.slice_to top_k (PyList.sort_desc sort_key scored))).
  { destruct (slice_to_split top_k (PyList.sort_desc sort_key scored)) as [rest Hrest].
    assert (Hscored : Forall (fun x =>
              In (fst x) properties
              /\ calculate_matching_score self (fst x) reqs = Ok (snd x)
              /\ Listing.property_id (fst x) = Some (ms_property_id (snd x)))
            scored).
    { apply List.Forall_forall. intros x Hx.
      pose proof (proj1 (List.Forall_forall _ _) Hall x Hx) as Hs.
      split; [rewrite <- Hfst; now apply in_map|]. split; [assumption|].
      unfold calculate_matching_score in Hs.
      destruct (parse_budget _) as [[bmin bmax]|]; simpl in Hs; [|discriminate].
      destruct (parse_commute _); simpl in Hs; [|discriminate].
      destruct (Listing.price (fst x)); simpl in Hs; [|discriminate].
      destruct (calculate_budget_score _ _ _); simpl in Hs; [|discriminate].
      destruct (Listing.area (fst x)); simpl in Hs; [|discriminate].
      destruct (Listing.school_district (fst x)); simpl in Hs; [|discriminate].
      destruct (Listing.commute_time (fst x)); simpl in Hs; [|discriminate].
      destruct (calculate_commute_score _ _); simpl in Hs; [|discriminate].
      destruct (Listing.property_id (fst x)); simpl in Hs; [|discriminate].
      inversion Hs. reflexivity. }
    apply (Permutation_Forall (Permutation_sym (sort_desc_perm sort_key scored)))
      in Hscored.
    rewrite Hrest in Hscored. now apply Forall_app in Hscored as [H _]. }
  rewrite <- recommendations_unranked in Hsorted.
  rewrite List.Forall_map in Hsorted. exact Hsorted.
Qed.

Lemma recommend_properties_top_k_nonneg_witness :
  map unranked
    (recommend_properties Examples.agent [Examples.P001; Examples.P005]
       Examples.requirements 5)
  = firstn (Z.to_nat 5)
      (PyList.sort_desc sort_key
         (match scored_properties Examples.agent [Examples.P001; Examples.P005]
                  Examples.requirements with
          | Ok scored => scored
          | Raise _ => []
          end))
  /\ length (recommend_properties Examples.agent [Examples.P001; Examples.P005]
               Examples.requirements 5)
     = Nat.min (Z.to_nat 5) (length [Examples.P001; Examples.P005])
  /\ ((Z.of_nat (length [Examples.P001; Examples.P005]) <= 5)%Z ->
      Permutation
        (map unranked
           (recommend_properties Examples.agent [Examples.P001; Examples.P005]
              Examples.requirements 5))
        (match scored_properties Examples.agent [Examples.P001; Examples.P005]
                 Examples.requirements with
         | Ok scored => scored
         | Raise _ => []
         end)).
Proof.
  apply (recommend_properties_top_k_nonneg Examples.agent
           [Examples.P001; Examples.P005] Examples.requirements 5).
  - vm_compute. reflexivity.
  - lia.
Defined.

(** ** The search of the property agent *)

Lemma search_parse_budget (budget_str : string) :
  PropertyAgent.parse_budget budget_str = parse_budget budget_str.
Proof.
  unfold PropertyAgent.parse_budget, parse_budget.
  destruct (PyStr.is_empty budget_str); [reflexivity|]. cbn [negb andb].
  destruct (PyStr.contains "万" budget_str); reflexivity.
Qed.

Lemma search_parse_commute (commute_str : string) :
  PropertyAgent.parse_commute commute_str = parse_commute commute_str.
Proof. reflexivity. Qed.

(** X17.  The two places that parse the requirement texts, in the property agent
    and in the matching agent, read every text alike: the conditions of the
    search are the bounds and the cap of the matching, with the area and the
    school as they are given. *)
Theorem parsers_agree (reqs : Requirements.t) :
  PropertyAgent.conditions_of reqs
  = (let! bounds := parse_budget (get_str (Requirements.budget reqs)) in
     let! cap := parse_commute (get_str (Requirements.commute reqs)) in
     Ok (PropertySearchTool.mkConditions (fst bounds) (snd bounds)
           (Some (get_str (Requirements.area reqs)))
           (Some (get_str (Requirements.school_district reqs))) cap)).
Proof.
  unfold PropertyAgent.conditions_of.
  rewrite search_parse_budget, search_parse_commute.
  destruct (parse_budget _) as [[lo hi]|]; reflexivity.
Qed.

Lemma keeps_searchable (c : PropertySearchTool.Conditions) (p : Listing.t) :
  searchable p = true -> PropertySearchTool.keeps c p = Ok (meets c p).
Proof.
  unfold searchable, PropertySearchTool.keeps, meets.
  destruct p as [pid addr [price|] [area|] [school|] [commute|]];
    cbn [Listing.price Listing.area Listing.school_district Listing.commute_time
         absent negb andb]; try discriminate.
  intros _. destruct c as [bmin bmax a sd m].
  cbn [PropertySearchTool.budget_min PropertySearchTool.budget_max
       PropertySearchTool.area PropertySearchTool.school_district
       PropertySearchTool.max_commute_time].
  unfold PropertySearchTool.skip_num, PropertySearchTool.skip_str,
         PropertySearchTool.skip_int.
  destruct bmin as [bmin|], bmax as [bmax|], a as [a|], sd as [sd|], m as [m|];
    cbn [getitem bind];
    repeat match goal with
    | |- context [PyFloat.is_zero ?b] =>
        destruct (PyFloat.is_zero b) eqn:?; cbn [getitem bind orb andb negb]
    | |- context [PyFloat.lt ?x ?y] =>
        destruct (PyFloat.lt x y) eqn:?; cbn [getitem bind orb andb negb]
    | |- context [PyStr.is_empty ?x] =>
        destruct (PyStr.is_empty x) eqn:?; cbn [getitem bind orb andb negb]
    | |- context [PyStr.contains ?x ?y] =>
        destruct (PyStr.contains x y) eqn:?; cbn [getitem bind orb andb negb]
    | |- context [(?x =? 0)%Z] =>
        destruct (x =? 0)%Z eqn:?; cbn [getitem bind orb andb negb]
    | |- context [(?x <? ?y)%Z] =>
        rewrite (Z.ltb_antisym y x); destruct (y <=? x)%Z eqn:?;
        cbn [getitem bind orb andb negb]
    end; reflexivity.
Qed.

Lemma filtered_properties_searchable (inventory : list Listing.t)
    (c : PropertySearchTool.Conditions) :
  Forall (fun p => searchable p = true) inventory ->
  PropertySearchTool.filtered_properties c inventory
  = Ok (List.filter (meets c) inventory).
Proof.
  induction 1 as [|p l Hp Hl IH]; [reflexivity|].
  cbn [PropertySearchTool.filtered_properties List.filter].
  rewrite (keeps_searchable c p Hp), IH. cbn [bind].
  destruct (meets c p); reflexivity.
Qed.

(** X18.  Over an inventory whose listings carry the keys that the search reads,
    the search returns exactly the listings that meet the conditions, in the
    order of the inventory, with their number and no error. *)
Theorem search_returns_the_listings_that_meet (inventory : list Listing.t)
    (c : PropertySearchTool.Conditions) :
  Forall (fun p => searchable p = true) inventory ->
  PropertySearchTool.run_on inventory c
  = Ok (PropertySearchTool.mkSearchResult
          (Z.of_nat (length (List.filter (meets c) inventory)))
          (List.filter (meets c) inventory) None).
Proof.
  intro H. unfold PropertySearchTool.run_on.
  now rewrite filtered_properties_searchable.
Qed.

Lemma mock_properties_searchable :
  Forall (fun p => searchable p = true) PropertySearchTool.mock_properties.
Proof. repeat constructor. Qed.

Lemma search_returns_the_listings_that_meet_witness :
  PropertySearchTool.run_on PropertySearchTool.mock_properties
    (PropertySearchTool.mkConditions (Some (PyFloat.Finite 3000000))
       (Some (PyFloat.Finite 5000000)) (Some "朝阳区") None (Some 30%Z))
  = Ok (PropertySearchTool.mkSearchResult
          (Z.of_nat (length (List.filter
             (meets (PropertySearchTool.mkConditions
                       (Some (PyFloat.Finite 3000000))
                       (Some (PyFloat.Finite 5000000))
                       (Some "朝阳区") None (Some 30%Z)))
             PropertySearchTool.mock_properties)))
          (List.filter
             (meets (PropertySearchTool.mkConditions
                       (Some (PyFloat.Finite 3000000))
                       (Some (PyFloat.Finite 5000000))
                       (Some "朝阳区") None (Some 30%Z)))
             PropertySearchTool.mock_properties) None).
Proof.
  apply (search_returns_the_listings_that_meet PropertySearchTool.mock_properties).
  exact mock_properties_searchable.
Defined.

(** X19.  A condition of zero or of the empty text is no condition: the search
    with it is the search without it, over any inventory, and the key is not
    even read. *)
Theorem search_ignores_false_conditions (inventory : list Listing.t)
    (c : PropertySearchTool.Conditions) :
  let unset_num (bound : option PyFloat.t) :=
    match bound with
    | Some b => if PyFloat.is_zero b then None else Some b
    | None => None
    end in
  let unset_str (wanted : option string) :=
    match wanted with
    | Some w => if PyStr.is_empty w then None else Some w
    | None => None
    end in
  let unset_int (bound : option Z) :=
    match bound with
    | Some b => if (b =? 0)%Z then None else Some b
    | None => None
    end in
  PropertySearchTool.run_on inventory c
  = PropertySearchTool.run_on inventory
      (PropertySearchTool.mkConditions
         (unset_num (PropertySearchTool.budget_min c))
         (unset_num (PropertySearchTool.budget_max c))
         (unset_str (PropertySearchTool.area c))
         (unset_str (PropertySearchTool.school_district c))
         (unset_int (PropertySearchTool.max_commute_time c))).
Proof.
  cbv zeta. unfold PropertySearchTool.run_on. f_equal.
  induction inventory as [|p l IH]; [reflexivity|].
  cbn [PropertySearchTool.filtered_properties]. rewrite IH. f_equal.
  unfold PropertySearchTool.keeps. cbn [PropertySearchTool.budget_min
    PropertySearchTool.budget_max PropertySearchTool.area
    PropertySearchTool.school_district PropertySearchTool.max_commute_time].
  assert (Hn : forall bound field test,
    PropertySearchTool.skip_num
      match bound with
      | Some b => if PyFloat.is_zero b then None else Some b
      | None => None
      end field test
    = PropertySearchTool.skip_num bound field test).
  { intros [b|] field test; [|reflexivity]. unfold PropertySearchTool.skip_num.
    destruct (PyFloat.is_zero b) eqn:E; [reflexivity|]. now rewrite E. }
  assert (Hs : forall wanted field,
    PropertySearchTool.skip_str
      match wanted with
      | Some w => if PyStr.is_empty w then None else Some w
      | None => None
      end field
    = PropertySearchTool.skip_str wanted field).
  { intros [w|] field; [|reflexivity]. unfold PropertySearchTool.skip_str.
    destruct (PyStr.is_empty w) eqn:E; [reflexivity|]. now rewrite E. }
  assert (Hi : forall bound field,
    PropertySearchTool.skip_int
      match bound with
      | Some b => if (b =? 0)%Z then None else Some b
      | None => None
      end field
    = PropertySearchTool.skip_int bound field).
  { intros [b|] field; [|reflexivity]. unfold PropertySearchTool.skip_int.
    destruct (b =? 0)%Z eqn:E; [reflexivity|]. now rewrite E. }
  now rewrite !Hn, !Hs, Hi.
Qed.

(** ** Search, then match *)

Lemma filtered_properties_kept (c : PropertySearchTool.Conditions)
    (inventory filtered : list Listing.t) (p : Listing.t) :
  PropertySearchTool.filtered_properties c inventory = Ok filtered ->
  In p filtered ->
  In p inventory /\ PropertySearchTool.keeps c p = Ok true.
Proof.
  revert filtered. induction inventory as [|x l IH]; intros filtered H Hin.
  - inversion H. subst. contradiction.
  - cbn [PropertySearchTool.filtered_properties] in H.
    destruct (PropertySearchTool.keeps c x) as [keep|] eqn:Ek; [|discriminate].
    destruct (PropertySearchTool.filtered_properties c l) as [tail|];
      [|discriminate].
    cbn [bind] in H. inversion H. subst filtered. clear H.
    destruct keep.
    + destruct Hin as [<-|Hin]; [split; [now left|assumption]|].
      destruct (IH tail eq_refl Hin). split; [now right|assumption].
    + destruct (IH tail eq_refl Hin). split; [now right|assumption].
Qed.

(** What the search has checked of a listing that it keeps. *)
Lemma keeps_true_inv (c : PropertySearchTool.Conditions) (p : Listing.t) :
  PropertySearchTool.keeps c p = Ok true ->
  PropertySearchTool.skip_num (PropertySearchTool.budget_min c)
    (Listing.price p) PyFloat.lt = Ok false
  /\ PropertySearchTool.skip_num (PropertySearchTool.budget_max c)
       (Listing.price p) (fun price b => PyFloat.lt b price) = Ok false
  /\ PropertySearchTool.skip_str (PropertySearchTool.area c) (Listing.area p)
     = Ok false
  /\ PropertySearchTool.skip_str (PropertySearchTool.school_district c)
       (Listing.school_district p) = Ok false
  /\ PropertySearchTool.skip_int (PropertySearchTool.max_commute_time c)
       (Listing.commute_time p) = Ok false.
Proof.
  unfold PropertySearchTool.keeps.
  destruct (PropertySearchTool.skip_num (PropertySearchTool.budget_min c) _ _)
    as [[]|]; cbn [bind]; try discriminate.
  destruct (PropertySearchTool.skip_num (PropertySearchTool.budget_max c) _ _)
    as [[]|]; cbn [bind]; try discriminate.
  destruct (PropertySearchTool.skip_str (PropertySearchTool.area c) _)
    as [[]|]; cbn [bind]; try discriminate.
  destruct (PropertySearchTool.skip_str (PropertySearchTool.school_district c) _)
    as [[]|]; cbn [bind]; try discriminate.
  destruct (PropertySearchTool.skip_int _ _) as [[]|]; cbn [bind];
    try discriminate.
  intros _. repeat split.
Qed.

(** A bound that let the price pass, when it is not NaN. *)
Lemma kept_above (bmin : PyFloat.t) (price : Q) :
  PropertySearchTool.skip_num (Some bmin) (Some price) PyFloat.lt = Ok false ->
  match bmin with
  | PyFloat.Finite b => b == 0 \/ b <= price
  | PyFloat.PosInf => False
  | _ => True
  end.
Proof.
  unfold PropertySearchTool.skip_num. destruct bmin as [b| | |]; simpl; auto.
  - destruct (Qeq_bool b 0) eqn:E; [left; now apply Qeq_bool_iff|].
    right. inversion H as [H']. now apply Qlt_bool_false in H'.
  - discriminate.
Qed.

Lemma kept_below (bmax : PyFloat.t) (price : Q) :
  PropertySearchTool.skip_num (Some bmax) (Some price)
    (fun price b => PyFloat.lt b price) = Ok false ->
  match bmax with
  | PyFloat.Finite b => b == 0 \/ price <= b
  | PyFloat.NegInf => False
  | _ => True
  end.
Proof.
  unfold PropertySearchTool.skip_num. destruct bmax as [b| | |]; simpl; auto.
  - destruct (Qeq_bool b 0) eqn:E; [left; now apply Qeq_bool_iff|].
    right. inversion H as [H']. now apply Qlt_bool_false in H'.
  - discriminate.
Qed.

Lemma kept_budget_score (bmin bmax : option PyFloat.t) (price s : Q) :
  is_nan bmin = false -> is_nan bmax = false ->
  PropertySearchTool.skip_num bmin (Some price) PyFloat.lt = Ok false ->
  PropertySearchTool.skip_num bmax (Some price)
    (fun price b => PyFloat.lt b price) = Ok false ->
  calculate_budget_score price bmin bmax = Ok s ->
  s = match bmin, bmax with None, None => 0.5 | _, _ => 1 end.
Proof.
  intros Hn1 Hn2 Hlo Hhi.
  assert (Hlo' : match bmin with Some b =>
                   match b with
                   | PyFloat.Finite b => b == 0 \/ b <= price
                   | PyFloat.PosInf => False
                   | _ => True
                   end | None => True end).
  { destruct bmin as [b|]; [|exact I]. now apply kept_above. }
  assert (Hhi' : match bmax with Some b =>
                   match b with
                   | PyFloat.Finite b => b == 0 \/ price <= b
                   | PyFloat.NegInf => False
                   | _ => True
                   end | None => True end).
  { destruct bmax as [b|]; [|exact I]. now apply kept_below. }
  clear Hlo Hhi.
  destruct bmin as [[lo| | |]|], bmax as [[hi| | |]|];
    try contradiction; try discriminate.
  - rewrite budget_score_numbers.
    destruct (Qle_bool lo price && Qle_bool price hi) eqn:E; [congruence|].
    destruct (PyNum.Qlt_bool price lo) eqn:E1.
    + apply Qlt_bool_true in E1. destruct Hlo' as [Hz|Hle]; [|lra].
      rewrite div_zero by assumption. discriminate.
    + apply Qlt_bool_false in E1. apply Qle_bool_iff in E1. rewrite E1 in E.
      cbn [andb] in E. apply Qle_bool_false in E.
      destruct Hhi' as [Hz|Hle]; [|lra].
      rewrite div_zero by assumption. discriminate.
  - unfold calculate_budget_score. simpl. rewrite andb_true_r.
    destruct (Qle_bool lo price) eqn:E; [congruence|].
    apply Qle_bool_false in E. rewrite (proj2 (Qlt_bool_true _ _) E).
    destruct Hlo' as [Hz|Hle]; [|lra].
    rewrite div_zero by assumption. discriminate.
  - rewrite budget_score_floor.
    destruct (Qle_bool lo price) eqn:E; [congruence|].
    apply Qle_bool_false in E. destruct Hlo' as [Hz|Hle]; [|lra].
    rewrite div_zero by assumption. discriminate.
  - unfold calculate_budget_score. simpl.
    destruct (Qle_bool price hi) eqn:E; [congruence|].
    apply Qle_bool_false in E. destruct Hhi' as [Hz|Hle]; [|lra].
    rewrite div_zero by assumption. discriminate.
  - unfold calculate_budget_score. simpl. congruence.
  - unfold calculate_budget_score. simpl. congruence.
  - rewrite budget_score_cap.
    destruct (Qle_bool price hi) eqn:E; [congruence|].
    apply Qle_bool_false in E. destruct Hhi' as [Hz|Hle]; [|lra].
    rewrite div_zero by assumption. discriminate.
  - unfold calculate_budget_score. simpl. congruence.
  - unfold calculate_budget_score. simpl. congruence.
Qed.

Lemma kept_text_score (wanted value : string) :
  PropertySearchTool.skip_str (Some wanted) (Some value) = Ok false ->
  calculate_area_score value wanted = (if PyStr.is_empty wanted then 0.5 else 1)
  /\ calculate_school_score value wanted
     = (if PyStr.is_empty wanted then 0.5 else 1).
Proof.
  unfold PropertySearchTool.skip_str, calculate_area_score, calculate_school_score.
  destruct (PyStr.is_empty wanted); [now split|]. cbn [getitem bind].
  intro H. inversion H as [Hc]. apply negb_false_iff in Hc. rewrite Hc.
  now split.
Qed.

Lemma kept_commute_score (cap commute : Z) (s : Q) :
  PropertySearchTool.skip_int (Some cap) (Some commute) = Ok false ->
  calculate_commute_score commute (Some cap) = Ok s -> s = 1.
Proof.
  unfold PropertySearchTool.skip_int, calculate_commute_score. cbn [getitem bind].
  destruct (cap =? 0)%Z eqn:E.
  - apply Z.eqb_eq in E. subst cap. intros _.
    destruct (commute <=? 0)%Z; [congruence|].
    rewrite int_div_zero. discriminate.
  - intro H. inversion H as [Hlt]. apply Z.ltb_ge in Hlt.
    apply Z.leb_le in Hlt. rewrite Hlt. congruence.
Qed.

Lemma kept_listing_scores (self : MatchingAgent.t)
    (inventory : list Listing.t) (reqs : Requirements.t) (p : Listing.t)
    (ms : MatchingScore) :
  In p (PropertySearchTool.properties (PropertyAgent.search_in inventory reqs)) ->
  calculate_matching_score self p reqs = Ok ms ->
  exists budget_min budget_max cap,
    parse_budget (get_str (Requirements.budget reqs)) = Ok (budget_min, budget_max)
    /\ parse_commute (get_str (Requirements.commute reqs)) = Ok cap
    /\ (is_nan budget_min = false -> is_nan budget_max = false ->
        budget_score ms
        = match budget_min, budget_max with None, None => 0.5 | _, _ => 1 end)
    /\ area_score ms
       = (if PyStr.is_empty (get_str (Requirements.area reqs)) then 0.5 else 1)
    /\ school_score ms
       = (if PyStr.is_empty (get_str (Requirements.school_district reqs))
          then 0.5 else 1)
    /\ match cap with Some _ => commute_score ms = 1 | None => True end.
Proof.
  unfold PropertyAgent.search_in, PropertyAgent.conditions_of.
  rewrite search_parse_budget, search_parse_commute.
  unfold calculate_matching_score.
  destruct (parse_budget _) as [[bmin bmax]|]; cbn [bind]; [|contradiction].
  destruct (parse_commute _) as [cap|]; cbn [bind]; [|contradiction].
  unfold PropertySearchTool.run_on.
  destruct (PropertySearchTool.filtered_properties _ inventory) as [filtered|] eqn:Ef;
    cbn [bind PropertySearchTool.properties]; [|contradiction].
  intros Hin H.
  destruct (filtered_properties_kept _ _ _ _ Ef Hin) as [_ Hk].
  apply keeps_true_inv in Hk as (Hlo & Hhi & Ha & Hs & Hc).
  cbn [PropertySearchTool.budget_min PropertySearchTool.budget_max
       PropertySearchTool.area PropertySearchTool.school_district
       PropertySearchTool.max_commute_time] in *.
  destruct (Listing.price p) as [price|]; cbn [getitem bind] in H; [|discriminate].
  destruct (calculate_budget_score price bmin bmax) as [bs|] eqn:Eb;
    cbn [bind] in H; [|discriminate].
  destruct (Listing.area p) as [area|]; cbn [getitem bind] in H; [|discriminate].
  destruct (Listing.school_district p) as [school|]; cbn [getitem bind] in H;
    [|discriminate].
  destruct (Listing.commute_time p) as [commute|]; cbn [getitem bind] in H;
    [|discriminate].
  destruct (calculate_commute_score commute cap) as [cs|] eqn:Ec;
    cbn [bind] in H; [|discriminate].
  destruct (Listing.property_id p); cbn [getitem bind] in H; [|discriminate].
  inversion H. cbn [budget_score area_score school_score commute_score].
  exists bmin, bmax, cap. split; [reflexivity|]. split; [reflexivity|].
  split; [intros Hn1 Hn2; now apply (kept_budget_score bmin bmax price bs)|].
  split; [now apply kept_text_score|].
  split; [now apply kept_text_score|].
  destruct cap as [r|]; [|exact I]. now apply (kept_commute_score r commute).
Qed.

Lemma matching_score_total (self : MatchingAgent.t) (p : Listing.t)
    (reqs : Requirements.t) (ms : MatchingScore) :
  calculate_matching_score self p reqs = Ok ms ->
  total_score ms
  = budget_score ms * budget_weight self + area_score ms * area_weight self
    + school_score ms * school_weight self
    + commute_score ms * commute_weight self.
Proof.
  unfold calculate_matching_score.
  destruct (parse_budget _) as [[bmin bmax]|]; cbn [bind]; [|discriminate].
  destruct (parse_commute _); cbn [bind]; [|discriminate].
  destruct (Listing.price p); cbn [getitem bind]; [|discriminate].
  destruct (calculate_budget_score _ _ _); cbn [bind]; [|discriminate].
  destruct (Listing.area p); cbn [getitem bind]; [|discriminate].
  destruct (Listing.school_district p); cbn [getitem bind]; [|discriminate].
  destruct (Listing.commute_time p); cbn [getitem bind]; [|discriminate].
  destruct (calculate_commute_score _ _); cbn [bind]; [|discriminate].
  destruct (Listing.property_id p); cbn [getitem bind]; [|discriminate].
  intro H. inversion H. reflexivity.
Qed.

(** X21.  A listing that the search returns for some requirements is a full match
    of the same requirements: whenever [calculate_matching_score] returns,
    the area and school scores are 1 where the requirement is set and 0.5
    where it is not, the commute score is 1 under a cap, and the budget
    score is 1 under a bound and 0.5 without one, unless a bound is read as
    NaN.  When the four requirements are all set, the total is therefore
    the sum of the weights for every listing of the search: the matching
    cannot tell them apart, and the ranking is the order of the search. *)
Theorem searched_listing_scores (self : MatchingAgent.t)
    (inventory : list Listing.t) (reqs : Requirements.t) (p : Listing.t)
    (ms : MatchingScore) :
  In p (PropertySearchTool.properties (PropertyAgent.search_in inventory reqs)) ->
  calculate_matching_score self p reqs = Ok ms ->
  exists budget_min budget_max cap,
    parse_budget (get_str (Requirements.budget reqs)) = Ok (budget_min, budget_max)
    /\ parse_commute (get_str (Requirements.commute reqs)) = Ok cap
    /\ (is_nan budget_min = false -> is_nan budget_max = false ->
        budget_score ms
        = match budget_min, budget_max with None, None => 0.5 | _, _ => 1 end)
    /\ area_score ms
       = (if PyStr.is_empty (get_str (Requirements.area reqs)) then 0.5 else 1)
    /\ school_score ms
       = (if PyStr.is_empty (get_str (Requirements.school_district reqs))
          then 0.5 else 1)
    /\ match cap with Some _ => commute_score ms = 1 | None => True end
    /\ (is_nan budget_min = false -> is_nan budget_max = false ->
        budget_max <> None ->
        get_str (Requirements.area reqs) <> "" ->
        get_str (Requirements.school_district reqs) <> "" ->
        cap <> None ->
        total_score ms == weight_sum self).
Proof.
  intros Hin H.
  destruct (kept_listing_scores self inventory reqs p ms Hin H)
    as (bmin & bmax & cap & Eb & Ec & Hbs & Has & Hss & Hcs).
  exists bmin, bmax, cap. repeat (split; [assumption|]).
  intros Hn1 Hn2 Hb Ha Hs Hc.
  rewrite (matching_score_total _ _ _ _ H), (Hbs Hn1 Hn2), Has, Hss.
  destruct cap as [r|]; [|contradiction]. rewrite Hcs.
  destruct bmax as [hi|]; [|contradiction].
  destruct (get_str (Requirements.area reqs)); [contradiction|].
  destruct (get_str (Requirements.school_district reqs)); [contradiction|].
  cbn [PyStr.is_empty]. unfold weight_sum.
  destruct bmin; ring.
Qed.

Lemma searched_listing_scores_witness :
  exists budget_min budget_max cap,
    parse_budget (get_str (Requirements.budget Examples.requirements))
    = Ok (budget_min, budget_max)
    /\ parse_commute (get_str (Requirements.commute Examples.requirements)) = Ok cap
    /\ (is_nan budget_min = false -> is_nan budget_max = false ->
        budget_score Examples.score_P001
        = match budget_min, budget_max with None, None => 0.5 | _, _ => 1 end)
    /\ area_score Examples.score_P001
       = (if PyStr.is_empty (get_str (Requirements.area Examples.requirements))
          then 0.5 else 1)
    /\ school_score Examples.score_P001
       = (if PyStr.is_empty
               (get_str (Requirements.school_district Examples.requirements))
          then 0.5 else 1)
    /\ match cap with Some _ => commute_score Examples.score_P001 = 1 | None => True end
    /\ (is_nan budget_min = false -> is_nan budget_max = false ->
        budget_max <> None ->
        get_str (Requirements.area Examples.requirements) <> "" ->
        get_str (Requirements.school_district Examples.requirements) <> "" ->
        cap <> None ->
        total_score Examples.score_P001 == weight_sum Examples.agent).
Proof.
  apply (searched_listing_scores Examples.agent PropertySearchTool.mock_properties
           Examples.requirements Examples.P001).
  - vm_compute. left. reflexivity.
  - vm_compute. reflexivity.
Defined.

(** A budget of NaN passes every listing through the search, and the budget
    score of a listing it returns is then not 1: for ["nan-500万"] the
    listing P001 is returned and scores 13/10. *)
Lemma searched_listing_nan_bound :
  In Examples.P001
     (PropertySearchTool.properties
        (PropertyAgent.search_properties
           (Requirements.mk (Some "nan-500万") None None None)))
  /\ exists ms,
       calculate_matching_score Examples.agent Examples.P001
         (Requirements.mk (Some "nan-500万") None None None) = Ok ms
       /\ budget_score ms == 13 # 10.
Proof.
  split; [vm_compute; left; reflexivity|].
  eexists. split; [vm_compute; reflexivity|]. vm_compute. reflexivity.
Qed.



(** X20.  The search reports an error, and no property, exactly when the
    parsing of the budget text or of the commute text raises: the error is
    the [ValueError] of a number that [float] cannot read or of a run of
    more than 4300 digits; otherwise, over an inventory whose listings
    carry the keys that the search reads, it reports none. *)
Theorem search_error_is_the_parse_error (inventory : list Listing.t)
    (reqs : Requirements.t) :
  Forall (fun p => searchable p = true) inventory ->
  match parse_budget (get_str (Requirements.budget reqs)),
        parse_commute (get_str (Requirements.commute reqs)) with
  | Ok _, Ok _ =>
      PropertySearchTool.error (PropertyAgent.search_in inventory reqs) = None
  | _, _ =>
      PropertyAgent.search_in inventory reqs
      = PropertySearchTool.mkSearchResult 0 [] (Some ValueError)
  end.
Proof.
  intro Hinv. unfold PropertyAgent.search_in, PropertyAgent.conditions_of.
  rewrite search_parse_budget.
  change PropertyAgent.parse_commute with parse_commute.
  destruct (parse_budget _) as [[bmin bmax]|e] eqn:Eb; cbn [bind].
  - destruct (parse_commute _) as [cap|e] eqn:Ec; cbn [bind].
    + unfold PropertySearchTool.run_on.
      now rewrite filtered_properties_searchable.
    + now rewrite (parse_commute_raises_value_error _ _ Ec).
  - now rewrite (parse_budget_raises_value_error _ _ Eb).
Qed.

Lemma search_error_is_the_parse_error_witness :
  match parse_budget
          (get_str (Requirements.budget
                      (Requirements.mk (Some "五百万以内") None None None))),
        parse_commute
          (get_str (Requirements.commute
                      (Requirements.mk (Some "五百万以内") None None None))) with
  | Ok _, Ok _ =>
      PropertySearchTool.error
        (PropertyAgent.search_in PropertySearchTool.mock_properties
           (Requirements.mk (Some "五百万以内") None None None)) = None
  | _, _ =>
      PropertyAgent.search_in PropertySearchTool.mock_properties
        (Requirements.mk (Some "五百万以内") None None None)
      = PropertySearchTool.mkSearchResult 0 [] (Some ValueError)
  end.
Proof.
  apply (search_error_is_the_parse_error PropertySearchTool.mock_properties
           (Requirements.mk (Some "五百万以内") None None None)).
  exact mock_properties_searchable.
Defined.

(** ** The whole system *)

(** X22.  Without any requirement the price, the area and the school play no
    part: the three scores are 0.5 for every listing, and of two listings
    whose commute times are within the range of the doubles the one with
    the shorter commute never has the lower total, under a commute weight
    that is not negative. *)
Theorem no_requirement_commute_decides (self : MatchingAgent.t)
    (reqs : Requirements.t) (p1 p2 : Listing.t) (c1 c2 : Z) :
  no_requirement reqs ->
  0 <= commute_weight self ->
  missing_required p1 = false -> missing_required p2 = false ->
  Listing.commute_time p1 = Some c1 -> Listing.commute_time p2 = Some c2 ->
  (Z.abs c1 < PyNum.overflow_bound)%Z -> (Z.abs c2 < PyNum.overflow_bound)%Z ->
  (c1 <= c2)%Z ->
  exists ms1 ms2,
    calculate_matching_score self p1 reqs = Ok ms1
    /\ calculate_matching_score self p2 reqs = Ok ms2
    /\ budget_score ms1 = 0.5 /\ area_score ms1 = 0.5 /\ school_score ms1 = 0.5
    /\ budget_score ms2 = 0.5 /\ area_score ms2 = 0.5 /\ school_score ms2 = 0.5
    /\ total_score ms2 <= total_score ms1.
Proof.
  intros (Hb & Ha & Hs & Hc) Hw H1 H2 E1 E2 T1 T2 H12.
  assert (Hscore : forall p c, missing_required p = false ->
    Listing.commute_time p = Some c -> (Z.abs c < PyNum.overflow_bound)%Z ->
    exists ms, calculate_matching_score self p reqs = Ok ms
      /\ budget_score ms = 0.5 /\ area_score ms = 0.5 /\ school_score ms = 0.5
      /\ commute_score ms = PyNum.max 0 (1 - inject_Z c / 60)).
  { intros p c Hp Ec HT. unfold calculate_matching_score.
    rewrite Hb, Ha, Hs, Hc, Ec. cbn [parse_budget parse_commute PyStr.is_empty
      negb andb bind getitem].
    unfold missing_required in Hp. rewrite Ec in Hp.
    destruct (Listing.price p); [|discriminate Hp].
    destruct (Listing.area p); [|discriminate Hp].
    destruct (Listing.school_district p); [|discriminate Hp].
    destruct (Listing.property_id p); [|discriminate Hp].
    cbn [getitem bind calculate_budget_score].
    rewrite commute_score_uncapped by assumption. cbn [bind].
    eexists. split; [reflexivity|]. repeat split. }
  destruct (Hscore p1 c1 H1 E1 T1) as (ms1 & M1 & B1 & A1 & S1 & C1).
  destruct (Hscore p2 c2 H2 E2 T2) as (ms2 & M2 & B2 & A2 & S2 & C2).
  exists ms1, ms2. repeat split; try assumption.
  rewrite (matching_score_total _ _ _ _ M1), (matching_score_total _ _ _ _ M2).
  rewrite B1, A1, S1, B2, A2, S2, C1, C2.
  assert (Hmax : PyNum.max 0 (1 - inject_Z c2 / 60) <= PyNum.max 0 (1 - inject_Z c1 / 60)).
  { apply max_mono.
    assert (inject_Z c1 / 60 <= inject_Z c2 / 60).
    { apply quotient_mono; [reflexivity|]. now rewrite <- Zle_Qle. }
    lra. }
  nra.
Qed.

Lemma no_requirement_commute_decides_witness :
  exists ms1 ms2,
    calculate_matching_score Examples.agent Examples.P001
      (Requirements.mk None None None None) = Ok ms1
    /\ calculate_matching_score Examples.agent Examples.P005
         (Requirements.mk None None None None) = Ok ms2
    /\ budget_score ms1 = 0.5 /\ area_score ms1 = 0.5 /\ school_score ms1 = 0.5
    /\ budget_score ms2 = 0.5 /\ area_score ms2 = 0.5 /\ school_score ms2 = 0.5
    /\ total_score ms2 <= total_score ms1.
Proof.
  apply (no_requirement_commute_decides Examples.agent
           (Requirements.mk None None None None) Examples.P001 Examples.P005 25 28).
  - repeat split.
  - vm_compute. discriminate.
  - reflexivity.
  - reflexivity.
  - reflexivity.
  - reflexivity.
  - reflexivity.
  - reflexivity.
  - lia.
Defined.

(** X23.  [process_user_query] does not read the query: the requirement tool is
    called with no field, so every query is answered, under any rounding,
    with the three listings of the mock inventory that have the shortest
    commute, P004, P001 and P005 in this order, out of the five that the
    search returns. *)
Theorem process_user_query_ignores_the_query (round2 : Q -> Q)
    (user_query : string) :
  exists system avg top entries,
    RealEstateMultiAgentSystem.__init__ = Ok system
    /\ PropertySearchTool.total_count
         (PropertyAgent.search_properties
            (RequirementExtractionTool._run None None None None)) = 5%Z
    /\ RealEstateMultiAgentSystem.process_user_query round2 system user_query
       = RealEstateMultiAgentSystem.Answer
           (Report 3 avg 3200000 5800000 top entries)
    /\ map (fun entry => (se_rank entry, se_property_id entry, se_commute_time entry))
           entries
       = [(1%Z, "P004", 15%Z); (2%Z, "P001", 25%Z); (3%Z, "P005", 28%Z)]
    /\ top_property_id top = "P004".
Proof.
  do 4 eexists. split; [vm_compute; reflexivity|].
  split; [vm_compute; reflexivity|].
  split; [vm_compute; reflexivity|].
  split; reflexivity.
Qed.

(** ** The default weights *)

(** X16.  The default arguments 0.4, 0.2, 0.3, 0.3 do not sum to 1, so the agent
    of the default constructor does not work with them: it stores the
    doubles that Python prints as 0.3333333333333333, 0.16666666666666666,
    0.24999999999999994 and 0.24999999999999994, each below the default
    argument, and their sum is 1.0. *)
Theorem default_weights :
  exists self,
    Binary64.__init__ 0.4 0.2 0.3 0.3 = Ok self
    /\ Binary64.budget_weight self = 0x1.5555555555555p-2%float
    /\ Binary64.area_weight self = 0x1.5555555555555p-3%float
    /\ Binary64.school_weight self = 0x1.ffffffffffffep-3%float
    /\ Binary64.commute_weight self = 0x1.ffffffffffffep-3%float
    /\ PrimFloat.ltb (Binary64.budget_weight self) 0.4 = true
    /\ PrimFloat.ltb (Binary64.area_weight self) 0.2 = true
    /\ PrimFloat.ltb (Binary64.school_weight self) 0.3 = true
    /\ PrimFloat.ltb (Binary64.commute_weight self) 0.3 = true
    /\ Binary64.weight_sum self = 1%float.
Proof.
  eexists. split; [vm_compute; reflexivity|].
  repeat split; vm_compute; reflexivity.
Qed.
